(** * Enact-Pricing: the extraction-and-analysis pipeline

    A shallow embedding of the pure parts of the repository (price
    parsing, chunking, page cleaning, raw extraction, search URLs, market
    analysis, recommendations, the delegate adapters, the chat guard and
    the API endpoint) together with the properties the specification
    states about them and further properties the code has.

    Conventions of the embedding.
    - A Python [str] is a Rocq [string]; a character is an [ascii].  Text
      outside ASCII is carried as its UTF-8 bytes, none of which is an ASCII
      digit, point, letter or blank, so on text whose digits, blanks and
      letters are the ASCII ones the string functions below agree with
      Python's.
    - A Python [float] is idealised as an exact rational ([Q]); [math.sqrt]
      and the printing of numbers are parameters of the sections that need
      them.
    - A dictionary is a [gmap] from keys to values; a dictionary whose
      order shows in the output is an association list.
    - A function that may raise returns an [option]; a caught exception is
      written out as the branch the handler takes.  The adapters run in a
      small monad that counts the requests to the language model and logs
      what is done with its replies.  Where replies are evaluated as code
      a call has an [outcome]: it returns, raises an [Exception], or
      escapes every [except Exception].
    - A page is what the scrapers see of it: the document tree for the
      element chunker, and for each listing node the outcome of the
      selector queries made on it. *)

From Stdlib Require Import String Ascii List ZArith QArith Qround Qminmax Lia Lqa Bool.
From stdpp Require Import gmap strings pretty sorting.
Import ListNotations.

(** ** Python string primitives *)

Module PyStr.

(** [c.isdigit()] on the ASCII range. *)
Definition isdigit (c : ascii) : bool :=
  let n := nat_of_ascii c in (48 <=? n)%nat && (n <=? 57)%nat.

(** [c.isspace()] on the ASCII range: tab, newline, vertical tab, form
    feed, carriage return, the four separators 28..31 and the space. *)
Definition isspace (c : ascii) : bool :=
  let n := nat_of_ascii c in
  ((9 <=? n)%nat && (n <=? 13)%nat) || ((28 <=? n)%nat && (n <=? 32)%nat).

(** [c.lower()] on the ASCII range. *)
Definition lower_char (c : ascii) : ascii :=
  let n := nat_of_ascii c in
  if (65 <=? n)%nat && (n <=? 90)%nat then ascii_of_nat (n + 32) else c.

Fixpoint lower (s : string) : string :=
  match s with
  | EmptyString => EmptyString
  | String c r => String (lower_char c) (lower r)
  end.

(** [''.join(c for c in s if keep c)] *)
Fixpoint filter_chars (keep : ascii -> bool) (s : string) : string :=
  match s with
  | EmptyString => EmptyString
  | String c r =>
      if keep c then String c (filter_chars keep r) else filter_chars keep r
  end.

(** [s.count(c)] for a one-character needle. *)
Fixpoint count (c : ascii) (s : string) : nat :=
  match s with
  | EmptyString => 0
  | String d r => if Ascii.eqb d c then S (count c r) else count c r
  end.

(** [s.replace(c, '', n)]: the first [n] occurrences of [c] are dropped. *)
Fixpoint remove_first (c : ascii) (n : nat) (s : string) : string :=
  match s with
  | EmptyString => EmptyString
  | String d r =>
      match n with
      | O => s
      | S n' =>
          if Ascii.eqb d c then remove_first c n' r
          else String d (remove_first c n r)
      end
  end.

(** [sub in s] *)
Fixpoint contains (sub s : string) : bool :=
  String.prefix sub s ||
  match s with
  | EmptyString => false
  | String _ r => contains sub r
  end.

(** [s.split(sep)[0]]: the text before the leftmost occurrence of [sep],
    the whole of [s] when [sep] does not occur. *)
Fixpoint split_head (sep s : string) : string :=
  if String.prefix sep s then EmptyString
  else match s with
       | EmptyString => EmptyString
       | String c r => String c (split_head sep r)
       end.

Fixpoint lstrip (s : string) : string :=
  match s with
  | EmptyString => EmptyString
  | String c r => if isspace c then lstrip r else s
  end.

Fixpoint rstrip (s : string) : string :=
  match s with
  | EmptyString => EmptyString
  | String c r =>
      match rstrip r with
      | EmptyString => if isspace c then EmptyString else String c EmptyString
      | r' => String c r'
      end
  end.

(** [s.replace(sub, '')]: every occurrence of [sub], found left to right
    without overlap, is dropped; [skip] counts the characters of an
    occurrence still to be passed over. *)
Fixpoint remove_all_from (sub : string) (skip : nat) (s : string) : string :=
  match s with
  | EmptyString => EmptyString
  | String c r =>
      match skip with
      | S k => remove_all_from sub k r
      | O =>
          if negb (String.eqb sub "") && String.prefix sub s
          then remove_all_from sub (String.length sub - 1) r
          else String c (remove_all_from sub 0 r)
      end
  end.

Definition remove_all (sub s : string) : string := remove_all_from sub 0 s.

(** [s.strip()] *)
Definition strip (s : string) : string := rstrip (lstrip s).

(** [sep.join(parts)] *)
Fixpoint join (sep : string) (parts : list string) : string :=
  match parts with
  | [] => EmptyString
  | [p] => p
  | p :: ps => p +:+ sep +:+ join sep ps
  end.

(** [s.split(c)] for a one-character separator: never the empty list. *)
Fixpoint split (c : ascii) (s : string) : list string :=
  match s with
  | EmptyString => [EmptyString]
  | String d r =>
      if Ascii.eqb d c then EmptyString :: split c r
      else match split c r with
           | [] => [String d EmptyString]
           | p :: ps => String d p :: ps
           end
  end.

End PyStr.

(** ** [decimal.Decimal] on digit strings *)

(** A finite non-negative [Decimal]: [coefficient * 10 ^ exponent]. *)
Record Decimal := mkDecimal { coefficient : N; exponent : Z }.

Definition digit_value (c : ascii) : N := N.of_nat (nat_of_ascii c - 48).

(** The number a run of digits denotes, most significant digit first. *)
Fixpoint digits_value (acc : N) (s : string) : N :=
  match s with
  | EmptyString => acc
  | String c r => digits_value (10 * acc + digit_value c)%N r
  end.

Fixpoint all_chars (p : ascii -> bool) (s : string) : bool :=
  match s with
  | EmptyString => true
  | String c r => p c && all_chars p r
  end.

(** [Decimal(s)] for the texts the price parser hands over: digits with
    at most one point and at least one digit.  Every other text over this
    alphabet raises [InvalidOperation], here [None]. *)
Definition Decimal_of_string (s : string) : option Decimal :=
  let int_part := PyStr.split_head "." s in
  let digits := PyStr.filter_chars PyStr.isdigit s in
  if all_chars (fun c => PyStr.isdigit c || Ascii.eqb c ".") s
     && (PyStr.count "." s <=? 1)%nat
     && negb (String.eqb digits "")
  then Some {| coefficient := digits_value 0 digits;
               exponent :=
                 - Z.of_nat (String.length digits - String.length int_part) |}
  else None.

(** [float(d)], exact. *)
Definition float_of_Decimal (d : Decimal) : Q :=
  match exponent d with
  | Zneg k => Z.of_N (coefficient d) # (10 ^ k)
  | e => inject_Z (Z.of_N (coefficient d) * 10 ^ e)
  end.

(** ** Price normaliser ([PriceParser.extract_numeric_price]) *)

Module PriceParser.

Definition extract_numeric_price (price_str : string) : option Decimal :=
  if String.eqb price_str ""
     || String.eqb price_str "Not specified"
     || String.eqb (PyStr.strip price_str) ""
  then None
  else
    let price_str :=
      if PyStr.contains " to " price_str
      then PyStr.split_head " to " price_str
      else price_str in
    let numeric_str :=
      PyStr.filter_chars (fun c => PyStr.isdigit c || Ascii.eqb c ".")
                         price_str in
    let numeric_str :=
      if (1 <? PyStr.count "." numeric_str)%nat
      then PyStr.remove_first "." (PyStr.count "." numeric_str - 1) numeric_str
      else numeric_str in
    if negb (String.eqb numeric_str "")
    then Decimal_of_string numeric_str
    else None.

End PriceParser.

(** The normaliser as the specification words it, rule by rule. *)

Module NormalizerSpec.

(** Rule 1: placeholder or empty text. *)
Definition placeholder_or_empty (s : string) : bool :=
  String.eqb s "" || String.eqb s "Not specified"
  || all_chars PyStr.isspace s.

(** Rule 2: of a range [X to Y] keep the lower bound [X]. *)
Definition lower_bound (s : string) : string :=
  if PyStr.contains " to " s then PyStr.split_head " to " s else s.

(** Rule 3: strip everything that is not a digit or a decimal point. *)
Definition strip_non_numeric (s : string) : string :=
  PyStr.filter_chars (fun c => PyStr.isdigit c || Ascii.eqb c ".") s.

(** Rule 4: of several decimal points only the last one stays. *)
Fixpoint keep_last_point (s : string) : string :=
  match s with
  | EmptyString => EmptyString
  | String c r =>
      if Ascii.eqb c "." && (0 <? PyStr.count "." r)%nat
      then keep_last_point r
      else String c (keep_last_point r)
  end.

(** Rule 5: an empty or unreadable remainder is unparseable. *)
Definition parse_amount (s : string) : option Decimal :=
  if String.eqb s "" then None else Decimal_of_string s.

Definition normalize (s : string) : option Decimal :=
  if placeholder_or_empty s then None
  else parse_amount (keep_last_point (strip_non_numeric (lower_bound s))).

End NormalizerSpec.

(** ** Chunkers *)

Definition nl : ascii := ascii_of_nat 10.
Definition newline : string := String nl EmptyString.

(** The state of the accumulation loop shared by both chunkers:
    [chunks], [current_chunk] and the running size. *)
Record chunker := mkChunker {
  chunks : list string;
  current_chunk : list string;
  current_size : Z
}.

Definition nonempty {A} (l : list A) : bool :=
  match l with [] => false | _ => true end.

(** [scraper_enhanced.split_dom_content]: line based, joined by a newline.
    The [except] branch needs [dom_content] not to be a [str], which the
    type here excludes. *)
Module ScraperEnhanced.

Definition step (max_length : Z) (st : chunker) (line : string) : chunker :=
  let line_length := Z.of_nat (String.length line) in
  let st :=
    if (current_size st + line_length >? max_length)%Z
       && nonempty (current_chunk st)
    then {| chunks := chunks st ++ [PyStr.join newline (current_chunk st)];
            current_chunk := [];
            current_size := 0 |}
    else st in
  {| chunks := chunks st;
     current_chunk := current_chunk st ++ [line];
     current_size := (current_size st + line_length)%Z |}.

Definition flush (st : chunker) : list string :=
  if nonempty (current_chunk st)
  then chunks st ++ [PyStr.join newline (current_chunk st)]
  else chunks st.

Definition split_dom_content (dom_content : string) (max_length : Z)
  : list string :=
  flush (fold_left (step max_length) (PyStr.split nl dom_content)
                   (mkChunker [] [] 0)).

End ScraperEnhanced.

(** A parsed document as BeautifulSoup presents it: text nodes and tags. *)
Module Soup.

#[warning="-register-all"]
Inductive node :=
| Text (s : string)
| Tag (name : string) (children : list node).

(** [tag.find_all(names)]: the matching tags below [n], [n] included when
    it matches, in document order. *)
Fixpoint find_all_from (names : list string) (n : node) : list node :=
  match n with
  | Text _ => []
  | Tag name children =>
      (if existsb (String.eqb name) names then [n] else [])
      ++ flat_map (find_all_from names) children
  end.

(** [soup.find_all(names)] on the document's top-level nodes. *)
Definition find_all (names : list string) (soup : list node) : list node :=
  flat_map (find_all_from names) soup.

(** The strings below a node, each stripped, the empty ones skipped. *)
Fixpoint stripped_strings (n : node) : list string :=
  match n with
  | Text s =>
      let s := PyStr.strip s in
      if String.eqb s "" then [] else [s]
  | Tag _ children => flat_map stripped_strings children
  end.

(** [element.get_text(strip=True)] *)
Definition get_text_strip (n : node) : string :=
  PyStr.join "" (stripped_strings n).

(** [soup.get_text(strip=True)], the text of the whole document. *)
Definition document_text (soup : list node) : string :=
  PyStr.join "" (flat_map stripped_strings soup).

End Soup.

(** [scraper.split_dom_content]: element based, joined by a space.  The
    argument is the document [BeautifulSoup(content, 'html.parser')]
    returns. *)
Module Scraper.

Definition step (max_chunk_size : Z) (st : chunker) (element_text : string)
  : chunker :=
  let element_size := Z.of_nat (String.length element_text) in
  if (current_size st + element_size >? max_chunk_size)%Z
  then {| chunks :=
            if nonempty (current_chunk st)
            then chunks st ++ [PyStr.join " " (current_chunk st)]
            else chunks st;
          current_chunk := [element_text];
          current_size := element_size |}
  else {| chunks := chunks st;
          current_chunk := current_chunk st ++ [element_text];
          current_size := (current_size st + element_size)%Z |}.

Definition flush (st : chunker) : list string :=
  if nonempty (current_chunk st)
  then chunks st ++ [PyStr.join " " (current_chunk st)]
  else chunks st.

Definition element_texts (soup : list Soup.node) : list string :=
  map Soup.get_text_strip (Soup.find_all ["div"; "li"; "section"] soup).

Definition split_dom_content (soup : list Soup.node) (max_chunk_size : Z)
  : list string :=
  flush (fold_left (step max_chunk_size) (element_texts soup)
                   (mkChunker [] [] 0)).

End Scraper.

(** Whitespace normalisation: [' '.join(s.split())]. *)
Fixpoint split_ws (s : string) : list string :=
  match s with
  | EmptyString => []
  | String c r =>
      if PyStr.isspace c then split_ws r
      else match r with
           | EmptyString => [String c EmptyString]
           | String d _ =>
               if PyStr.isspace d then String c EmptyString :: split_ws r
               else match split_ws r with
                    | w :: ws => String c w :: ws
                    | [] => [String c EmptyString]
                    end
           end
  end.

Definition normalize_ws (s : string) : string := PyStr.join " " (split_ws s).

(** ** Python values and dictionaries *)

(** The values the pipeline's dictionaries hold. *)
Inductive pyval :=
| PyNone
| PyStr (s : string)
| PyNum (q : Q).

Abbreviation pydict := (gmap string pyval).

(** [d.get(key, default)] *)
Definition dict_get (d : pydict) (key : string) (default : pyval) : pyval :=
  match d !! key with
  | Some v => v
  | None => default
  end.

(** [l[:limit]], a negative [limit] counting from the end. *)
Definition slice_to {A} (limit : Z) (l : list A) : list A :=
  if (0 <=? limit)%Z then firstn (Z.to_nat limit) l
  else firstn (length l - Z.to_nat (- limit)) l.

(** ** Raw extraction *)

(** What a selector query finds: the element's text and its [href]. *)
Record element := mkElement { text : string; href : option string }.

(** A listing node, seen through the selector queries a scraper makes on
    it; [None] is a query that finds nothing. *)
Record listing := mkListing {
  title_elem : option element;
  price_elem : option element;
  link_elem : option element;
  condition_elem : option element;
  shipping_elem : option element
}.

Definition is_placeholder_title (title : string) : bool :=
  String.eqb (PyStr.lower title) "shop on ebay".

Definition text_or (e : option element) (default : string) : string :=
  match e with
  | Some e => PyStr.strip (text e)
  | None => default
  end.

(** [scraper.EbayScraper] *)
Module EbayScraper.

(** The body of the loop of [_parse_items]; [None] is [continue]. *)
Definition parse_item (item : listing) : option pydict :=
  match title_elem item, price_elem item, link_elem item with
  | Some title_elem, Some price_elem, Some link_elem =>
      let title := PyStr.strip (text title_elem) in
      if is_placeholder_title title then None
      else
        let price := PyStr.strip (text price_elem) in
        let link := default ""%string (href link_elem) in
        let condition := text_or (condition_elem item) "Not specified" in
        Some (<["title" := PyStr title]>
              (<["price" := PyStr price]>
               (<["condition" := PyStr condition]>
                (<["link" := PyStr link]> ∅))))
  | _, _, _ => None
  end.

Definition _parse_items (results : list listing) (limit : Z) : list pydict :=
  fold_left
    (fun items item =>
       match parse_item item with
       | Some record => items ++ [record]
       | None => items
       end)
    (slice_to limit results) [].

End EbayScraper.

(** [playwright_scraper.EbayPlaywrightScraper] *)
Module EbayPlaywrightScraper.

Definition _extract_item_data (item : listing) : option pydict :=
  match title_elem item with
  | None => None
  | Some title_element =>
      let title := PyStr.strip (text title_element) in
      if is_placeholder_title title then None
      else
        let price := text_or (price_elem item) "Not specified" in
        let link :=
          match link_elem item with
          | Some link_element => href link_element
          | None => None
          end in
        match link with
        | None => None
        | Some link =>
            if String.eqb link "" then None
            else
              let condition := text_or (condition_elem item) "Not specified" in
              let shipping := text_or (shipping_elem item) "Not specified" in
              Some (<["title" := PyStr title]>
                    (<["price" := PyStr price]>
                     (<["condition" := PyStr condition]>
                      (<["shipping" := PyStr shipping]>
                       (<["link" := PyStr link]> ∅)))))
        end
  end.

(** The item loop of [scrape], once the page has delivered its
    [li.s-item] elements: [item_elements[:max_items if max_items else None]]. *)
Definition scrape_items (item_elements : list listing) (max_items : option Z)
  : list pydict :=
  let selected :=
    match max_items with
    | Some n => if (n =? 0)%Z then item_elements else slice_to n item_elements
    | None => item_elements
    end in
  fold_left
    (fun items item =>
       match _extract_item_data item with
       | Some item_data => items ++ [item_data]
       | None => items
       end)
    selected [].

End EbayPlaywrightScraper.

(** [app.scrape_ebay], once the page has delivered its listings. *)
Module App.

Definition raw_text_or (e : option element) (default : string) : string :=
  match e with
  | Some e => text e
  | None => default
  end.

Definition listing_record (listing : listing) : pydict :=
  let title := raw_text_or (title_elem listing) "No title" in
  let price := raw_text_or (price_elem listing) "No price" in
  let link :=
    match link_elem listing with
    | Some link_elem => match href link_elem with
                        | Some h => PyStr h
                        | None => PyNone
                        end
    | None => PyStr "#"
    end in
  let condition := raw_text_or (condition_elem listing) "Not specified" in
  <["title" := PyStr title]>
  (<["price" := PyStr price]>
   (<["condition" := PyStr condition]>
    (<["link" := link]> ∅))).

Definition scrape_ebay (listings : list listing) (max_results : Z)
  : list pydict :=
  fold_left (fun items listing => items ++ [listing_record listing])
            (slice_to max_results listings) [].

End App.

(** What the specification asks of a per-node extractor. *)
Definition complete (item : listing) : Prop :=
  is_Some (title_elem item) /\ is_Some (price_elem item)
  /\ is_Some (link_elem item).

Definition has_placeholder_title (record : pydict) : Prop :=
  exists title, record !! "title" = Some (PyStr title)
                /\ is_placeholder_title (PyStr.strip title) = true.

(** No record for an incomplete node, none under the placeholder title. *)
Definition rejects_noise (extract : listing -> option pydict) : Prop :=
  forall item record,
    extract item = Some record ->
    complete item /\ ~ has_placeholder_title record.

(** ** Python's [statistics], [round], [min] and [max] on exact numbers *)

Module Statistics.

Local Open Scope Q_scope.

Definition fsum (xs : list Q) : Q := fold_right Qplus 0 xs.

Definition count_of (xs : list Q) : Q := inject_Z (Z.of_nat (length xs)).

(** [statistics.mean]; raises on empty data, which no caller passes. *)
Definition mean (xs : list Q) : Q := fsum xs / count_of xs.

Fixpoint insert_sorted (x : Q) (xs : list Q) : list Q :=
  match xs with
  | [] => [x]
  | y :: ys => if Qle_bool x y then x :: xs else y :: insert_sorted x ys
  end.

(** [sorted(xs)] *)
Definition sorted (xs : list Q) : list Q := fold_right insert_sorted [] xs.

(** [statistics.median]; raises on empty data, which no caller passes. *)
Definition median (xs : list Q) : Q :=
  let data := sorted xs in
  let n := length data in
  if Nat.odd n then nth (n / 2)%nat data 0
  else (nth (n / 2 - 1)%nat data 0 + nth (n / 2)%nat data 0) / 2.

(** The sample variance: squared deviations from the mean over [n - 1]. *)
Definition variance (xs : list Q) : Q :=
  let c := mean xs in
  fsum (map (fun x => (x - c) * (x - c)) xs) / (count_of xs - 1).

Section Stdev.
(** [math.sqrt] *)
Variable sqrt : Q -> Q.

Definition sample_stdev (xs : list Q) : Q := sqrt (variance xs).

(** [statistics.stdev]: [StatisticsError] ([None]) below two points. *)
Definition stdev (xs : list Q) : option Q :=
  if (length xs <? 2)%nat then None else Some (sample_stdev xs).
End Stdev.

(** [min(xs)] and [max(xs)] of a non-empty list. *)
Definition list_min (xs : list Q) : Q :=
  match xs with
  | [] => 0
  | x :: r => fold_left Qmin r x
  end.

Definition list_max (xs : list Q) : Q :=
  match xs with
  | [] => 0
  | x :: r => fold_left Qmax r x
  end.

(** [x > y] *)
Definition Qgt_bool (x y : Q) : bool := negb (Qle_bool x y).

(** Rounding to the nearest integer, ties to the even one. *)
Definition round_half_even (x : Q) : Z :=
  let f := Qfloor x in
  match Qcompare (x - inject_Z f) (1 # 2) with
  | Lt => f
  | Gt => (f + 1)%Z
  | Eq => if Z.even f then f else (f + 1)%Z
  end.

(** [round(x, 2)] *)
Definition round2 (x : Q) : Q := inject_Z (round_half_even (x * 100)) / 100.

End Statistics.

(** ** Market analysis ([parser_enhanced.MarketAnalyzer]) *)

Record MarketStats := mkMarketStats {
  average_price : Q;
  median_price : Q;
  price_std : Q;
  price_range_min : Q;
  price_range_max : Q
}.

Record PriceSegments := mkPriceSegments {
  budget : Q;
  mid_range : Q;
  premium : Q
}.

(** [brand_averages] keeps the insertion order of the Python dictionary. *)
Record MarketAnalysis := mkMarketAnalysis {
  market_stats : MarketStats;
  brand_averages : list (pyval * Q);
  price_segments : PriceSegments
}.

(** [==] on values. *)
Definition pyval_eqb (a b : pyval) : bool :=
  match a, b with
  | PyNone, PyNone => true
  | PyStr s, PyStr t => String.eqb s t
  | PyNum p, PyNum q => Qeq_bool p q
  | _, _ => false
  end.

(** [groups.setdefault(key, []).append(x)] on an insertion-ordered dict. *)
Fixpoint group_append (key : pyval) (x : Q) (groups : list (pyval * list Q))
  : list (pyval * list Q) :=
  match groups with
  | [] => [(key, [x])]
  | (k, xs) :: rest =>
      if pyval_eqb k key then (k, xs ++ [x]) :: rest
      else (k, xs) :: group_append key x rest
  end.

Module MarketAnalyzer.

Import Statistics.
Local Open Scope Q_scope.

(** The price a record carries, when [extract_numeric_price] reads one.
    A price that is not a [str] ends in the function's [except]. *)
Definition record_price (product : pydict) : option Q :=
  match dict_get product "price" (PyStr "") with
  | PyStr price_str =>
      option_map float_of_Decimal (PriceParser.extract_numeric_price price_str)
  | _ => None
  end.

(** One turn of the first loop of [analyze_prices]: the record receives
    its [numeric_price], a readable price joins [prices]. *)
Definition price_step (acc : list pydict * list Q) (product : pydict)
  : list pydict * list Q :=
  let '(done, prices) := acc in
  match record_price product with
  | Some price =>
      (done ++ [<["numeric_price" := PyNum price]> product], prices ++ [price])
  | None =>
      (done ++ [<["numeric_price" := PyNum 0]> product], prices)
  end.

Definition price_pass (products : list pydict) : list pydict * list Q :=
  fold_left price_step products ([], []).

Definition _get_empty_analysis : MarketAnalysis :=
  {| market_stats := mkMarketStats 0 0 0 0 0;
     brand_averages := [];
     price_segments := mkPriceSegments 0 0 0 |}.

(** Called after the price pass, when every [numeric_price] is a
    number. *)
Definition _calculate_brand_averages (products : list pydict)
  : list (pyval * Q) :=
  let brand_prices :=
    fold_left
      (fun brand_prices product =>
         let brand := dict_get product "brand" (PyStr "Not specified") in
         match dict_get product "numeric_price" (PyNum 0) with
         | PyNum numeric_price =>
             if negb (pyval_eqb brand (PyStr "Not specified"))
                && Qgt_bool numeric_price 0
             then group_append brand numeric_price brand_prices
             else brand_prices
         | _ => brand_prices
         end)
      products [] in
  map (fun '(brand, prices) => (brand, fsum prices / count_of prices))
      brand_prices.

Section Analysis.
Variable sqrt : Q -> Q.

(** [price_std]: the [try ... except] around [statistics.stdev]. *)
Definition price_spread (prices : list Q) : Q :=
  match stdev sqrt prices with
  | Some price_std => price_std
  | None => mean prices * (2 # 10)
  end.

Definition budget_threshold (prices : list Q) : Q :=
  Qmax 0 (mean prices - price_spread prices).

Definition premium_threshold (prices : list Q) : Q :=
  mean prices + price_spread prices.

(** The analysis of a non-empty list of prices. *)
Definition analysis_of (products : list pydict) (prices : list Q)
  : MarketAnalysis :=
  let avg_price := mean prices in
  let median_price := median prices in
  let price_std := price_spread prices in
  {| market_stats :=
       {| average_price := round2 avg_price;
          median_price := round2 median_price;
          price_std := round2 price_std;
          price_range_min := round2 (list_min prices);
          price_range_max := round2 (list_max prices) |};
     brand_averages := _calculate_brand_averages products;
     price_segments :=
       {| budget := round2 (budget_threshold prices);
          mid_range := round2 avg_price;
          premium := round2 (premium_threshold prices) |} |}.

(** [analyze_prices] updates the records in place; the updated records
    are returned next to the analysis.  The value written into a record
    depends on its price text alone, so a record that the list holds twice
    receives the same value at both places, and updating the list place by
    place describes the update in place. *)
Definition analyze_prices (products : list pydict)
  : list pydict * MarketAnalysis :=
  if nonempty products then
    let '(products, prices) := price_pass products in
    if nonempty prices
    then (products, analysis_of products prices)
    else (products, _get_empty_analysis)
  else (products, _get_empty_analysis).
End Analysis.

End MarketAnalyzer.

(** ** The delegate and what is done with its replies *)

(** The calls the adapters make that matter for safety: a request to the
    language model, a strict JSON parse, an evaluation as Python code. *)
Inductive event :=
| Invoke (prompt : string)
| JsonLoads (text : string)
| Eval (text : string).

(** The number of requests made so far and the log of events. *)
Record world := mkWorld { calls : nat; trace : list event }.

(** A computation that may raise ([None]) and that extends the log. *)
Definition M (A : Type) : Type := world -> option A * world.

#[global] Instance M_ret : MRet M := fun A x w => (Some x, w).

#[global] Instance M_bind : MBind M := fun A B f m w =>
  match m w with
  | (Some x, w') => f x w'
  | (None, w') => (None, w')
  end.

(** [try: body except Exception: handler], around a body whose failures
    are [Exception]s: a request, [json.loads], [list.extend].  What leaves
    through no such handler is written out where it can arise, in
    [Parser.parse_llm_response]. *)
Definition try_except {A} (body handler : M A) : M A := fun w =>
  match body w with
  | (Some x, w') => (Some x, w')
  | (None, w') => handler w'
  end.

(** A pure step that may raise. *)
Definition lift {A} (x : option A) : M A := fun w => (x, w).

Definition log_event {A} (e : event) (result : option A) : M A := fun w =>
  (result, {| calls := calls w; trace := trace w ++ [e] |}).

Definition is_eval (e : event) : bool :=
  match e with Eval _ => true | _ => false end.

Definition is_invoke (e : event) : bool :=
  match e with Invoke _ => true | _ => false end.

(** How a call ends that need not come back through an
    [except Exception]: it returns, it raises an [Exception], or it
    escapes, which is to say that it raises [SystemExit],
    [KeyboardInterrupt] or [GeneratorExit], or never returns. *)
Inductive outcome (A : Type) :=
| Returns (x : A)
| Raises
| Escapes.

Arguments Returns {A} x.
Arguments Raises {A}.
Arguments Escapes {A}.

Section Delegate.
(** The reply to the [n]-th request, [None] when the request raises. *)
Variable llm : nat -> string -> option string.

Definition invoke (prompt : string) : M string := fun w =>
  (llm (calls w) prompt,
   {| calls := S (calls w); trace := trace w ++ [Invoke prompt] |}).
End Delegate.

(** [json.loads(text)]: [json_loads] gives the value read, whatever JSON
    value it is, and [None] for a [JSONDecodeError]. *)
Definition loads {value : Type} (json_loads : string -> option value)
           (text : string) : M value :=
  log_event (JsonLoads text) (json_loads text).

Definition dq : string := String (ascii_of_nat 34) EmptyString.

(** [str(v)]; [str_float] prints a number. *)
Definition py_str (str_float : Q -> string) (v : pyval) : string :=
  match v with
  | PyNone => "None"
  | PyStr s => s
  | PyNum q => str_float q
  end.

(** [bool(v)] *)
Definition truthy (v : pyval) : bool :=
  match v with
  | PyNone => false
  | PyStr s => negb (String.eqb s "")
  | PyNum q => negb (Qeq_bool q 0)
  end.

(** ** The first parser ([parser.py]) *)

Module Parser.

Import Statistics.
Local Open Scope Q_scope.

Record MarketStats := mkMarketStats {
  average_price : Q;
  median_price : Q;
  price_range_min : Q;
  price_range_max : Q
}.

Record MarketAnalysis := mkMarketAnalysis {
  market_stats : MarketStats;
  price_segments : PriceSegments;
  brand_averages : list (pyval * Q)
}.

Definition empty_analysis : MarketAnalysis :=
  {| market_stats := mkMarketStats 0 0 0 0;
     price_segments := mkPriceSegments 0 0 0;
     brand_averages := [] |}.

(** Stable insertion by descending average, as
    [sorted(..., key=lambda x: x[1], reverse=True)] orders the brands. *)
Fixpoint insert_desc (x : pyval * Q) (l : list (pyval * Q))
  : list (pyval * Q) :=
  match l with
  | [] => [x]
  | y :: ys => if Qgt_bool (snd y) (snd x) then y :: insert_desc x ys
               else x :: l
  end.

Definition sorted_desc (l : list (pyval * Q)) : list (pyval * Q) :=
  fold_right insert_desc [] l.

Definition premium_line : string :=
  "• The market shows premium pricing opportunities, consider positioning in the upper segments".

Definition price_sensitive_line : string :=
  "• The market is price-sensitive, consider competitive pricing strategies".

Section Parser.
(** [float(text)]; [None] is [ValueError]. *)
Variable py_float : string -> option Q.
(** [str(x)] of a number. *)
Variable str_float : Q -> string.
(** [format(x, '.2f')] *)
Variable fmt2 : Q -> string.
Variable llm : nat -> string -> option string.
(** The Python values an evaluation can give; the adapter looks into
    none of them. *)
Variable value : Type.
(** [eval(text)]: the value of the text, an [Exception], or an escape.
    The evaluated text is taken to reach the parser through this outcome
    alone. *)
Variable py_eval : string -> outcome value.
(** What [list.extend] appends when it iterates a value, and how the
    iteration ends: the items of a list with [Returns], nothing and
    [Raises] (the [TypeError]) for a value that cannot be iterated, the
    items yielded so far when an iterator raises or does not come to an
    end. *)
Variable iterate : value -> list value * outcome unit.
(** [analyze_market_data] on the values collected; on records of
    strings and finite numbers it is [analyze_market_data] below. *)
Variable analyze_collected : list value -> outcome MarketAnalysis.

(** [float(str(product['price']).replace('£', '').replace(',', ''))];
    [None] is [KeyError] or [ValueError].  The numbers are the finite
    ones: a text that [float] reads as [nan] or [inf] is outside the
    model. *)
Definition price_of (product : pydict) : option Q :=
  price ← product !! "price";
  py_float (PyStr.remove_all "," (PyStr.remove_all "£" (py_str str_float price))).

Definition has_key (key : string) (product : pydict) : bool :=
  match product !! key with Some _ => true | None => false end.

(** [None]: an exception leaves [analyze_market_data]. *)
Definition analyze_market_data (products : list pydict)
  : option MarketAnalysis :=
  if nonempty products then
    prices ← mapM price_of (List.filter (has_key "price") products);
    if nonempty prices then
      let avg_price := mean prices in
      let med_price := median prices in
      let min_price := list_min prices in
      let max_price := list_max prices in
      let price_range := max_price - min_price in
      let budget_threshold := min_price + price_range * (3 # 10) in
      let premium_threshold := max_price - price_range * (3 # 10) in
      brand_prices ←
        foldl
          (fun acc product =>
             brand_prices ← acc;
             if truthy (dict_get product "brand" PyNone) then
               price ← price_of product;
               Some (group_append (dict_get product "brand" PyNone) price
                                  brand_prices)
             else Some brand_prices)
          (Some []) products;
      Some
        {| market_stats :=
             {| average_price := avg_price;
                median_price := med_price;
                price_range_min := min_price;
                price_range_max := max_price |};
           price_segments :=
             {| budget := budget_threshold;
                mid_range := (budget_threshold + premium_threshold) / 2;
                premium := premium_threshold |};
           brand_averages :=
             map (fun '(brand, prices) => (brand, mean prices)) brand_prices |}
    else Some empty_analysis
  else Some empty_analysis.

Definition generate_recommendations (market_analysis : MarketAnalysis)
  : list string :=
  let stats := market_stats market_analysis in
  let segments := price_segments market_analysis in
  [ newline +:+ "Market Overview";
    "• The average price in the market is £" +:+ fmt2 (average_price stats);
    "• The median price is £" +:+ fmt2 (median_price stats);
    "• Prices range from £" +:+ fmt2 (price_range_min stats)
      +:+ " to £" +:+ fmt2 (price_range_max stats);
    newline +:+ "Price Segments";
    "• Budget segment: Below £" +:+ fmt2 (budget segments);
    "• Mid-range segment: Around £" +:+ fmt2 (mid_range segments);
    "• Premium segment: Above £" +:+ fmt2 (premium segments) ]
  ++ (if nonempty (brand_averages market_analysis)
      then (newline +:+ "Brand Insights")
           :: map (fun '(brand, price) =>
                     "• " +:+ py_str str_float brand
                     +:+ ": Average price £" +:+ fmt2 price)
                  (firstn 5 (sorted_desc (brand_averages market_analysis)))
      else [])
  ++ [ newline +:+ "Strategic Recommendations" ]
  ++ [ if Qgt_bool (median_price stats) (average_price stats)
       then premium_line
       else price_sensitive_line ]
  ++ [ if Qgt_bool (price_range_max stats - price_range_min stats)
                   (average_price stats)
       then "• Wide price range indicates diverse market segments, consider multi-tier pricing"
       else "• Narrow price range suggests standardized pricing, focus on value-added features" ].

Definition formatting_prompt (response_text : string) : string :=
  newline
  +:+ "        Convert this text into a valid JSON array of product objects:"
  +:+ newline +:+ "        " +:+ response_text
  +:+ newline +:+ "        ".

(** What [parse_llm_response] hands back: the value [eval] gave, or the
    empty list of its [except] branch. *)
Inductive parsed :=
| Products (products : value)
| EmptyList.

(** The reply is sent back for reformatting and the answer is
    evaluated as Python code.  An [Exception] of the request or of the
    evaluation gives the empty list; what the evaluated text raises
    besides, or its not returning, no handler here or in the callers
    catches. *)
Definition parse_llm_response (response_text : string)
  : world -> outcome parsed * world := fun w =>
  match invoke llm (formatting_prompt response_text) w with
  | (None, w) => (Returns EmptyList, w)
  | (Some response, w) =>
      let w := {| calls := calls w; trace := trace w ++ [Eval response] |} in
      match py_eval response with
      | Returns products => (Returns (Products products), w)
      | Raises => (Returns EmptyList, w)
      | Escapes => (Escapes, w)
      end
  end.

Definition extraction_prompt (instruction chunk : string) : string :=
  newline +:+ "        " +:+ instruction
  +:+ newline +:+ "        Extract the following information from the eBay product listings:"
  +:+ newline +:+ "        - Product name"
  +:+ newline +:+ "        - Price (in GBP)"
  +:+ newline +:+ "        - Brand (if available)"
  +:+ newline +:+ "        - Seller name"
  +:+ newline +:+ "        - Condition"
  +:+ newline +:+ "        - Shipping cost"
  +:+ newline +:+ "        "
  +:+ newline +:+ "        Format the data as a list of JSON objects."
  +:+ newline +:+ "        "
  +:+ newline +:+ "        Content:"
  +:+ newline +:+ "        " +:+ chunk
  +:+ newline +:+ "        ".

Record ParseResult := mkParseResult {
  products : list value;
  market_analysis : MarketAnalysis;
  recommendations : list string
}.

(** [all_products.extend(products)]: what is appended and how the
    call ends. *)
Definition extended (products : parsed) : list value * outcome unit :=
  match products with
  | Products products => iterate products
  | EmptyList => ([], Returns tt)
  end.

(** The body of the loop of [parse_with_llm] for one chunk: an
    [Exception] of the request or of [extend] is caught and the loop
    goes on, with what [extend] had appended. *)
Definition collect_chunk (instruction : string) (all_products : list value)
           (chunk : string) : world -> outcome (list value) * world := fun w =>
  match invoke llm (extraction_prompt instruction chunk) w with
  | (None, w) => (Returns all_products, w)
  | (Some response, w) =>
      match parse_llm_response response w with
      | (Returns products, w) =>
          match extended products with
          | (items, Escapes) => (Escapes, w)
          | (items, _) => (Returns (all_products ++ items), w)
          end
      | (Raises, w) => (Returns all_products, w)
      | (Escapes, w) => (Escapes, w)
      end
  end.

(** The loop of [parse_with_llm] over the chunks. *)
Fixpoint collect_from (instruction : string) (all_products : list value)
         (content_chunks : list string)
  : world -> outcome (list value) * world := fun w =>
  match content_chunks with
  | [] => (Returns all_products, w)
  | chunk :: rest =>
      match collect_chunk instruction all_products chunk w with
      | (Returns all_products, w) => collect_from instruction all_products rest w
      | (Raises, w) => (Raises, w)
      | (Escapes, w) => (Escapes, w)
      end
  end.

Definition collect_products (content_chunks : list string)
           (instruction : string) : world -> outcome (list value) * world :=
  collect_from instruction [] content_chunks.

(** The analysis is made outside every [try]. *)
Definition parse_with_llm (content_chunks : list string)
           (instruction : string) : world -> outcome ParseResult * world :=
  fun w =>
  match collect_products content_chunks instruction w with
  | (Returns all_products, w) =>
      match analyze_collected all_products with
      | Returns market_analysis =>
          (Returns {| products := all_products;
                      market_analysis := market_analysis;
                      recommendations :=
                        generate_recommendations market_analysis |}, w)
      | Raises => (Raises, w)
      | Escapes => (Escapes, w)
      end
  | (Raises, w) => (Raises, w)
  | (Escapes, w) => (Escapes, w)
  end.
End Parser.

Arguments Products {value} products.
Arguments EmptyList {value}.
Arguments products {value} _.
Arguments market_analysis {value} _.
Arguments recommendations {value} _.
Arguments parse_llm_response llm {value} py_eval response_text _.
Arguments extended {value} iterate products.
Arguments collect_chunk llm {value} py_eval iterate instruction all_products chunk _.
Arguments collect_from llm {value} py_eval iterate instruction all_products content_chunks _.
Arguments collect_products llm {value} py_eval iterate content_chunks instruction _.
Arguments parse_with_llm str_float fmt2 llm {value} py_eval iterate analyze_collected content_chunks instruction _.

End Parser.

(** ** The enhanced parser ([src/parser_enhanced.py]) *)

Module RecommendationGenerator.

Section Recommendations.
(** [str(x)] of a number. *)
Variable str_float : Q -> string.

(** [market_analysis] is [None] when the caller passes nothing or an
    empty dictionary. *)
Definition generate_price_recommendations {record : Type}
           (product_data : list record)
           (market_analysis : option MarketAnalysis) : list string :=
  match market_analysis with
  | None => ["Insufficient data for price analysis."]
  | Some market_analysis =>
      let stats := market_stats market_analysis in
      let segments := price_segments market_analysis in
      [ "Market Overview:";
        "• Average market price: £" +:+ str_float (average_price stats);
        "• Price range: £" +:+ str_float (price_range_min stats)
          +:+ " - £" +:+ str_float (price_range_max stats);
        newline +:+ "Price Segments:";
        "• Budget segment: Below £" +:+ str_float (budget segments);
        "• Mid-range segment: Around £" +:+ str_float (mid_range segments);
        "• Premium segment: Above £" +:+ str_float (premium segments) ]
      ++ (if nonempty (brand_averages market_analysis)
          then (newline +:+ "Brand Positioning:")
               :: map (fun '(brand, avg_price) =>
                         "• " +:+ py_str str_float brand
                         +:+ ": Average price £"
                         +:+ str_float (Statistics.round2 avg_price))
                      (brand_averages market_analysis)
          else [])
      ++ [ newline +:+ "Strategic Recommendations:";
           "• For competitive pricing: Set prices slightly below the market average";
           "• For premium positioning: Price 10-15% above the market average";
           "• For market penetration: Consider pricing at the lower segment" ]
  end.
End Recommendations.

End RecommendationGenerator.

Module ContentParser.

Definition _get_parse_template (dom_content : string) : string :=
  "You are tasked with extracting specific information from the following text content: "
  +:+ dom_content +:+ ". "
  +:+ "Please follow these instructions carefully: " +:+ newline +:+ newline
  +:+ "1. Extract product information and format it as a JSON array of objects with these fields: product_name, seller, price, brand, country" +:+ newline
  +:+ "2. Each object should have all fields, use 'Not specified' if a field is missing" +:+ newline
  +:+ "3. Return ONLY the JSON array, no other text" +:+ newline
  +:+ "4. Make sure the JSON is valid and properly formatted" +:+ newline
  +:+ "5. For prices, include the currency symbol and handle price ranges (e.g., '£99.99' or '£10 to £20')" +:+ newline
  +:+ "6. For brands:" +:+ newline
  +:+ "   - Look for brand names in product titles, descriptions, or dedicated brand fields" +:+ newline
  +:+ "   - Common brand indicators include: 'by [brand]', 'brand:', 'manufacturer:', 'made by'" +:+ newline
  +:+ "   - If a brand is mentioned multiple times, use the most prominent one" +:+ newline
  +:+ "   - Do not use seller names as brands unless explicitly stated" +:+ newline
  +:+ "   - If no clear brand is found, use 'Not specified'" +:+ newline
  +:+ "7. For sellers:" +:+ newline
  +:+ "   - Use the actual seller/retailer name" +:+ newline
  +:+ "   - If the seller is the same as the brand, still list it as the seller" +:+ newline
  +:+ "Example format:" +:+ newline
  +:+ "[{" +:+ dq +:+ "product_name" +:+ dq +:+ ": " +:+ dq +:+ "Example Product" +:+ dq
  +:+ ", " +:+ dq +:+ "seller" +:+ dq +:+ ": " +:+ dq +:+ "Example Seller" +:+ dq
  +:+ ", " +:+ dq +:+ "price" +:+ dq +:+ ": " +:+ dq +:+ "£99.99" +:+ dq
  +:+ ", " +:+ dq +:+ "brand" +:+ dq +:+ ": " +:+ dq +:+ "Example Brand" +:+ dq
  +:+ ", " +:+ dq +:+ "country" +:+ dq +:+ ": " +:+ dq +:+ "UK" +:+ dq +:+ "}]".

Section ContentParser.
(** The Python values [json.loads] can deliver; the adapter looks into
    none of them. *)
Variable value : Type.
Variable str_float : Q -> string.
Variable llm : nat -> string -> option string.
(** [json.loads]: the value read, whatever JSON value it is; [None] is
    [JSONDecodeError]. *)
Variable json_loads : string -> option value.
(** What [list.extend] takes from a value: the items of a list, the keys
    of a dict, the characters of a string; [None] is the [TypeError] for
    a value that cannot be iterated, a number, [true], [false] or
    [null]. *)
Variable items_of : value -> option (list value).
(** [MarketAnalyzer.analyze_prices] on the values collected: the values
    as it leaves them and the analysis; [None] when it raises, as it does
    on a value that is not a dict and on a priced record whose brand
    cannot be hashed.  On records of strings and numbers it is
    [MarketAnalyzer.analyze_prices] above. *)
Variable analyze_prices : list value -> option (list value * MarketAnalysis).

Record ParseResult := mkParseResult {
  products : list value;
  market_analysis : MarketAnalysis;
  recommendations : list string
}.

(** The loop of [parse_with_llm] over the chunks: one request per
    chunk, the reply read by [json.loads] and what it holds appended; a
    chunk whose request, reading or appending raises is skipped.  The
    template has no place for [parse_description], so the prompt is made
    from the chunk alone. *)
Definition collect_results (dom_chunks : list string)
           (parse_description : string) : M (list value) :=
  foldl
    (fun acc chunk =>
       all_results ← acc;
       try_except
         (response ← invoke llm (_get_parse_template chunk);
          products ← loads json_loads response;
          items ← lift (items_of products);
          mret (all_results ++ items))
         (mret all_results))
    (mret []) dom_chunks.

(** The analysis is made outside the [try] of the loop: when it raises,
    [parse_with_llm] raises. *)
Definition parse_with_llm (dom_chunks : list string)
           (parse_description : string) : M ParseResult :=
  all_results ← collect_results dom_chunks parse_description;
  analysed ← lift (analyze_prices all_results);
  let '(all_results, market_analysis) := analysed in
  mret {| products := all_results;
          market_analysis := market_analysis;
          recommendations :=
            RecommendationGenerator.generate_price_recommendations
              str_float all_results (Some market_analysis) |}.
End ContentParser.

Arguments products {value} _.
Arguments market_analysis {value} _.
Arguments recommendations {value} _.
Arguments collect_results {value} llm json_loads items_of dom_chunks parse_description _.
Arguments parse_with_llm {value} str_float llm json_loads items_of analyze_prices dom_chunks parse_description _.

End ContentParser.

Module ChatbotAssistant.

Definition fixed_message : string :=
  "Please analyze some market data first before asking questions.".

(** The members of [set(values)], in the order of first appearance. *)
Fixpoint distinct (values : list pyval) : list pyval :=
  match values with
  | [] => []
  | v :: rest =>
      v :: List.filter (fun w => negb (pyval_eqb w v)) (distinct rest)
  end.

(** What [', '.join] accepts: strings only. *)
Definition as_str (v : pyval) : option string :=
  match v with
  | PyStr s => Some s
  | _ => None
  end.

Section Chatbot.
Variable str_float : Q -> string.
Variable llm : nat -> string -> option string.

(** [None]: a [TypeError], from an absent analysis or from a brand that
    is not a string. *)
Definition _create_product_summary (product_data : list pydict)
           (market_analysis : option MarketAnalysis) : option string :=
  let summary := "Products analyzed: " +:+ pretty (length product_data)
                 +:+ newline in
  if nonempty product_data then
    let brands :=
      distinct
        (map (fun p => dict_get p "brand" (PyStr "Unknown"))
             (List.filter
                (fun p => negb (pyval_eqb (dict_get p "brand" PyNone)
                                          (PyStr "Not specified")))
                product_data)) in
    market_analysis ← market_analysis;
    let stats := market_stats market_analysis in
    let price_range :=
      "Price range: £" +:+ str_float (price_range_min stats)
      +:+ " - £" +:+ str_float (price_range_max stats) in
    let avg_price := "Average price: £" +:+ str_float (average_price stats) in
    brands ← mapM as_str brands;
    Some (summary +:+ "Brands: " +:+ PyStr.join ", " brands +:+ newline
          +:+ price_range +:+ newline +:+ avg_price)
  else Some summary.

Definition _create_market_summary (market_analysis : option MarketAnalysis)
  : string :=
  match market_analysis with
  | None => ""
  | Some market_analysis =>
      let stats := market_stats market_analysis in
      let segments := price_segments market_analysis in
      newline
      +:+ "        Average Price: £" +:+ str_float (average_price stats)
      +:+ newline
      +:+ "        Median Price: £" +:+ str_float (median_price stats)
      +:+ newline
      +:+ "        Price Range: £" +:+ str_float (price_range_min stats)
      +:+ " - £" +:+ str_float (price_range_max stats) +:+ newline
      +:+ "        Budget Segment: Below £" +:+ str_float (budget segments)
      +:+ newline
      +:+ "        Mid-Range: £" +:+ str_float (mid_range segments)
      +:+ newline
      +:+ "        Premium Segment: Above £" +:+ str_float (premium segments)
      +:+ newline +:+ "        "
  end.

(** The prompt the chat template renders. *)
Definition _create_chat_prompt (product_summary market_summary question
                                : string) : string :=
  newline
  +:+ "        You are a helpful e-commerce market analysis assistant. You have access to the following product data:"
  +:+ newline +:+ "        " +:+ newline
  +:+ "        " +:+ product_summary +:+ newline
  +:+ "        " +:+ newline
  +:+ "        Market Analysis Summary:" +:+ newline
  +:+ "        " +:+ market_summary +:+ newline
  +:+ "        " +:+ newline
  +:+ "        User Question: " +:+ question +:+ newline
  +:+ "        " +:+ newline
  +:+ "        Please provide a helpful, concise, and accurate response based on this data."
  +:+ newline +:+ "        ".

(** [product_data] is [None] when the caller passes nothing. *)
Definition generate_response (user_question : string)
           (product_data : option (list pydict))
           (market_analysis : option MarketAnalysis) : M string :=
  match product_data with
  | None | Some [] => mret fixed_message
  | Some product_data =>
      product_summary ←
        lift (_create_product_summary product_data market_analysis);
      let market_summary := _create_market_summary market_analysis in
      invoke llm (_create_chat_prompt product_summary market_summary
                                      user_question)
  end.
End Chatbot.

End ChatbotAssistant.

(** ** What the chunkers keep invariant *)

(** The size the chunkers charge for a group of units: the lengths of the
    units, the separators between them not counted. *)
Definition total_size (units : list string) : Z :=
  fold_right (fun u n => (Z.of_nat (String.length u) + n)%Z) 0%Z units.

(** A group fits when its charged size is within the budget or when it is
    a single unit. *)
Definition fits (max : Z) (units : list string) : Prop :=
  (total_size units <= max)%Z \/ length units = 1%nat.

(** The units consumed so far are [seen]: the flushed chunks are the
    joins of non-empty fitting groups, the open group fits and its charged
    size is the running size. *)
Definition chunked (sep : string) (max : Z) (st : chunker)
           (seen : list string) : Prop :=
  exists groups,
    chunks st = map (PyStr.join sep) groups
    /\ Forall (fun g => g <> [] /\ fits max g) groups
    /\ concat groups ++ current_chunk st = seen
    /\ current_size st = total_size (current_chunk st)
    /\ (current_chunk st = [] \/ fits max (current_chunk st)).

(** The chunks are the joins of consecutive non-empty fitting groups of
    [units]. *)
Definition chunks_of (sep : string) (max : Z) (units out : list string)
  : Prop :=
  exists groups,
    out = map (PyStr.join sep) groups
    /\ Forall (fun g => g <> [] /\ fits max g) groups
    /\ concat groups = units.

(** Sample listing nodes: a full listing, one without price element, and
    the placeholder entry that heads a result page. *)
Definition full_listing : listing :=
  {| title_elem := Some (mkElement " Apple iPhone 13 " None);
     price_elem := Some (mkElement "£399.00" None);
     link_elem := Some (mkElement "" (Some "https://www.ebay.co.uk/itm/1"%string));
     condition_elem := None;
     shipping_elem := None |}.

Definition unpriced_listing : listing :=
  {| title_elem := Some (mkElement "Apple iPhone 13" None);
     price_elem := None;
     link_elem := Some (mkElement "" (Some "https://www.ebay.co.uk/itm/2"%string));
     condition_elem := None;
     shipping_elem := None |}.

Definition placeholder_listing : listing :=
  {| title_elem := Some (mkElement "Shop on eBay" None);
     price_elem := Some (mkElement "£20.00" None);
     link_elem := Some (mkElement "" (Some "https://www.ebay.co.uk/itm/3"%string));
     condition_elem := None;
     shipping_elem := None |}.

(** ** What the analyzer leaves in each record *)

(** The record after the price pass: the number read from its price text,
    0 when none can be read. *)
Definition with_numeric_price (product : pydict) : pydict :=
  <["numeric_price" := PyNum (default 0%Q (MarketAnalyzer.record_price product))]>
    product.

(** The prices that can be read, in the order of their records. *)
Definition parsed_prices (products : list pydict) : list Q :=
  omap MarketAnalyzer.record_price products.

(** [float(text)] on plain decimal literals: digits with at most one
    point. *)
Definition float_of_text (text : string) : option Q :=
  option_map float_of_Decimal (Decimal_of_string text).

Definition priced (price : string) : pydict := <["price" := PyStr price]> ∅.

(** A square root to four decimal places, to run the analysis on sample
    data. *)
Definition sqrt4 (x : Q) : Q :=
  Z.sqrt (Qfloor (x * inject_Z 100000000)) # 10000.

(** Three listings, the last with unreadable price. *)
Definition sample_products : list pydict :=
  [priced "£100.00"; priced "£200.00"; priced "Not specified"].

(** ** Telling the lines of a recommendation apart *)

(** The first byte of the pound sign. *)
Definition pound : ascii := ascii_of_nat 194.

Definition has_pound (line : string) : Prop :=
  (1 <= PyStr.count pound line)%nat.

(** A line that is neither of the two price-positioning notes. *)
Definition other_line (line : string) : Prop :=
  line <> Parser.premium_line /\ line <> Parser.price_sensitive_line.

(** [format(x, '.2f')] on exact numbers: two decimals, ties to even. *)
Definition fixed2 (x : Q) : string :=
  let n := Statistics.round_half_even (x * 100) in
  let a := Z.abs n in
  (if (n <? 0)%Z then "-" else "")
  +:+ pretty (a / 100)%Z +:+ "."
  +:+ (if (a mod 100 <? 10)%Z then "0" else "") +:+ pretty (a mod 100)%Z.

(** An analysis of the first parser whose median lies above its mean. *)
Definition skewed_analysis : Parser.MarketAnalysis :=
  {| Parser.market_stats := Parser.mkMarketStats 40 50 10 60;
     Parser.price_segments := mkPriceSegments 25 35 45;
     Parser.brand_averages := [(PyStr "Acme", 40%Q)] |}.

(** Three prices whose median, 50, lies above their mean, 40. *)
Definition skewed_products : list pydict :=
  [priced "10"; priced "50"; priced "60"].

(** ** What a run of an adapter may leave in the log *)

(** [m] never raises, makes exactly [n] requests, evaluates nothing, and
    every value it returns is an item of a value that [json.loads] read
    from a logged text. *)
Definition parses_only {value : Type} (json_loads : string -> option value)
           (items_of : value -> option (list value))
           (m : M (list value)) (n : nat) : Prop :=
  forall w, exists results events,
    m w = (Some results,
           {| calls := calls w + n; trace := trace w ++ events |})
    /\ Forall (fun e => is_eval e = false) events
    /\ length (List.filter is_invoke events) = n
    /\ (forall record, In record results ->
          exists text reply items,
            In (JsonLoads text) events
            /\ json_loads text = Some reply
            /\ items_of reply = Some items
            /\ In record items).

(** A delegate that answers every request with a line of Python. *)
Definition code_reply : string := "__import__('os').getcwd()".

Definition scripted_llm (n : nat) (prompt : string) : option string :=
  Some code_reply.

(** * Definitions for the further properties *)

(** ** Prices written as plain decimal numerals *)

(** A text that [float] reads as a finite number, far from overflow:
    ASCII digits with at most one point among them, at least one digit,
    at most 300 characters. *)
Definition decimal_text (text : string) : bool :=
  String.eqb
    (PyStr.filter_chars (fun c => PyStr.isdigit c || Ascii.eqb c ".") text)
    text
  && (PyStr.count "." text <=? 1)%nat
  && (1 <=? String.length (PyStr.filter_chars PyStr.isdigit text))%nat
  && (String.length text <=? 300)%nat.

(** Every price of [products], once the first parser has taken the
    pound signs and the commas out of its text, is such a numeral. *)
Definition plain_prices (str_float : Q -> string) (products : list pydict)
  : bool :=
  forallb
    (fun product =>
       match product !! "price" with
       | Some price =>
           decimal_text
             (PyStr.remove_all "," (PyStr.remove_all "£"
                                                     (py_str str_float price)))
       | None => true
       end)
    products.

(** ** Chunk sizes *)


(** ** Reading a price text *)

(** The text [extract_numeric_price] reads its number from: of a range
    the part before the first [" to "], otherwise the whole text. *)
Definition price_text (price_str : string) : string :=
  if PyStr.contains " to " price_str
  then PyStr.split_head " to " price_str
  else price_str.

(** A text of ASCII characters and pound signs.  On such a text
    [str.isdigit], [str.strip] and [Decimal] see the digits and blanks
    that [PyStr.isdigit] and [PyStr.isspace] see: a character outside
    ASCII can be a digit or a blank for Python, the pound sign is
    neither. *)
Fixpoint ascii_or_pound (s : string) : bool :=
  match s with
  | EmptyString => true
  | String c r =>
      if (nat_of_ascii c <? 128)%nat then ascii_or_pound r
      else match r with
           | String d r' =>
               Ascii.eqb c "194" && Ascii.eqb d "163" && ascii_or_pound r'
           | EmptyString => false
           end
  end.

(** The digits of a text, in their order. *)
Definition digits_of (s : string) : string :=
  PyStr.filter_chars PyStr.isdigit s.

(** The text after the last point of [s]; empty when [s] has no point. *)
Fixpoint after_last_point (s : string) : string :=
  match s with
  | EmptyString => EmptyString
  | String c r =>
      if Ascii.eqb c "." && (PyStr.count "." r =? 0)%nat then r
      else after_last_point r
  end.

(** The characters the price parser keeps. *)
Definition numeric (c : ascii) : bool := PyStr.isdigit c || Ascii.eqb c ".".

(** The body of the grouping loop of [_calculate_brand_averages]. *)
Definition brand_step (brand_prices : list (pyval * list Q)) (product : pydict)
  : list (pyval * list Q) :=
  let brand := dict_get product "brand" (PyStr "Not specified") in
  match dict_get product "numeric_price" (PyNum 0) with
  | PyNum numeric_price =>
      if negb (pyval_eqb brand (PyStr "Not specified"))
         && Statistics.Qgt_bool numeric_price 0
      then group_append brand numeric_price brand_prices
      else brand_prices
  | _ => brand_prices
  end.

(** A record counts for its brand: the brand is given and the price is
    readable and positive. *)
Definition counts_for (product : pydict) (brand : pyval) : Prop :=
  dict_get product "brand" (PyStr "Not specified") = brand
  /\ pyval_eqb brand (PyStr "Not specified") = false
  /\ exists price, MarketAnalyzer.record_price product = Some price
                   /\ (0 < price)%Q.

(** The body of the brand loop of [parser.analyze_market_data]; [None] is
    an exception on the way. *)
Definition legacy_brand_step (py_float : string -> option Q)
           (str_float : Q -> string)
           (acc : option (list (pyval * list Q))) (product : pydict)
  : option (list (pyval * list Q)) :=
  brand_prices ← acc;
  if truthy (dict_get product "brand" PyNone) then
    price ← Parser.price_of py_float str_float product;
    Some (group_append (dict_get product "brand" PyNone) price brand_prices)
  else Some brand_prices.

(** Descending order of average, the order of the brand insights. *)
Definition desc (x y : pyval * Q) : Prop := (snd y <= snd x)%Q.

(** The line [generate_recommendations] writes for a brand. *)
Definition brand_insight (str_float fmt2 : Q -> string) (entry : pyval * Q)
  : string :=
  "• " +:+ py_str str_float (fst entry)
  +:+ ": Average price £" +:+ fmt2 (snd entry).

(** ** What the adapters collect *)

(** The values the [n]-th request contributes for [chunk]: the items
    of the reply when the request answers, [json.loads] reads the reply
    and what it read can be iterated; none otherwise. *)
Definition chunk_values {value : Type}
           (llm : nat -> string -> option string)
           (json_loads : string -> option value)
           (items_of : value -> option (list value))
           (n : nat) (chunk : string) : list value :=
  match llm n (ContentParser._get_parse_template chunk) with
  | Some response =>
      match json_loads response with
      | Some reply => default [] (items_of reply)
      | None => []
      end
  | None => []
  end.

(** The values of all chunks, in the order of the chunks, the first
    request being the [n]-th. *)
Fixpoint all_chunk_values {value : Type}
         (llm : nat -> string -> option string)
         (json_loads : string -> option value)
         (items_of : value -> option (list value))
         (n : nat) (dom_chunks : list string) : list value :=
  match dom_chunks with
  | [] => []
  | chunk :: rest =>
      chunk_values llm json_loads items_of n chunk
      ++ all_chunk_values llm json_loads items_of (S n) rest
  end.

(** The body of the chunk loop of [ContentParser.parse_with_llm]. *)
Definition collect_step {value : Type}
           (llm : nat -> string -> option string)
           (json_loads : string -> option value)
           (items_of : value -> option (list value))
           (acc : M (list value)) (chunk : string) : M (list value) :=
  all_results ← acc;
  try_except
    (response ← invoke llm (ContentParser._get_parse_template chunk);
     products ← loads json_loads response;
     items ← lift (items_of products);
     mret (all_results ++ items))
    (mret all_results).



(** A record whose brand is present and is not a string, a JSON [null]
    or a number for instance. *)
Definition has_non_string_brand (product : pydict) : Prop :=
  exists v, product !! "brand" = Some v /\ ChatbotAssistant.as_str v = None.

(** ** The Selenium scraper *)

(** [selenium_scraper.EbaySeleniumScraper]; [text] is here the element's
    [.text]. *)
Module EbaySeleniumScraper.

(** [find_element] raises when nothing matches; for title, price and
    link the exception ends in the outer [except], which returns [None].
    [get_attribute] gives [None] for a link without [href]. *)
Definition _extract_item_data (item : listing) : option pydict :=
  match title_elem item with
  | None => None
  | Some title_element =>
      let title := PyStr.strip (text title_element) in
      if is_placeholder_title title then None
      else
        match price_elem item with
        | None => None
        | Some price_element =>
            let price := PyStr.strip (text price_element) in
            match link_elem item with
            | None => None
            | Some link_element =>
                let link :=
                  match href link_element with
                  | Some h => PyStr h
                  | None => PyNone
                  end in
                let condition :=
                  text_or (condition_elem item) "Not specified" in
                let shipping :=
                  text_or (shipping_elem item) "Not specified" in
                Some (<["title" := PyStr title]>
                      (<["price" := PyStr price]>
                       (<["condition" := PyStr condition]>
                        (<["shipping" := PyStr shipping]>
                         (<["link" := link]> ∅)))))
            end
        end
  end.

(** The item loop of [scrape]:
    [item_elements[:max_items if max_items else None]]. *)
Definition scrape_items (item_elements : list listing) (max_items : option Z)
  : list pydict :=
  let selected :=
    match max_items with
    | Some n => if (n =? 0)%Z then item_elements else slice_to n item_elements
    | None => item_elements
    end in
  fold_left
    (fun items item =>
       match _extract_item_data item with
       | Some item_data => items ++ [item_data]
       | None => items
       end)
    selected [].

End EbaySeleniumScraper.

(** ** Search URLs *)

(** [urllib.parse.quote_plus] on the UTF-8 bytes of a text: letters,
    digits and [_.-~] stay, a space becomes [+], every other byte becomes
    [%XX] in upper-case hexadecimal. *)
Module UrlQuote.

Definition always_safe (c : ascii) : bool :=
  let n := nat_of_ascii c in
  ((65 <=? n)%nat && (n <=? 90)%nat)
  || ((97 <=? n)%nat && (n <=? 122)%nat)
  || ((48 <=? n)%nat && (n <=? 57)%nat)
  || Ascii.eqb c "_" || Ascii.eqb c "." || Ascii.eqb c "-" || Ascii.eqb c "~".

Definition hex_digit (n : nat) : ascii :=
  if (n <? 10)%nat then ascii_of_nat (48 + n) else ascii_of_nat (55 + n).

Definition quote_byte (c : ascii) : string :=
  if always_safe c then String c EmptyString
  else if Ascii.eqb c " " then "+"
  else String "%" (String (hex_digit (nat_of_ascii c / 16))
                          (String (hex_digit (nat_of_ascii c mod 16))
                                  EmptyString)).

Fixpoint quote_plus (s : string) : string :=
  match s with
  | EmptyString => EmptyString
  | String c r => quote_byte c +:+ quote_plus r
  end.

(** The characters a quoted text is made of. *)
Definition quoted_char (c : ascii) : bool :=
  always_safe c || Ascii.eqb c "+" || Ascii.eqb c "%".

End UrlQuote.

Definition base_url : string := "https://www.ebay.co.uk/sch/i.html".

(** [sort_map.get(sort_by, "12")], the same table in [scraper.py] and in
    [scraper_enhanced.py]. *)
Definition sort_code (sort_by : string) : string :=
  if String.eqb sort_by "Best Match" then "12"
  else if String.eqb sort_by "Price + Shipping: Lowest First" then "15"
  else if String.eqb sort_by "Price + Shipping: Highest First" then "16"
  else if String.eqb sort_by "Time: Newly Listed" then "10"
  else "12".

(** [scraper.EbayScraper.construct_ebay_search_url]: the query as it is. *)
Module EbayScraperUrl.

Definition construct_ebay_search_url (search_query sort_by : string)
  : string :=
  let query_string :=
    PyStr.join "&" ["_nkw=" +:+ search_query;
                    "_sop=" +:+ sort_code sort_by] in
  base_url +:+ "?" +:+ query_string.

End EbayScraperUrl.

(** [scraper_enhanced.AIEnhancedScraper.construct_ebay_search_url]: the
    query quoted. *)
Module AIEnhancedScraper.

Definition construct_ebay_search_url (search_query sort_by : string)
  : string :=
  base_url +:+ "?"
  +:+ PyStr.join "&" ["_nkw=" +:+ UrlQuote.quote_plus search_query;
                      "_sop=" +:+ sort_code sort_by].

End AIEnhancedScraper.

(** The URL [scrape] opens in [playwright_scraper.py] and in
    [selenium_scraper.py]: the words of the query joined by [+]. *)
Definition browser_search_url (search_query : string) : string :=
  "https://www.ebay.co.uk/sch/i.html?_nkw="
  +:+ PyStr.join "+" (split_ws search_query) +:+ "&_sop=12".

(** [s.replace(c, d)] for one-character [c] and [d]. *)
Fixpoint replace_char (c d : ascii) (s : string) : string :=
  match s with
  | EmptyString => EmptyString
  | String x r => String (if Ascii.eqb x c then d else x) (replace_char c d r)
  end.

(** The URL [app.scrape_ebay] opens: every space replaced by [+]. *)
Definition app_search_url (query : string) : string :=
  "https://www.ebay.co.uk/sch/i.html?_nkw=" +:+ replace_char " " "+" query.

Definition not_space (c : ascii) : bool := negb (PyStr.isspace c).

(** A word: not empty and without whitespace. *)
Definition is_word (w : string) : Prop :=
  w <> EmptyString /\ all_chars not_space w = true.

(** The characters of an ordinary price text behind the currency sign:
    digits, the point and the comma. *)
Definition plain (c : ascii) : bool :=
  PyStr.isdigit c || Ascii.eqb c "." || Ascii.eqb c ",".

(** ** The API endpoint ([app.scrape]) *)

Module AppEndpoint.

(** What can be raised on the way: an error of the browser, or the
    [HTTPException] the endpoint raises itself. *)
Inductive exn :=
| PageError (message : string)
| HTTPException (status_code : Z) (detail : string).

Record ScrapingResponse := mkScrapingResponse {
  items : list pydict;
  analysis : string
}.

Section Endpoint.
(** [str(e)] *)
Variable str_exn : exn -> string.
(** The content of the completion, [None] when the request raises. *)
Variable completion : list pydict -> option string.

(** [analyze_with_ai]: every exception ends in the fixed sentence. *)
Definition analyze_with_ai (items : list pydict) : string :=
  match completion items with
  | Some content => content
  | None => "Unable to perform AI analysis at this time."
  end.

(** [scrape]: [page] is what the browser delivers, the listings or an
    error; the [HTTPException] raised inside [try] for an empty result is
    caught by the [except Exception] around it. *)
Definition scrape (page : exn + list listing) (max_results : Z)
  : exn + ScrapingResponse :=
  let body : exn + ScrapingResponse :=
    match page with
    | inl e => inl e
    | inr listings =>
        let items := App.scrape_ebay listings max_results in
        if nonempty items
        then inr {| items := items; analysis := analyze_with_ai items |}
        else inl (HTTPException 404 "No items found")
    end in
  match body with
  | inr response => inr response
  | inl e => inl (HTTPException 500 (str_exn e))
  end.
End Endpoint.

End AppEndpoint.

(** ** Cleaning the page text ([scraper_enhanced.clean_body_content]) *)

Module EnhancedCleaning.

(** What is left of a node after [element.decompose()] of every tag
    among [names]. *)
Fixpoint decompose (names : list string) (n : Soup.node) : list Soup.node :=
  match n with
  | Soup.Text _ => [n]
  | Soup.Tag name children =>
      if existsb (String.eqb name) names then []
      else [Soup.Tag name (flat_map (decompose names) children)]
  end.

(** The strings below a node, as they are. *)
Fixpoint strings (n : Soup.node) : list string :=
  match n with
  | Soup.Text s => [s]
  | Soup.Tag _ children => flat_map strings children
  end.

(** [soup.get_text(separator=...)] *)
Definition get_text (separator : string) (soup : list Soup.node) : string :=
  PyStr.join separator (flat_map strings soup).

(** The line boundaries of [str.splitlines] on the ASCII range: line
    feed, vertical tab, form feed, carriage return and the separators
    28..30. *)
Definition is_line_boundary (c : ascii) : bool :=
  let n := nat_of_ascii c in
  ((10 <=? n)%nat && (n <=? 13)%nat) || ((28 <=? n)%nat && (n <=? 30)%nat).

(** [s.splitlines()]; [after_cr] says that the character before was a
    carriage return, which a line feed then completes to one boundary. *)
Fixpoint splitlines_from (after_cr : bool) (s : string) : list string :=
  match s with
  | EmptyString => []
  | String c r =>
      if after_cr && Ascii.eqb c nl then splitlines_from false r
      else if is_line_boundary c
           then EmptyString :: splitlines_from (Ascii.eqb c "013") r
           else match splitlines_from false r with
                | [] => [String c EmptyString]
                | line :: lines => String c line :: lines
                end
  end.

Definition splitlines (s : string) : list string := splitlines_from false s.

Definition removed_tags : list string :=
  ["script"; "style"; "meta"; "link"; "header"; "footer"; "aside"]%string.

(** [soup] is the parsed [body_content]. *)
Definition clean_body_content (soup : list Soup.node) : string :=
  let cleaned_content :=
    get_text newline (flat_map (decompose removed_tags) soup) in
  let lines := map PyStr.strip (splitlines cleaned_content) in
  PyStr.join newline
             (List.filter (fun line => negb (String.eqb line "")) lines).

End EnhancedCleaning.

(** A line of cleaned text: not empty and without whitespace at either
    end. *)
Definition clean_line (line : string) : Prop :=
  line <> EmptyString /\ PyStr.strip line = line.

(** * Properties *)

(** ** Price normaliser *)

Lemma lstrip_blank s :
  all_chars PyStr.isspace s = true -> PyStr.lstrip s = EmptyString.
Proof.
  induction s as [|c r IH]; simpl; [reflexivity|].
  intros [Hc Hr]%andb_true_iff. rewrite Hc. auto.
Qed.

Lemma lstrip_not_blank s :
  all_chars PyStr.isspace s = false ->
  exists c r, PyStr.lstrip s = String c r /\ PyStr.isspace c = false.
Proof.
  induction s as [|c r IH]; simpl; [discriminate|].
  destruct (PyStr.isspace c) eqn:Hc; simpl; [exact IH|].
  intros _. exists c, r. auto.
Qed.

Lemma rstrip_keeps_head c r :
  PyStr.isspace c = false -> PyStr.rstrip (String c r) <> EmptyString.
Proof.
  intros Hc. simpl. destruct (PyStr.rstrip r); [rewrite Hc|]; discriminate.
Qed.

(** [s.strip() == ''] says that [s] is blank. *)
Lemma strip_empty_iff_blank s :
  String.eqb (PyStr.strip s) "" = all_chars PyStr.isspace s.
Proof.
  unfold PyStr.strip.
  destruct (all_chars PyStr.isspace s) eqn:Hs.
  - rewrite (lstrip_blank _ Hs). reflexivity.
  - destruct (lstrip_not_blank _ Hs) as (c & r & -> & Hc).
    apply String.eqb_neq. by apply rstrip_keeps_head.
Qed.

Lemma remove_first_0 c s : PyStr.remove_first c 0 s = s.
Proof. by destruct s. Qed.

(** Dropping all occurrences but one from the left keeps the last one. *)
Lemma remove_first_keeps_last s :
  PyStr.remove_first "." (PyStr.count "." s - 1) s
  = NormalizerSpec.keep_last_point s.
Proof.
  induction s as [|c r IH]; simpl; [reflexivity|].
  destruct (Ascii.eqb c ".") eqn:Hc; simpl.
  - destruct (PyStr.count "." r) as [|k] eqn:Hk; simpl.
    + rewrite <- IH. simpl. by rewrite remove_first_0.
    + rewrite <- IH. simpl. by rewrite Nat.sub_0_r.
  - destruct (PyStr.count "." r - 1)%nat as [|k] eqn:Hk.
    + by rewrite <- IH, remove_first_0.
    + by rewrite IH.
Qed.

Lemma collapse_points s :
  (if (1 <? PyStr.count "." s)%nat
   then PyStr.remove_first "." (PyStr.count "." s - 1) s
   else s)
  = NormalizerSpec.keep_last_point s.
Proof.
  rewrite <- remove_first_keeps_last.
  destruct (1 <? PyStr.count "." s)%nat eqn:Hn; [reflexivity|].
  apply Nat.ltb_ge in Hn.
  replace (PyStr.count "." s - 1)%nat with 0%nat by lia.
  by rewrite remove_first_0.
Qed.

Lemma extract_numeric_price_normalize s :
  PriceParser.extract_numeric_price s = NormalizerSpec.normalize s.
Proof.
  unfold PriceParser.extract_numeric_price, NormalizerSpec.normalize,
    NormalizerSpec.placeholder_or_empty.
  rewrite strip_empty_iff_blank.
  destruct (_ || _ || _); [reflexivity|].
  cbv zeta. rewrite collapse_points.
  unfold NormalizerSpec.parse_amount, NormalizerSpec.strip_non_numeric,
    NormalizerSpec.lower_bound.
  by destruct (String.eqb _ "").
Qed.

Lemma str_app_nil (b : string) : "" +:+ b = b.
Proof. reflexivity. Qed.

Lemma str_app_cons x (a b : string) : String x a +:+ b = String x (a +:+ b).
Proof. reflexivity. Qed.

(** [s.split(sep)[0]] is a prefix of [s]. *)
Lemma split_head_prefix sep s : exists t, s = PyStr.split_head sep s +:+ t.
Proof.
  induction s as [|c r [t IH]].
  - exists EmptyString. by destruct sep.
  - cbn [PyStr.split_head]. destruct (String.prefix sep (String c r)).
    + by exists (String c r).
    + exists t. by rewrite str_app_cons, <- IH.
Qed.

Lemma prefix_app a x t :
  String.prefix a x = true -> String.prefix a (x +:+ t) = true.
Proof.
  revert x. induction a as [|c a IH]; intros x.
  - intros _. by destruct (x +:+ t).
  - destruct x as [|d x]; [discriminate|].
    rewrite str_app_cons. simpl. destruct (ascii_dec c d); [apply IH|done].
Qed.

(** The text before the first separator holds no separator. *)
Lemma split_head_no_sep sep s :
  sep <> EmptyString -> PyStr.contains sep (PyStr.split_head sep s) = false.
Proof.
  intros Hsep. induction s as [|c r IH].
  - destruct sep; [done|]. reflexivity.
  - cbn [PyStr.split_head].
    destruct (String.prefix sep (String c r)) eqn:Hp.
    + destruct sep; [done|]. reflexivity.
    + cbn [PyStr.contains]. rewrite IH, orb_false_r.
      destruct (String.prefix sep (String c (PyStr.split_head sep r)))
        eqn:Hq; [|reflexivity].
      destruct (split_head_prefix sep r) as [t Ht].
      apply (prefix_app _ _ t) in Hq.
      rewrite str_app_cons, <- Ht in Hq. congruence.
Qed.

Lemma all_chars_split_head p sep s :
  all_chars p s = true -> all_chars p (PyStr.split_head sep s) = true.
Proof.
  induction s as [|c r IH].
  - by destruct sep.
  - cbn [all_chars PyStr.split_head]. intros [Hc Hr]%andb_true_iff.
    destruct (String.prefix sep (String c r)); [reflexivity|].
    cbn [all_chars]. by rewrite Hc, IH.
Qed.

Lemma isspace_not_numeric c :
  PyStr.isspace c = true -> PyStr.isdigit c || Ascii.eqb c "." = false.
Proof.
  destruct c as [[] [] [] [] [] [] [] []]; vm_compute; congruence.
Qed.

Lemma blank_strip_non_numeric s :
  all_chars PyStr.isspace s = true ->
  NormalizerSpec.strip_non_numeric s = EmptyString.
Proof.
  unfold NormalizerSpec.strip_non_numeric.
  induction s as [|c r IH]; simpl; [reflexivity|].
  intros [Hc Hr]%andb_true_iff. by rewrite (isspace_not_numeric c Hc), IH.
Qed.

(** Rules 3 to 5 on their own. *)
Lemma normalize_without_rule_1 s :
  NormalizerSpec.normalize s
  = NormalizerSpec.parse_amount
      (NormalizerSpec.keep_last_point
         (NormalizerSpec.strip_non_numeric (NormalizerSpec.lower_bound s))).
Proof.
  unfold NormalizerSpec.normalize, NormalizerSpec.placeholder_or_empty.
  destruct (String.eqb_spec s "") as [->|_]; [reflexivity|].
  destruct (String.eqb_spec s "Not specified") as [->|_]; [reflexivity|].
  destruct (all_chars PyStr.isspace s) eqn:Hs; [|reflexivity].
  simpl. rewrite blank_strip_non_numeric; [reflexivity|].
  unfold NormalizerSpec.lower_bound.
  destruct (PyStr.contains " to " s); [|done].
  by apply all_chars_split_head.
Qed.

(** A range is read as its lower bound is. *)
Lemma extract_numeric_price_range s :
  PyStr.contains " to " s = true ->
  PriceParser.extract_numeric_price s
  = PriceParser.extract_numeric_price (PyStr.split_head " to " s).
Proof.
  intros Hs. rewrite !extract_numeric_price_normalize.
  rewrite !normalize_without_rule_1. unfold NormalizerSpec.lower_bound.
  by rewrite Hs, split_head_no_sep.
Qed.

(** C1: on every price text the parser follows the five rules of the
    specification in their order (it equals the rule-by-rule normaliser:
    placeholder or empty text is unparseable, of a range the lower bound is
    kept, all but digits and points are stripped, of several points the last
    one stays, an empty or unreadable rest is unparseable); a range [X to Y]
    is read as [X] is; and the four sample texts give 1234.50, 10,
    unparseable and unparseable. *)
Theorem C1_normalizer_follows_rules :
  (forall s, PriceParser.extract_numeric_price s = NormalizerSpec.normalize s)
  /\ (forall s,
         PyStr.contains " to " s = true ->
         PriceParser.extract_numeric_price s
         = PriceParser.extract_numeric_price (PyStr.split_head " to " s))
  /\ (exists d, PriceParser.extract_numeric_price "£1,234.50" = Some d
                /\ float_of_Decimal d == 123450 # 100)
  /\ (exists d, PriceParser.extract_numeric_price "£10 to £20" = Some d
                /\ float_of_Decimal d == 10)
  /\ PriceParser.extract_numeric_price "Not specified" = None
  /\ PriceParser.extract_numeric_price "" = None.
Proof.
  split; [exact extract_numeric_price_normalize|].
  split; [exact extract_numeric_price_range|].
  repeat split.
  - exists (mkDecimal 123450 (-2)). split; reflexivity.
  - exists (mkDecimal 10 0). split; reflexivity.
Qed.

Lemma C1_normalizer_follows_rules_witness :
  PyStr.contains " to " "£10 to £20" = true
  /\ PyStr.split_head " to " "£10 to £20" = "£10"
  /\ PriceParser.extract_numeric_price "£10 to £20"
     = PriceParser.extract_numeric_price "£10".
Proof.
  split; [reflexivity|]. split; [reflexivity|].
  apply (proj1 (proj2 C1_normalizer_follows_rules) "£10 to £20").
  reflexivity.
Defined.

(** ** Chunkers *)

Lemma str_app_assoc (a b c : string) : (a +:+ b) +:+ c = a +:+ (b +:+ c).
Proof.
  induction a as [|x a IH]; [reflexivity|].
  by rewrite !str_app_cons, IH.
Qed.

Lemma str_app_length (a b : string) :
  String.length (a +:+ b) = (String.length a + String.length b)%nat.
Proof.
  induction a as [|x a IH]; [reflexivity|].
  rewrite str_app_cons. simpl. by rewrite IH.
Qed.

Lemma split_not_nil c s : PyStr.split c s <> [].
Proof.
  destruct s as [|d r]; simpl; [discriminate|].
  destruct (Ascii.eqb d c); [discriminate|].
  destruct (PyStr.split c r); discriminate.
Qed.

Lemma join_cons sep p ps :
  ps <> [] -> PyStr.join sep (p :: ps) = p +:+ sep +:+ PyStr.join sep ps.
Proof. destruct ps; [congruence|reflexivity]. Qed.

(** [c.join(s.split(c)) == s] *)
Lemma join_split c s : PyStr.join (String c EmptyString) (PyStr.split c s) = s.
Proof.
  induction s as [|d r IH]; [reflexivity|].
  simpl PyStr.split. destruct (Ascii.eqb_spec d c) as [->|Hd].
  - rewrite join_cons by apply split_not_nil.
    by rewrite str_app_nil, str_app_cons, str_app_nil, IH.
  - pose proof (split_not_nil c r) as Hne.
    destruct (PyStr.split c r) as [|p ps]; [congruence|].
    destruct ps as [|q ps]; simpl in *; rewrite <- IH; [reflexivity|].
    by rewrite str_app_cons.
Qed.

Lemma join_app sep l1 l2 :
  l1 <> [] -> l2 <> [] ->
  PyStr.join sep (l1 ++ l2)
  = PyStr.join sep l1 +:+ sep +:+ PyStr.join sep l2.
Proof.
  intros H1 H2. induction l1 as [|p l1 IH]; [congruence|].
  destruct l1 as [|q l1].
  - simpl app. by rewrite join_cons.
  - change ((p :: q :: l1) ++ l2) with (p :: ((q :: l1) ++ l2)).
    rewrite join_cons by discriminate.
    rewrite IH by discriminate.
    rewrite (join_cons sep p (q :: l1)) by discriminate.
    by rewrite !str_app_assoc.
Qed.

Lemma concat_not_nil {A} (g : list A) (gs : list (list A)) :
  g <> [] -> concat (g :: gs) <> [].
Proof. destruct g; [congruence|discriminate]. Qed.

(** Joining the joins of non-empty groups joins their concatenation. *)
Lemma join_groups sep max (groups : list (list string)) :
  Forall (fun g => g <> [] /\ fits max g) groups ->
  PyStr.join sep (map (PyStr.join sep) groups)
  = PyStr.join sep (concat groups).
Proof.
  induction 1 as [|g gs [Hg _] Hgs IH]; [reflexivity|].
  destruct gs as [|h gs].
  - simpl. by rewrite app_nil_r.
  - change (map (PyStr.join sep) (g :: h :: gs))
      with (PyStr.join sep g :: map (PyStr.join sep) (h :: gs)).
    rewrite join_cons by discriminate. rewrite IH.
    change (concat (g :: h :: gs)) with (g ++ concat (h :: gs)).
    rewrite join_app; [reflexivity|assumption|].
    inversion Hgs as [|? ? [Hh _] _]; subst. by apply concat_not_nil.
Qed.

Lemma total_size_app l1 l2 :
  total_size (l1 ++ l2) = (total_size l1 + total_size l2)%Z.
Proof. induction l1 as [|u l1 IH]; simpl; [reflexivity|]. rewrite IH. lia. Qed.

Lemma nonempty_true {A} (l : list A) : nonempty l = true <-> l <> [].
Proof. destruct l; simpl; split; congruence. Qed.

Lemma nonempty_false {A} (l : list A) : nonempty l = false <-> l = [].
Proof. destruct l; simpl; split; congruence. Qed.

(** Closing the open group of a chunked state gives the chunks. *)
Lemma chunked_flush sep max st seen out :
  chunked sep max st seen ->
  out = (if nonempty (current_chunk st)
         then chunks st ++ [PyStr.join sep (current_chunk st)]
         else chunks st) ->
  chunks_of sep max seen out.
Proof.
  intros (groups & Hc & Hg & Hseen & _ & Hfit) ->.
  destruct (nonempty (current_chunk st)) eqn:Hne.
  - apply nonempty_true in Hne. destruct Hfit as [?|Hfit]; [congruence|].
    exists (groups ++ [current_chunk st]). split; [|split].
    + by rewrite map_app, Hc.
    + apply Forall_app. split; [assumption|]. constructor; [by split|constructor].
    + rewrite concat_app. simpl. by rewrite app_nil_r.
  - apply nonempty_false in Hne. exists groups.
    rewrite Hne, app_nil_r in Hseen. auto.
Qed.

(** The bookkeeping of the units seen so far. *)
Ltac solve_seen :=
  match goal with
  | H : _ ++ _ = ?seen |- _ => rewrite <- H
  end;
  rewrite ?concat_app; simpl; rewrite ?app_nil_r, <- ?app_assoc;
  reflexivity.

Lemma chunked_init sep max : chunked sep max (mkChunker [] [] 0) [].
Proof. exists []. simpl. repeat split; auto. Qed.

Lemma enhanced_step_chunked max st seen line :
  chunked newline max st seen ->
  chunked newline max (ScraperEnhanced.step max st line) (seen ++ [line]).
Proof.
  intros (groups & Hc & Hg & Hseen & Hsize & Hfit).
  unfold ScraperEnhanced.step.
  destruct (Z.gtb_spec (current_size st + Z.of_nat (String.length line)) max)
    as [Hover|Hin]; simpl andb.
  - destruct (nonempty (current_chunk st)) eqn:Hne; simpl.
    + apply nonempty_true in Hne. destruct Hfit as [?|Hfit]; [congruence|].
      exists (groups ++ [current_chunk st]). simpl. repeat split.
      * by rewrite map_app, Hc.
      * apply Forall_app. split; [assumption|]. constructor; [by split|constructor].
      * solve_seen.
      * lia.
      * right. by right.
    + apply nonempty_false in Hne. exists groups. rewrite Hne in *. simpl.
      repeat split; auto.
      * solve_seen.
      * rewrite Hsize. simpl. lia.
      * right. by right.
  - exists groups. simpl. repeat split; auto.
    + solve_seen.
    + rewrite total_size_app, Hsize. simpl. lia.
    + right. left. rewrite total_size_app. simpl. lia.
Qed.

Lemma scraper_step_chunked max st seen element_text :
  chunked " " max st seen ->
  chunked " " max (Scraper.step max st element_text) (seen ++ [element_text]).
Proof.
  intros (groups & Hc & Hg & Hseen & Hsize & Hfit).
  unfold Scraper.step.
  destruct (Z.gtb_spec
              (current_size st + Z.of_nat (String.length element_text)) max)
    as [Hover|Hin].
  - destruct (nonempty (current_chunk st)) eqn:Hne.
    + apply nonempty_true in Hne. destruct Hfit as [?|Hfit]; [congruence|].
      exists (groups ++ [current_chunk st]). simpl. repeat split.
      * by rewrite map_app, Hc.
      * apply Forall_app. split; [assumption|]. constructor; [by split|constructor].
      * solve_seen.
      * lia.
      * right. by right.
    + apply nonempty_false in Hne. exists groups. rewrite Hne in *. simpl.
      repeat split; auto.
      * solve_seen.
      * lia.
      * right. by right.
  - exists groups. simpl. repeat split; auto.
    + solve_seen.
    + rewrite total_size_app, Hsize. simpl. lia.
    + right. left. rewrite total_size_app. simpl. lia.
Qed.

Lemma fold_chunked sep max (step : chunker -> string -> chunker) :
  (forall st seen u, chunked sep max st seen ->
                     chunked sep max (step st u) (seen ++ [u])) ->
  forall units st seen,
    chunked sep max st seen ->
    chunked sep max (fold_left step units st) (seen ++ units).
Proof.
  intros Hstep units. induction units as [|u units IH]; intros st seen Hst.
  - by rewrite app_nil_r.
  - simpl. replace (seen ++ u :: units) with ((seen ++ [u]) ++ units)
      by (by rewrite <- app_assoc).
    apply IH, Hstep, Hst.
Qed.

(** The line chunker cuts the lines of its input into consecutive
    non-empty fitting groups. *)
Lemma enhanced_chunks_of dom_content max_length :
  chunks_of newline max_length (PyStr.split nl dom_content)
            (ScraperEnhanced.split_dom_content dom_content max_length).
Proof.
  eapply chunked_flush; [|reflexivity].
  apply (fold_chunked newline max_length (ScraperEnhanced.step max_length)
           (enhanced_step_chunked max_length) _ _ [] (chunked_init _ _)).
Qed.

(** The element chunker does the same with the element texts. *)
Lemma scraper_chunks_of soup max_chunk_size :
  chunks_of " " max_chunk_size (Scraper.element_texts soup)
            (Scraper.split_dom_content soup max_chunk_size).
Proof.
  eapply chunked_flush; [|reflexivity].
  apply (fold_chunked " " max_chunk_size (Scraper.step max_chunk_size)
           (scraper_step_chunked max_chunk_size) _ _ [] (chunked_init _ _)).
Qed.

Lemma chunks_of_join sep max units out :
  chunks_of sep max units out -> PyStr.join sep out = PyStr.join sep units.
Proof.
  intros (groups & -> & Hg & <-). by eapply join_groups.
Qed.

(** C3: the line chunker of [scraper_enhanced] on the two lines [ab] and
    [c] with maximum 3 returns the single chunk [ab<newline>c], of length 4,
    made of two lines; the element chunker of [scraper] on two elements with
    these texts returns [ab c].  The budget is charged with the lengths of
    the units only, so a chunk of several units outgrows the maximum by its
    separators. *)
Theorem C3_chunk_outgrows_maximum :
  let content := "ab" +:+ newline +:+ "c" in
  let soup := [Soup.Tag "div" [Soup.Text "ab"]; Soup.Tag "div" [Soup.Text "c"]] in
  PyStr.split nl content = ["ab"; "c"]
  /\ ScraperEnhanced.split_dom_content content 3 = [content]
  /\ String.length content = 4%nat
  /\ Scraper.element_texts soup = ["ab"; "c"]
  /\ Scraper.split_dom_content soup 3 = ["ab c"].
Proof. repeat split. Qed.

(** What both chunkers do guarantee: every chunk is the join of a
    non-empty run of consecutive units whose lengths add up to at most the
    maximum, or of a single unit. *)
Lemma chunks_fit_without_separators :
  (forall dom_content max_length,
      chunks_of newline max_length (PyStr.split nl dom_content)
                (ScraperEnhanced.split_dom_content dom_content max_length))
  /\ (forall soup max_chunk_size,
         chunks_of " " max_chunk_size (Scraper.element_texts soup)
                   (Scraper.split_dom_content soup max_chunk_size)).
Proof. split; [apply enhanced_chunks_of|apply scraper_chunks_of]. Qed.

(** C4: joining the chunks of the line chunker with the newline it uses
    gives back the input text, character for character, and so also up to
    whitespace normalisation, for every text and every maximum; joining the
    chunks of the element chunker with the space it uses gives the element
    texts of the document, in document order, joined by spaces. *)
Theorem C4_rejoined_chunks :
  (forall dom_content max_length,
      let rejoined :=
        PyStr.join newline
                   (ScraperEnhanced.split_dom_content dom_content max_length) in
      rejoined = dom_content
      /\ normalize_ws rejoined = normalize_ws dom_content)
  /\ (forall soup max_chunk_size,
         PyStr.join " " (Scraper.split_dom_content soup max_chunk_size)
         = PyStr.join " " (Scraper.element_texts soup)).
Proof.
  split.
  - intros dom_content max_length rejoined.
    assert (rejoined = dom_content) as ->; [|done].
    unfold rejoined.
    rewrite (chunks_of_join _ _ _ _ (enhanced_chunks_of dom_content max_length)).
    apply join_split.
  - intros soup max_chunk_size.
    apply (chunks_of_join _ _ _ _ (scraper_chunks_of soup max_chunk_size)).
Qed.

(** C4, where the statement fails: of the markup
    [<div><li>a</li></div>] the [div] and the [li] inside it both reach the
    element chunker, each with the text [a]; the rejoined chunks read [a a],
    which is neither the text of the document, [a], nor the markup. *)
Lemma C4_nested_elements_repeat_text :
  let soup := [Soup.Tag "div" [Soup.Tag "li" [Soup.Text "a"]]] in
  let rejoined := PyStr.join " " (Scraper.split_dom_content soup 8000) in
  rejoined = "a a"
  /\ Soup.document_text soup = "a"
  /\ normalize_ws rejoined <> normalize_ws (Soup.document_text soup)
  /\ normalize_ws rejoined <> normalize_ws "<div><li>a</li></div>".
Proof. repeat split; discriminate. Qed.

(** ** Raw extraction *)

Lemma lstrip_head s :
  PyStr.lstrip s = EmptyString
  \/ exists c r, PyStr.lstrip s = String c r /\ PyStr.isspace c = false.
Proof.
  destruct (all_chars PyStr.isspace s) eqn:Hs.
  - left. by apply lstrip_blank.
  - right. by apply lstrip_not_blank.
Qed.

Lemma rstrip_head c r :
  PyStr.isspace c = false ->
  exists r', PyStr.rstrip (String c r) = String c r'.
Proof.
  intros Hc. simpl. destruct (PyStr.rstrip r); [rewrite Hc|]; eauto.
Qed.

Lemma rstrip_idemp s : PyStr.rstrip (PyStr.rstrip s) = PyStr.rstrip s.
Proof.
  induction s as [|c r IH]; [reflexivity|].
  simpl. destruct (PyStr.rstrip r) as [|d r'] eqn:Hr.
  - destruct (PyStr.isspace c) eqn:Hc; [reflexivity|].
    simpl. by rewrite Hc.
  - change (PyStr.rstrip (String c (String d r')))
      with (match PyStr.rstrip (String d r') with
            | EmptyString =>
                if PyStr.isspace c then EmptyString else String c EmptyString
            | r'' => String c r''
            end).
    by rewrite IH.
Qed.

(** Trimming twice trims once. *)
Lemma strip_idemp s : PyStr.strip (PyStr.strip s) = PyStr.strip s.
Proof.
  unfold PyStr.strip.
  destruct (lstrip_head s) as [->|(c & r & -> & Hc)]; [reflexivity|].
  destruct (rstrip_head c r Hc) as [r' Hr]. rewrite Hr.
  simpl PyStr.lstrip. rewrite Hc, <- Hr. apply rstrip_idemp.
Qed.

(** The scraping loops keep, in order, what the per-node step returns. *)
Lemma loop_omap {A B} (f : A -> option B) (l : list A) (acc : list B) :
  fold_left (fun items item =>
               match f item with
               | Some record => items ++ [record]
               | None => items
               end) l acc
  = acc ++ omap f l.
Proof.
  revert acc. induction l as [|x l IH]; intros acc; simpl.
  - by rewrite app_nil_r.
  - rewrite IH. destruct (f x); [|reflexivity]. by rewrite <- app_assoc.
Qed.

Lemma omap_length_le {A B} (f : A -> option B) (l : list A) :
  (length (omap f l) <= length l)%nat.
Proof.
  induction l as [|x l IH]; csimpl; [lia|]. destruct (f x); simpl; lia.
Qed.

Lemma slice_to_nonneg {A} (limit : Z) (l : list A) :
  (0 <= limit)%Z -> slice_to limit l = firstn (Z.to_nat limit) l.
Proof. intros H. unfold slice_to. by apply Z.leb_le in H as ->. Qed.

Lemma parse_items_omap results limit :
  EbayScraper._parse_items results limit
  = omap EbayScraper.parse_item (slice_to limit results).
Proof. unfold EbayScraper._parse_items. by rewrite loop_omap. Qed.

Lemma parse_item_rejects_noise : rejects_noise EbayScraper.parse_item.
Proof.
  intros item record. unfold EbayScraper.parse_item, complete.
  destruct (title_elem item) as [t|]; [|discriminate].
  destruct (price_elem item) as [p|]; [|discriminate].
  destruct (link_elem item) as [l|]; [|discriminate].
  destruct (is_placeholder_title (PyStr.strip (text t))) eqn:Ht; [discriminate|].
  intros [= <-]. split; [by eauto|].
  intros (title & Hl & Hp). rewrite lookup_insert_eq in Hl.
  injection Hl as <-. rewrite strip_idemp in Hp. congruence.
Qed.

Lemma extract_item_data_sound item record :
  EbayPlaywrightScraper._extract_item_data item = Some record ->
  is_Some (title_elem item) /\ is_Some (link_elem item)
  /\ ~ has_placeholder_title record
  /\ (price_elem item = None ->
      record !! "price" = Some (PyStr "Not specified")).
Proof.
  unfold EbayPlaywrightScraper._extract_item_data.
  destruct (title_elem item) as [t|]; [|discriminate].
  destruct (is_placeholder_title (PyStr.strip (text t))) eqn:Ht; [discriminate|].
  destruct (link_elem item) as [l|]; [|discriminate].
  destruct (href l) as [h|]; [|discriminate].
  destruct (String.eqb h ""); [discriminate|].
  intros [= <-]. repeat split; eauto.
  - intros (title & Hl & Hp). rewrite lookup_insert_eq in Hl.
    injection Hl as <-. rewrite strip_idemp in Hp. congruence.
  - intros ->. reflexivity.
Qed.

Lemma scrape_ebay_map listings max_results :
  App.scrape_ebay listings max_results
  = map App.listing_record (slice_to max_results listings).
Proof.
  unfold App.scrape_ebay.
  generalize (slice_to max_results listings) as l.
  assert (forall l acc,
             fold_left (fun items listing => items ++ [App.listing_record listing])
                       l acc
             = acc ++ map App.listing_record l) as H.
  { induction l as [|x l IH]; intros acc; simpl.
    - by rewrite app_nil_r.
    - by rewrite IH, <- app_assoc. }
  intros l. apply H.
Qed.

(** C5: [EbayScraper._parse_items] emits no record for a node that lacks
    its title, its price or its link, none whose trimmed title is the
    placeholder whatever its case, and for a maximum that is not negative
    it emits, in source order, what the first nodes up to the maximum
    yield, so at most the maximum.  The Playwright scraper emits no record
    for a node without title or link nor one under the placeholder title,
    and a node without price is emitted with the price text
    [Not specified]; it stays within a positive maximum.  [app.scrape_ebay]
    emits one record for each of the first nodes up to the maximum, none
    skipped. *)
Theorem C5_raw_extraction :
  rejects_noise EbayScraper.parse_item
  /\ (forall results limit,
         (0 <= limit)%Z ->
         EbayScraper._parse_items results limit
         = omap EbayScraper.parse_item (firstn (Z.to_nat limit) results)
         /\ (Z.of_nat (length (EbayScraper._parse_items results limit))
             <= limit)%Z)
  /\ (forall item record,
         EbayPlaywrightScraper._extract_item_data item = Some record ->
         is_Some (title_elem item) /\ is_Some (link_elem item)
         /\ ~ has_placeholder_title record
         /\ (price_elem item = None ->
             record !! "price" = Some (PyStr "Not specified")))
  /\ (forall item_elements max_items,
         (0 < max_items)%Z ->
         EbayPlaywrightScraper.scrape_items item_elements (Some max_items)
         = omap EbayPlaywrightScraper._extract_item_data
                (firstn (Z.to_nat max_items) item_elements)
         /\ (Z.of_nat (length (EbayPlaywrightScraper.scrape_items
                                 item_elements (Some max_items)))
             <= max_items)%Z)
  /\ (forall listings max_results,
         (0 <= max_results)%Z ->
         App.scrape_ebay listings max_results
         = map App.listing_record (firstn (Z.to_nat max_results) listings)).
Proof.
  split; [exact parse_item_rejects_noise|].
  split; [|split; [exact extract_item_data_sound|split]].
  - intros results limit Hlimit.
    rewrite parse_items_omap, slice_to_nonneg by done. split; [done|].
    pose proof (omap_length_le EbayScraper.parse_item
                  (firstn (Z.to_nat limit) results)) as Hle.
    rewrite length_firstn in Hle. lia.
  - intros item_elements max_items Hmax.
    unfold EbayPlaywrightScraper.scrape_items.
    destruct (Z.eqb_spec max_items 0) as [?|_]; [lia|].
    rewrite loop_omap, slice_to_nonneg by lia. split; [done|].
    pose proof (omap_length_le EbayPlaywrightScraper._extract_item_data
                  (firstn (Z.to_nat max_items) item_elements)) as Hle.
    simpl. rewrite length_firstn in Hle. lia.
  - intros listings max_results Hmax.
    by rewrite scrape_ebay_map, slice_to_nonneg.
Qed.

Lemma C5_raw_extraction_witness :
  (exists record, EbayScraper.parse_item full_listing = Some record
                  /\ complete full_listing /\ ~ has_placeholder_title record)
  /\ ((0 <= 2)%Z
      /\ (Z.of_nat (length (EbayScraper._parse_items
                              [full_listing; unpriced_listing;
                               placeholder_listing; full_listing] 2))
          <= 2)%Z)
  /\ (exists record,
         EbayPlaywrightScraper._extract_item_data unpriced_listing = Some record
         /\ price_elem unpriced_listing = None
         /\ record !! "price" = Some (PyStr "Not specified"))
  /\ ((0 < 1)%Z
      /\ (Z.of_nat (length (EbayPlaywrightScraper.scrape_items
                              [full_listing; unpriced_listing] (Some 1%Z)))
          <= 1)%Z)
  /\ ((0 <= 1)%Z
      /\ App.scrape_ebay [placeholder_listing; full_listing] 1
         = map App.listing_record
               (firstn (Z.to_nat 1) [placeholder_listing; full_listing])).
Proof.
  destruct C5_raw_extraction as (Hnoise & Hitems & Hdata & Hscrape & Happ).
  repeat apply conj.
  - eexists. split; [reflexivity|]. by apply Hnoise.
  - lia.
  - apply Hitems. lia.
  - eexists. split; [reflexivity|]. split; [reflexivity|].
    refine (proj2 (proj2 (proj2 (Hdata unpriced_listing _ _))) _);
      reflexivity.
  - lia.
  - apply Hscrape. lia.
  - lia.
  - apply Happ. lia.
Defined.

(** C5, where the statement fails: the Playwright scraper emits a record
    for a listing that has no price element, and [app.scrape_ebay] emits
    the placeholder entry. *)
Lemma C5_noise_is_emitted :
  ~ complete unpriced_listing
  /\ (exists record,
         EbayPlaywrightScraper.scrape_items [unpriced_listing] (Some 5%Z)
         = [record]
         /\ record !! "title" = Some (PyStr "Apple iPhone 13")
         /\ record !! "price" = Some (PyStr "Not specified"))
  /\ (exists record,
         App.scrape_ebay [placeholder_listing] 5 = [record]
         /\ has_placeholder_title record).
Proof.
  split; [|split].
  - intros (_ & [p Hp] & _). discriminate Hp.
  - eexists. split; [reflexivity|]. split; reflexivity.
  - eexists. split; [reflexivity|]. exists "Shop on eBay". split; reflexivity.
Qed.

(** ** Market analysis *)

Section MarketAnalysisFacts.

Local Open Scope Q_scope.
Variable sqrt : Q -> Q.

Lemma float_of_Decimal_nonneg d : 0 <= float_of_Decimal d.
Proof.
  unfold float_of_Decimal. destruct (exponent d) as [|e|k].
  - unfold Qle. simpl. lia.
  - unfold Qle. simpl. lia.
  - unfold Qle. simpl. lia.
Qed.

Lemma record_price_nonneg product price :
  MarketAnalyzer.record_price product = Some price -> 0 <= price.
Proof.
  unfold MarketAnalyzer.record_price.
  destruct (dict_get product "price" (PyStr "")) as [|s|q]; try discriminate.
  destruct (PriceParser.extract_numeric_price s) as [d|]; [|discriminate].
  intros [= <-]. apply float_of_Decimal_nonneg.
Qed.

Lemma price_pass_from products done prices :
  fold_left MarketAnalyzer.price_step products (done, prices)
  = (done ++ map with_numeric_price products,
     prices ++ parsed_prices products).
Proof.
  revert done prices.
  induction products as [|p products IH]; intros done prices.
  - by rewrite !app_nil_r.
  - cbn [fold_left MarketAnalyzer.price_step]. unfold parsed_prices.
    unfold with_numeric_price at 1. csimpl.
    destruct (MarketAnalyzer.record_price p) as [x|]; rewrite IH; simpl;
      by rewrite <- !app_assoc.
Qed.

(** The price pass writes [numeric_price] into every record and collects
    the readable prices. *)
Lemma price_pass_spec products :
  MarketAnalyzer.price_pass products
  = (map with_numeric_price products, parsed_prices products).
Proof. apply price_pass_from. Qed.

Lemma analyze_prices_spec products :
  MarketAnalyzer.analyze_prices sqrt products
  = (map with_numeric_price products,
     if nonempty (parsed_prices products)
     then MarketAnalyzer.analysis_of sqrt (map with_numeric_price products)
                                     (parsed_prices products)
     else MarketAnalyzer._get_empty_analysis).
Proof.
  unfold MarketAnalyzer.analyze_prices.
  destruct products as [|p products]; [reflexivity|].
  cbn [nonempty]. rewrite price_pass_spec.
  by destruct (nonempty (parsed_prices (p :: products))).
Qed.

Lemma parsed_prices_skip before product after :
  MarketAnalyzer.record_price product = None ->
  parsed_prices (before ++ product :: after) = parsed_prices (before ++ after).
Proof.
  intros Hp. unfold parsed_prices. rewrite !omap_app. csimpl. by rewrite Hp.
Qed.

Lemma with_numeric_price_spec product :
  exists price,
    with_numeric_price product = <["numeric_price" := PyNum price]> product
    /\ 0 <= price
    /\ (MarketAnalyzer.record_price product = None -> price = 0).
Proof.
  unfold with_numeric_price.
  destruct (MarketAnalyzer.record_price product) as [x|] eqn:Hx; simpl.
  - exists x. split; [done|]. split; [|done]. by eapply record_price_nonneg.
  - exists 0. split; [done|]. split; [|done]. apply Qle_refl.
Qed.

(** C7: after [analyze_prices] every record is still there, in its place,
    changed only by its [numeric_price], which is never negative and is 0
    when the price text cannot be read; mean, median, minimum and maximum
    are those of the prices that could be read, and taking a record with
    unreadable price out of the input leaves the statistics as they are. *)
Theorem C7_numeric_price_and_statistics (products : list pydict) :
  let result := MarketAnalyzer.analyze_prices sqrt products in
  let prices := parsed_prices products in
  let stats := market_stats (snd result) in
  Forall2 (fun product record =>
             exists price,
               record = <["numeric_price" := PyNum price]> product
               /\ 0 <= price
               /\ (MarketAnalyzer.record_price product = None -> price = 0))
          products (fst result)
  /\ (nonempty prices = true ->
      average_price stats = Statistics.round2 (Statistics.mean prices)
      /\ median_price stats = Statistics.round2 (Statistics.median prices)
      /\ price_range_min stats = Statistics.round2 (Statistics.list_min prices)
      /\ price_range_max stats = Statistics.round2 (Statistics.list_max prices))
  /\ (forall before product after,
         products = before ++ product :: after ->
         MarketAnalyzer.record_price product = None ->
         stats = market_stats
                   (snd (MarketAnalyzer.analyze_prices sqrt (before ++ after)))).
Proof.
  cbv zeta. rewrite analyze_prices_spec. cbn [fst snd]. split; [|split].
  - induction products as [|p ps IH]; constructor; [|exact IH].
    apply with_numeric_price_spec.
  - intros ->. repeat split.
  - intros before product after -> Hnone.
    rewrite analyze_prices_spec. cbn [snd].
    rewrite (parsed_prices_skip _ _ _ Hnone).
    by destruct (nonempty (parsed_prices (before ++ after))).
Qed.

(** C8: with two or more readable prices the spread is the sample
    standard deviation; with exactly one it is 20% of the mean; with none
    the analysis is the empty one, whose spread, 0, is again 20% of its
    mean, 0.  The analysis reports the spread rounded to two places. *)
Theorem C8_spread (products : list pydict) :
  let prices := parsed_prices products in
  let stats := market_stats (snd (MarketAnalyzer.analyze_prices sqrt products)) in
  ((2 <= length prices)%nat ->
   MarketAnalyzer.price_spread sqrt prices = Statistics.sample_stdev sqrt prices
   /\ price_std stats
      = Statistics.round2 (Statistics.sample_stdev sqrt prices))
  /\ (length prices = 1%nat ->
      MarketAnalyzer.price_spread sqrt prices
      = Statistics.mean prices * (2 # 10)
      /\ price_std stats
         = Statistics.round2 (Statistics.mean prices * (2 # 10)))
  /\ (length prices = 0%nat ->
      price_std stats = 0 /\ average_price stats = 0
      /\ price_std stats == average_price stats * (2 # 10)).
Proof.
  cbv zeta. rewrite analyze_prices_spec. cbn [snd].
  unfold MarketAnalyzer.price_spread, Statistics.stdev.
  destruct (parsed_prices products) as [|x [|y prices]]; simpl length.
  - split; [lia|]. split; [lia|]. intros _. simpl. repeat split.
  - split; [lia|]. split; [|lia]. intros _. split; reflexivity.
  - split; [|split; lia]. intros _. split; reflexivity.
Qed.

(** The segment boundaries of the first parser. *)
Lemma analyze_market_data_segments py_float str_float products analysis prices :
  Parser.analyze_market_data py_float str_float products = Some analysis ->
  mapM (Parser.price_of py_float str_float)
       (List.filter (Parser.has_key "price") products) = Some prices ->
  nonempty prices = true ->
  let lo := Statistics.list_min prices in
  let hi := Statistics.list_max prices in
  let segments := Parser.price_segments analysis in
  budget segments = lo + (hi - lo) * (3 # 10)
  /\ premium segments = hi - (hi - lo) * (3 # 10)
  /\ mid_range segments = (budget segments + premium segments) / 2
  /\ Parser.average_price (Parser.market_stats analysis)
     = Statistics.mean prices.
Proof.
  unfold Parser.analyze_market_data. intros Ha Hprices Hne.
  destruct products as [|p products].
  - simpl in Hprices. injection Hprices as <-. discriminate Hne.
  - cbn [nonempty] in Ha. rewrite Hprices in Ha. simpl in Ha.
    rewrite Hne in Ha.
    match type of Ha with
    | context [foldl ?f ?a ?l] => destruct (foldl f a l); [|discriminate]
    end.
    simpl in Ha. injection Ha as <-. repeat split.
Qed.

(** C2: for a non-empty set of readable prices [MarketAnalyzer] reports
    budget = max(0, mean - spread), mid = mean and premium = mean + spread,
    each rounded to two places, where mean and spread are the unrounded
    mean and spread of those prices; the first parser reports budget =
    min + 30% of the range, premium = max - 30% of the range and their
    midpoint as mid. *)
Theorem C2_segment_boundaries :
  (forall products,
      let prices := parsed_prices products in
      let segments :=
        price_segments (snd (MarketAnalyzer.analyze_prices sqrt products)) in
      let mean := Statistics.mean prices in
      let spread := MarketAnalyzer.price_spread sqrt prices in
      nonempty prices = true ->
      budget segments = Statistics.round2 (Qmax 0 (mean - spread))
      /\ mid_range segments = Statistics.round2 mean
      /\ premium segments = Statistics.round2 (mean + spread))
  /\ (forall py_float str_float products analysis prices,
         Parser.analyze_market_data py_float str_float products
         = Some analysis ->
         mapM (Parser.price_of py_float str_float)
              (List.filter (Parser.has_key "price") products) = Some prices ->
         nonempty prices = true ->
         let lo := Statistics.list_min prices in
         let hi := Statistics.list_max prices in
         let segments := Parser.price_segments analysis in
         budget segments = lo + (hi - lo) * (3 # 10)
         /\ premium segments = hi - (hi - lo) * (3 # 10)
         /\ mid_range segments = (budget segments + premium segments) / 2).
Proof.
  split.
  - intros products. cbv zeta. rewrite analyze_prices_spec. cbn [snd].
    intros ->. repeat split.
  - intros py_float str_float products analysis prices Ha Hp Hne.
    destruct (analyze_market_data_segments _ _ _ _ _ Ha Hp Hne)
      as (? & ? & ? & _).
    auto.
Qed.

End MarketAnalysisFacts.

Lemma C7_numeric_price_and_statistics_witness :
  let stats :=
    market_stats (snd (MarketAnalyzer.analyze_prices sqrt4 sample_products)) in
  map (fun record => record !! "numeric_price")
      (fst (MarketAnalyzer.analyze_prices sqrt4 sample_products))
  = [Some (PyNum 100.00); Some (PyNum 200.00); Some (PyNum 0)]
  /\ nonempty (parsed_prices sample_products) = true
  /\ average_price stats
     = Statistics.round2 (Statistics.mean (parsed_prices sample_products))
  /\ MarketAnalyzer.record_price (priced "Not specified") = None
  /\ stats
     = market_stats
         (snd (MarketAnalyzer.analyze_prices
                 sqrt4 ([priced "£100.00"; priced "£200.00"] ++ []))).
Proof.
  destruct (C7_numeric_price_and_statistics sqrt4 sample_products)
    as (_ & Hstats & Hskip).
  split; [reflexivity|]. split; [reflexivity|].
  split; [apply Hstats; reflexivity|].
  split; [reflexivity|].
  apply (Hskip [priced "£100.00"; priced "£200.00"] (priced "Not specified") []);
    reflexivity.
Defined.

Lemma C8_spread_witness :
  ((2 <= length (parsed_prices sample_products))%nat
   /\ MarketAnalyzer.price_spread sqrt4 (parsed_prices sample_products)
      = Statistics.sample_stdev sqrt4 (parsed_prices sample_products))
  /\ (length (parsed_prices [priced "£100.00"]) = 1%nat
      /\ MarketAnalyzer.price_spread sqrt4 (parsed_prices [priced "£100.00"])
         = (Statistics.mean (parsed_prices [priced "£100.00"]) * (2 # 10))%Q)
  /\ (length (parsed_prices [priced "Not specified"]) = 0%nat
      /\ price_std (market_stats
                      (snd (MarketAnalyzer.analyze_prices
                              sqrt4 [priced "Not specified"]))) = 0%Q).
Proof.
  split; [|split].
  - split; [vm_compute; lia|].
    apply (C8_spread sqrt4 sample_products). vm_compute. lia.
  - split; [reflexivity|].
    apply (C8_spread sqrt4 [priced "£100.00"]). reflexivity.
  - split; [reflexivity|].
    apply (C8_spread sqrt4 [priced "Not specified"]). reflexivity.
Defined.

(** The analysis of the prices 10, 20 and 30. *)
Example analysis_of_10_20_30 :
  let stats :=
    market_stats
      (snd (MarketAnalyzer.analyze_prices
              sqrt4 [priced "10"; priced "20"; priced "30"])) in
  (average_price stats == 20)%Q /\ (median_price stats == 20)%Q
  /\ (price_range_min stats == 10)%Q /\ (price_range_max stats == 30)%Q.
Proof. repeat split. Qed.

Lemma C2_segment_boundaries_witness :
  (nonempty (parsed_prices sample_products) = true
   /\ mid_range (price_segments
                   (snd (MarketAnalyzer.analyze_prices sqrt4 sample_products)))
      = Statistics.round2 (Statistics.mean (parsed_prices sample_products)))
  /\ (exists analysis prices,
         Parser.analyze_market_data float_of_text (fun _ => ""%string)
                                    [priced "10"; priced "20"; priced "60"]
         = Some analysis
         /\ mapM (Parser.price_of float_of_text (fun _ => ""%string))
                 (List.filter (Parser.has_key "price")
                              [priced "10"; priced "20"; priced "60"])
            = Some prices
         /\ nonempty prices = true
         /\ budget (Parser.price_segments analysis)
            = (Statistics.list_min prices
               + (Statistics.list_max prices - Statistics.list_min prices)
                 * (3 # 10))%Q).
Proof.
  split.
  - split; [reflexivity|].
    apply (proj1 (C2_segment_boundaries sqrt4) sample_products). reflexivity.
  - eexists. eexists.
    split; [vm_compute; reflexivity|].
    split; [vm_compute; reflexivity|].
    split; [reflexivity|].
    refine (proj1 (proj2 (C2_segment_boundaries sqrt4) float_of_text
                         (fun _ => ""%string)
                         [priced "10"; priced "20"; priced "60"] _ _ _ _ _));
      reflexivity.
Defined.

(** C2, where the statement fails: for the single price 0.333 the mean is
    0.333 and the spread 0.0666, so max(0, mean - spread) is 0.2664, and
    the budget boundary reported is 0.27; the first parser, on the prices
    10, 20 and 60 with mean 30, reports 25, 35 and 45. *)
Lemma C2_reported_boundaries_differ :
  (let prices := parsed_prices [priced "0.333"] in
   let segments :=
     price_segments
       (snd (MarketAnalyzer.analyze_prices sqrt4 [priced "0.333"])) in
   let mean := Statistics.mean prices in
   let spread := MarketAnalyzer.price_spread sqrt4 prices in
   prices = [(333 # 1000)%Q]
   /\ (Qmax 0 (mean - spread) == 2664 # 10000)%Q
   /\ (budget segments == 27 # 100)%Q
   /\ ~ (budget segments == Qmax 0 (mean - spread))%Q)
  /\ (exists analysis,
         Parser.analyze_market_data float_of_text (fun _ => ""%string)
                                    [priced "10"; priced "20"; priced "60"]
         = Some analysis
         /\ (Parser.average_price (Parser.market_stats analysis) == 30)%Q
         /\ (budget (Parser.price_segments analysis) == 25)%Q
         /\ (mid_range (Parser.price_segments analysis) == 35)%Q
         /\ (premium (Parser.price_segments analysis) == 45)%Q
         /\ ~ (mid_range (Parser.price_segments analysis)
               == Parser.average_price (Parser.market_stats analysis))%Q).
Proof.
  split.
  - cbv zeta. split; [reflexivity|]. repeat split; try reflexivity.
    vm_compute. discriminate.
  - eexists. split; [vm_compute; reflexivity|].
    repeat split; try reflexivity. vm_compute. discriminate.
Qed.

(** ** Recommendations *)

Lemma count_app c (a b : string) :
  PyStr.count c (a +:+ b) = (PyStr.count c a + PyStr.count c b)%nat.
Proof.
  induction a as [|x a IH]; [reflexivity|].
  rewrite str_app_cons. simpl. rewrite IH. by destruct (Ascii.eqb x c).
Qed.

Lemma has_pound_l (a b : string) : has_pound a -> has_pound (a +:+ b).
Proof. unfold has_pound. rewrite count_app. lia. Qed.

Lemma has_pound_r (a b : string) : has_pound b -> has_pound (a +:+ b).
Proof. unfold has_pound. rewrite count_app. lia. Qed.

(** Neither positioning note names an amount. *)
Lemma has_pound_other line : has_pound line -> other_line line.
Proof.
  unfold has_pound. intros H. split; intros ->; vm_compute in H; lia.
Qed.

Lemma heading_other (title : string) : other_line (newline +:+ title).
Proof. split; discriminate. Qed.

Ltac pound_line :=
  apply has_pound_other;
  repeat first
    [ apply has_pound_l; vm_compute; lia
    | apply has_pound_r ].

Section RecommendationFacts.

Local Open Scope Q_scope.
Variable str_float : Q -> string.
Variable fmt2 : Q -> string.

(** The first parser: one line is the positioning note the comparison
    of median and mean selects; every other line is a heading, names an
    amount or is the note on the price range. *)
Lemma generate_recommendations_lines market_analysis :
  let stats := Parser.market_stats market_analysis in
  let note :=
    if Statistics.Qgt_bool (Parser.median_price stats)
                           (Parser.average_price stats)
    then Parser.premium_line
    else Parser.price_sensitive_line in
  let lines :=
    Parser.generate_recommendations str_float fmt2 market_analysis in
  In note lines
  /\ forall line, In line lines -> line = note \/ other_line line.
Proof.
  cbv zeta. unfold Parser.generate_recommendations. split.
  - rewrite !in_app_iff. do 3 right. left. by left.
  - intros line H. rewrite !in_app_iff in H.
    destruct H as [H|[H|[H|[H|H]]]].
    + right. repeat (destruct H as [<-|H]); try done;
        try apply heading_other; try pound_line.
    + right. destruct (nonempty (Parser.brand_averages market_analysis));
        [|destruct H].
      destruct H as [<-|H]; [apply heading_other|].
      apply in_map_iff in H as ([brand price] & <- & _). pound_line.
    + right. destruct H as [<-|[]]. apply heading_other.
    + left. by destruct H as [<-|[]].
    + right. destruct H as [<-|[]].
      destruct (Statistics.Qgt_bool _ _); split; discriminate.
Qed.

(** The enhanced generator has neither note among its lines. *)
Lemma generate_price_recommendations_lines {record : Type}
      (product_data : list record) market_analysis line :
  In line (RecommendationGenerator.generate_price_recommendations
             str_float product_data market_analysis) ->
  other_line line.
Proof.
  unfold RecommendationGenerator.generate_price_recommendations.
  destruct market_analysis as [market_analysis|].
  - intros H. rewrite !in_app_iff in H. destruct H as [H|[H|H]].
    + repeat (destruct H as [<-|H]); try done;
        try apply heading_other; try pound_line; try (split; discriminate).
    + destruct (nonempty (brand_averages market_analysis)); [|destruct H].
      destruct H as [<-|H]; [apply heading_other|].
      apply in_map_iff in H as ([brand price] & <- & _). pound_line.
    + repeat (destruct H as [<-|H]); try done;
        try apply heading_other; try (split; discriminate).
  - intros [<-|[]]. split; discriminate.
Qed.

Lemma Qgt_bool_true (x y : Q) : y < x -> Statistics.Qgt_bool x y = true.
Proof.
  intros H. unfold Statistics.Qgt_bool.
  destruct (Qle_bool x y) eqn:Hle; [|reflexivity].
  apply Qle_bool_iff in Hle. exfalso. by apply (Qlt_not_le y x).
Qed.

Lemma Qgt_bool_false (x y : Q) : x <= y -> Statistics.Qgt_bool x y = false.
Proof.
  intros H. unfold Statistics.Qgt_bool.
  apply Qle_bool_iff in H. by rewrite H.
Qed.

(** C6: the lines of [parser.generate_recommendations] contain the
    premium pricing note and not the price-sensitive note when the median
    lies above the mean, and the price-sensitive note and not the premium
    pricing note when it does not; the lines of the enhanced
    [RecommendationGenerator] contain neither note. *)
Theorem C6_positioning_note :
  (forall market_analysis,
      let stats := Parser.market_stats market_analysis in
      let lines :=
        Parser.generate_recommendations str_float fmt2 market_analysis in
      (Parser.average_price stats < Parser.median_price stats ->
       In Parser.premium_line lines
       /\ ~ In Parser.price_sensitive_line lines)
      /\ (Parser.median_price stats <= Parser.average_price stats ->
          In Parser.price_sensitive_line lines
          /\ ~ In Parser.premium_line lines))
  /\ (forall (product_data : list pydict) market_analysis,
         let lines :=
           RecommendationGenerator.generate_price_recommendations
             str_float product_data market_analysis in
         ~ In Parser.premium_line lines
         /\ ~ In Parser.price_sensitive_line lines).
Proof.
  split.
  - intros market_analysis stats lines.
    destruct (generate_recommendations_lines market_analysis)
      as [Hnote Hlines].
    fold stats lines in Hnote, Hlines. split; intros Hcmp.
    + rewrite (Qgt_bool_true _ _ Hcmp) in Hnote, Hlines.
      split; [exact Hnote|]. intros Hin.
      destruct (Hlines _ Hin) as [?|[_ ?]]; [discriminate|done].
    + rewrite (Qgt_bool_false _ _ Hcmp) in Hnote, Hlines.
      split; [exact Hnote|]. intros Hin.
      destruct (Hlines _ Hin) as [?|[? _]]; [discriminate|done].
  - intros product_data market_analysis lines.
    split; intros Hin;
      apply generate_price_recommendations_lines in Hin as [? ?]; done.
Qed.

End RecommendationFacts.

Lemma C6_positioning_note_witness :
  ((Parser.average_price (Parser.market_stats skewed_analysis)
    < Parser.median_price (Parser.market_stats skewed_analysis))%Q
   /\ In Parser.premium_line
         (Parser.generate_recommendations fixed2 fixed2 skewed_analysis))
  /\ ((Parser.median_price (Parser.market_stats Parser.empty_analysis)
       <= Parser.average_price (Parser.market_stats Parser.empty_analysis))%Q
      /\ In Parser.price_sensitive_line
            (Parser.generate_recommendations fixed2 fixed2
                                             Parser.empty_analysis)).
Proof.
  split.
  - split; [reflexivity|].
    apply (proj1 (C6_positioning_note fixed2 fixed2) skewed_analysis).
    reflexivity.
  - split; [discriminate|].
    apply (proj1 (C6_positioning_note fixed2 fixed2) Parser.empty_analysis).
    discriminate.
Defined.

(** C6, where the statement fails: on three prices whose median, 50, lies
    above their mean, 40, the enhanced generator returns its fixed
    strategic lines, the premium pricing note not among them. *)
Lemma C6_enhanced_generator_has_no_note :
  let analysis :=
    snd (MarketAnalyzer.analyze_prices sqrt4 skewed_products) in
  (average_price (market_stats analysis) == 40)%Q
  /\ (median_price (market_stats analysis) == 50)%Q
  /\ ~ In Parser.premium_line
         (RecommendationGenerator.generate_price_recommendations
            fixed2 (fst (MarketAnalyzer.analyze_prices sqrt4 skewed_products))
            (Some analysis)).
Proof.
  cbv zeta. split; [reflexivity|]. split; [reflexivity|].
  intros Hin.
  apply generate_price_recommendations_lines in Hin as [? _]. done.
Qed.

(** ** Delegate adapters *)

Section AdapterFacts.

Variable llm : nat -> string -> option string.

Lemma world_eq (w : world) : {| calls := calls w; trace := trace w |} = w.
Proof. by destruct w. Qed.

Section Enhanced.

Variable value : Type.
Variable json_loads : string -> option value.
Variable items_of : value -> option (list value).

Lemma parses_only_start : parses_only json_loads items_of (mret []) 0.
Proof.
  intros w. exists [], []. split; [|by repeat split].
  cbn. rewrite Nat.add_0_r, app_nil_r. by rewrite world_eq.
Qed.

(** One chunk: one request, its reply read by [json.loads]. *)
Lemma parses_only_step (acc : M (list value)) n chunk :
  parses_only json_loads items_of acc n ->
  parses_only json_loads items_of
    (all_results ← acc;
     try_except
       (response ← invoke llm (ContentParser._get_parse_template chunk);
        products ← loads json_loads response;
        items ← lift (items_of products);
        mret (all_results ++ items))
       (mret all_results))
    (S n).
Proof.
  intros Hacc w. destruct (Hacc w) as (results & events & Hrun & Hev & Hinv & Hsrc).
  set (prompt := ContentParser._get_parse_template chunk).
  unfold mbind at 1, M_bind at 1. rewrite Hrun.
  unfold try_except, mbind, M_bind, invoke, loads, log_event, lift.
  cbn [calls trace].
  assert (calls w + S n = S (calls w + n))%nat as Hs by lia.
  assert (forall tail,
             Forall (fun e => is_eval e = false) tail ->
             length (List.filter is_invoke tail) = 1%nat ->
             Forall (fun e => is_eval e = false) (events ++ tail)
             /\ length (List.filter is_invoke (events ++ tail)) = S n)
    as Hlog.
  { intros tail Htail Hone. split; [by apply Forall_app|].
    rewrite List.filter_app, length_app, Hinv, Hone. lia. }
  assert (forall tail record,
             In record results ->
             exists text reply items,
               In (JsonLoads text) (events ++ tail)
               /\ json_loads text = Some reply
               /\ items_of reply = Some items
               /\ In record items) as Hold.
  { intros tail record Hin.
    destruct (Hsrc record Hin) as (text & reply & items & ? & ? & ? & ?).
    exists text, reply, items. rewrite in_app_iff. auto. }
  destruct (llm (calls w + n) prompt) as [response|].
  - destruct (json_loads response) as [products|] eqn:Hloads.
    + destruct (items_of products) as [items|] eqn:Hitems.
      * exists (results ++ items),
          (events ++ [Invoke prompt; JsonLoads response]).
        cbn. rewrite Hs. rewrite <- !app_assoc. split; [done|].
        destruct (Hlog [Invoke prompt; JsonLoads response])
          as [? ?]; [by repeat constructor|done|].
        split; [done|]. split; [done|].
        intros record [Hin|Hin]%in_app_or; [by apply Hold|].
        exists response, products, items. rewrite in_app_iff. simpl. auto.
      * exists results, (events ++ [Invoke prompt; JsonLoads response]).
        cbn. rewrite Hs. rewrite <- !app_assoc. split; [done|].
        destruct (Hlog [Invoke prompt; JsonLoads response])
          as [? ?]; [by repeat constructor|done|].
        split; [done|]. split; [done|]. intros record. apply Hold.
    + exists results, (events ++ [Invoke prompt; JsonLoads response]).
      cbn. rewrite Hs. rewrite <- !app_assoc. split; [done|].
      destruct (Hlog [Invoke prompt; JsonLoads response])
        as [? ?]; [by repeat constructor|done|].
      split; [done|]. split; [done|]. intros record. apply Hold.
  - exists results, (events ++ [Invoke prompt]).
    cbn. rewrite Hs. rewrite <- !app_assoc. split; [done|].
    destruct (Hlog [Invoke prompt]) as [? ?]; [by repeat constructor|done|].
    split; [done|]. split; [done|]. intros record. apply Hold.
Qed.

Lemma collect_results_parses_only dom_chunks parse_description :
  parses_only json_loads items_of
    (ContentParser.collect_results llm json_loads items_of
                                   dom_chunks parse_description)
    (length dom_chunks).
Proof.
  unfold ContentParser.collect_results.
  change (length dom_chunks) with (0 + length dom_chunks)%nat.
  generalize parses_only_start.
  generalize (mret [] : M (list value)) as acc, 0%nat as n.
  induction dom_chunks as [|chunk chunks IH]; intros acc n Hacc.
  - by rewrite Nat.add_0_r.
  - cbn [foldl length]. replace (n + S (length chunks))%nat
      with (S n + length chunks)%nat by lia.
    apply IH. by apply parses_only_step.
Qed.

End Enhanced.

(** C9: whatever the replies are and whatever [json.loads] reads from
    them, [ContentParser.parse_with_llm] makes exactly one request per
    chunk, without any repair request, and evaluates nothing; it hands to
    the analysis only items of values that [json.loads] read from a
    reply, returns these as the analysis leaves them, and raises exactly
    when the analysis raises.  [parser.parse_llm_response] sends the
    reply back for reformatting and, when that request answers, evaluates
    the answer as Python code. *)
Theorem C9_what_adapters_do_with_replies :
  (forall (value : Type) str_float (json_loads : string -> option value)
          items_of analyze_prices dom_chunks parse_description w,
      let run :=
        ContentParser.parse_with_llm str_float llm json_loads items_of
                                     analyze_prices
                                     dom_chunks parse_description w in
      exists all_results events,
        snd run = {| calls := calls w + length dom_chunks;
                     trace := trace w ++ events |}
        /\ Forall (fun e => is_eval e = false) events
        /\ length (List.filter is_invoke events) = length dom_chunks
        /\ (forall record, In record all_results ->
              exists text reply items,
                In (JsonLoads text) events
                /\ json_loads text = Some reply
                /\ items_of reply = Some items
                /\ In record items)
        /\ (fst run = None <-> analyze_prices all_results = None)
        /\ (forall result, fst run = Some result ->
              analyze_prices all_results
              = Some (ContentParser.products result,
                      ContentParser.market_analysis result)))
  /\ (forall (value : Type) (py_eval : string -> outcome value)
             response_text w reply,
         llm (calls w) (Parser.formatting_prompt response_text) = Some reply ->
         trace (snd (Parser.parse_llm_response llm py_eval response_text w))
         = trace w ++ [Invoke (Parser.formatting_prompt response_text);
                       Eval reply]).
Proof.
  split.
  - intros value str_float json_loads items_of analyze_prices
           dom_chunks parse_description w.
    destruct (collect_results_parses_only
                value json_loads items_of dom_chunks parse_description w)
      as (results & events & Hrun & Hev & Hinv & Hsrc).
    assert (ContentParser.parse_with_llm str_float llm json_loads items_of
                                         analyze_prices
                                         dom_chunks parse_description w
            = (match analyze_prices results with
               | Some (products, analysis) =>
                   Some {| ContentParser.products := products;
                           ContentParser.market_analysis := analysis;
                           ContentParser.recommendations :=
                             RecommendationGenerator.generate_price_recommendations
                               str_float products (Some analysis) |}
               | None => None
               end,
               {| calls := calls w + length dom_chunks;
                  trace := trace w ++ events |})) as Hfull.
    { unfold ContentParser.parse_with_llm, mbind, M_bind, lift.
      rewrite Hrun. by destruct (analyze_prices results) as [[? ?]|]. }
    cbv zeta. rewrite Hfull. exists results, events.
    split; [done|]. split; [done|]. split; [done|]. split; [done|].
    destruct (analyze_prices results) as [[products analysis]|]; cbn [fst].
    + split; [done|]. by intros result [= <-].
    + by split.
  - intros value py_eval response_text w reply Hreply.
    unfold Parser.parse_llm_response, invoke.
    rewrite Hreply. cbn [calls trace].
    destruct (py_eval reply); cbn; by rewrite <- app_assoc.
Qed.

End AdapterFacts.

Lemma C9_what_adapters_do_with_replies_witness :
  scripted_llm (calls (mkWorld 0 []))
               (Parser.formatting_prompt "two phones") = Some code_reply
  /\ trace (snd (Parser.parse_llm_response
                   scripted_llm (fun _ => Returns ([] : list pydict))
                   "two phones" (mkWorld 0 [])))
     = trace (mkWorld 0 [])
       ++ [Invoke (Parser.formatting_prompt "two phones"); Eval code_reply].
Proof.
  split; [reflexivity|].
  apply (proj2 (C9_what_adapters_do_with_replies scripted_llm)).
  reflexivity.
Defined.

(** C9, where the statement fails: [parser.parse_llm_response] hands the
    text the delegate returns to [eval]. *)
Lemma C9_reply_is_evaluated :
  let run :=
    Parser.parse_llm_response scripted_llm
                              (fun _ => Returns ([] : list pydict))
                              "two phones" (mkWorld 0 []) in
  trace (snd run)
  = [Invoke (Parser.formatting_prompt "two phones"); Eval code_reply]
  /\ existsb is_eval (trace (snd run)) = true.
Proof. split; reflexivity. Qed.

(** ** Chat responder *)




(** * Further properties of the code *)

(** ** Chunkers: sizes, counts and oversized units *)

Lemma total_size_nonneg units : (0 <= total_size units)%Z.
Proof. induction units as [|u units IH]; simpl; lia. Qed.





Lemma chunks_of_count sep max units out :
  chunks_of sep max units out ->
  (length out <= length units)%nat /\ (out = [] <-> units = []).
Proof.
  intros (groups & -> & Hg & <-). rewrite length_map. split.
  - induction Hg as [|g gs [Hne _] _ IH]; simpl; [lia|].
    rewrite length_app. destruct g; [congruence|]. simpl. lia.
  - destruct Hg as [|g gs [Hne _] _]; simpl; [done|].
    split; [discriminate|]. destruct g; [congruence|discriminate].
Qed.






(** X3: the line chunker always returns at least one chunk (the empty text
    gives one empty chunk) and never more chunks than the text has lines;
    the element chunker returns no chunk exactly when the document has no
    [div], [li] or [section]. *)
Theorem chunk_counts :
  (forall dom_content max_length,
      let out := ScraperEnhanced.split_dom_content dom_content max_length in
      out <> []
      /\ (length out <= length (PyStr.split nl dom_content))%nat)
  /\ (forall max_length, ScraperEnhanced.split_dom_content "" max_length = [""%string])
  /\ (forall soup max_chunk_size,
         let out := Scraper.split_dom_content soup max_chunk_size in
         (length out <= length (Scraper.element_texts soup))%nat
         /\ (out = [] <-> Scraper.element_texts soup = [])).
Proof.
  split; [|split].
  - intros dom_content max_length out.
    destruct (chunks_of_count _ _ _ _ (enhanced_chunks_of dom_content max_length))
      as [Hlen Hnil].
    split; [|done]. intros Hout. apply Hnil in Hout.
    by apply split_not_nil in Hout.
  - intros max_length.
    unfold ScraperEnhanced.split_dom_content, ScraperEnhanced.step. cbn.
    by rewrite andb_false_r.
  - intros soup max_chunk_size out.
    apply (chunks_of_count _ _ _ _ (scraper_chunks_of soup max_chunk_size)).
Qed.

Lemma total_size_cons u units :
  total_size (u :: units)
  = (Z.of_nat (String.length u) + total_size units)%Z.
Proof. reflexivity. Qed.

(** While everything seen fits, the line chunker flushes nothing. *)
Lemma enhanced_fold_fits max lines st :
  chunks st = [] ->
  current_size st = total_size (current_chunk st) ->
  (current_size st + total_size lines <= max)%Z ->
  fold_left (ScraperEnhanced.step max) lines st
  = {| chunks := [];
       current_chunk := current_chunk st ++ lines;
       current_size := (current_size st + total_size lines)%Z |}.
Proof.
  revert st. induction lines as [|line lines IH]; intros st Hc Hs Hfit.
  - simpl. rewrite app_nil_r, Z.add_0_r. destruct st. simpl in *. by subst.
  - cbn [fold_left]. rewrite total_size_cons in Hfit |- *.
    pose proof (total_size_nonneg lines).
    assert (ScraperEnhanced.step max st line
            = {| chunks := [];
                 current_chunk := current_chunk st ++ [line];
                 current_size :=
                   (current_size st + Z.of_nat (String.length line))%Z |})
      as ->.
    { unfold ScraperEnhanced.step.
      destruct (Z.gtb_spec (current_size st + Z.of_nat (String.length line)) max);
        [lia|]. simpl. by rewrite Hc. }
    rewrite IH; cbn [chunks current_chunk current_size].
    + rewrite <- app_assoc. f_equal. lia.
    + done.
    + rewrite total_size_app, total_size_cons, Hs. simpl. lia.
    + lia.
Qed.

(** X4: a text the lengths of whose lines add up to at most the maximum
    comes back as one chunk, the text itself. *)
Theorem fitting_text_is_one_chunk dom_content max_length :
  (total_size (PyStr.split nl dom_content) <= max_length)%Z ->
  ScraperEnhanced.split_dom_content dom_content max_length = [dom_content].
Proof.
  intros Hfit. unfold ScraperEnhanced.split_dom_content.
  rewrite enhanced_fold_fits by (simpl; done || lia).
  unfold ScraperEnhanced.flush. cbn [chunks current_chunk app].
  pose proof (split_not_nil nl dom_content) as Hne.
  apply nonempty_true in Hne. rewrite Hne.
  change newline with (String nl EmptyString). by rewrite join_split.
Qed.

Lemma fitting_text_is_one_chunk_witness :
  ScraperEnhanced.split_dom_content ("ab" +:+ newline +:+ "c") 6
  = ["ab" +:+ newline +:+ "c"].
Proof. apply fitting_text_is_one_chunk. vm_compute. discriminate. Defined.

(** ** Price parser: the number that is read *)

Lemma point_not_digit c : Ascii.eqb c "." = true -> PyStr.isdigit c = false.
Proof. intros ->%Ascii.eqb_eq. reflexivity. Qed.

Lemma all_chars_filter p s : all_chars p (PyStr.filter_chars p s) = true.
Proof.
  induction s as [|c r IH]; simpl; [reflexivity|].
  destruct (p c) eqn:Hc; simpl; [by rewrite Hc|done].
Qed.

Lemma digits_of_numeric s :
  digits_of (PyStr.filter_chars numeric s) = digits_of s.
Proof.
  unfold digits_of, numeric. induction s as [|c r IH]; simpl; [reflexivity|].
  destruct (PyStr.isdigit c) eqn:Hd; simpl; [by rewrite Hd, IH|].
  destruct (Ascii.eqb c "."); simpl; [by rewrite Hd|done].
Qed.

Lemma count_point_numeric s :
  PyStr.count "." (PyStr.filter_chars numeric s) = PyStr.count "." s.
Proof.
  unfold numeric. induction s as [|c r IH]; simpl; [reflexivity|].
  destruct (Ascii.eqb c ".") eqn:Hp.
  - rewrite orb_true_r. simpl. by rewrite Hp, IH.
  - rewrite orb_false_r. destruct (PyStr.isdigit c); simpl; [by rewrite Hp|done].
Qed.

Lemma keep_last_point_no_point s :
  PyStr.count "." s = 0%nat -> NormalizerSpec.keep_last_point s = s.
Proof.
  induction s as [|c r IH]; simpl; [reflexivity|].
  destruct (Ascii.eqb c "."); [discriminate|]. simpl. intros H. by rewrite IH.
Qed.

Lemma keep_last_point_count s :
  (PyStr.count "." (NormalizerSpec.keep_last_point s) <= 1)%nat.
Proof.
  induction s as [|c r IH]; simpl; [lia|].
  destruct (Ascii.eqb c ".") eqn:Hp; simpl.
  - destruct (PyStr.count "." r) eqn:Hr; simpl; [|exact IH].
    rewrite Hp, keep_last_point_no_point, Hr by done. lia.
  - by rewrite Hp.
Qed.

Lemma keep_last_point_numeric s :
  all_chars numeric s = true ->
  all_chars numeric (NormalizerSpec.keep_last_point s) = true.
Proof.
  induction s as [|c r IH]; simpl; [reflexivity|].
  intros [Hc Hr]%andb_true_iff.
  destruct (Ascii.eqb c "." && (0 <? PyStr.count "." r)%nat); [auto|].
  simpl. by rewrite Hc, IH.
Qed.

Lemma keep_last_point_digits s :
  digits_of (NormalizerSpec.keep_last_point s) = digits_of s.
Proof.
  unfold digits_of. induction s as [|c r IH]; simpl; [reflexivity|].
  destruct (Ascii.eqb c ".") eqn:Hp; simpl.
  - rewrite (point_not_digit c Hp).
    destruct (0 <? PyStr.count "." r)%nat; simpl; [done|].
    by rewrite (point_not_digit c Hp).
  - by rewrite IH.
Qed.

Lemma prefix_point c r : String.prefix "." (String c r) = Ascii.eqb c ".".
Proof.
  change (String.prefix "." (String c r))
    with (if ascii_dec "." c then String.prefix "" r else false).
  destruct (ascii_dec "." c) as [<-|Hne].
  - by destruct r.
  - symmetry. apply Ascii.eqb_neq. congruence.
Qed.

(** In the text handed to [Decimal] the digits behind the point are those
    behind the last point of the stripped text. *)
Lemma fraction_digits s :
  all_chars numeric s = true ->
  String.length (digits_of (NormalizerSpec.keep_last_point s))
  = (String.length (PyStr.split_head "." (NormalizerSpec.keep_last_point s))
     + String.length (digits_of (after_last_point s)))%nat.
Proof.
  induction s as [|c r IH]; [reflexivity|].
  cbn [all_chars]. intros [Hc Hr]%andb_true_iff.
  cbn [NormalizerSpec.keep_last_point after_last_point].
  destruct (Ascii.eqb c ".") eqn:Hp; cbn [andb].
  - destruct (PyStr.count "." r) as [|k] eqn:Hk; cbn [Nat.ltb Nat.leb Nat.eqb].
    + rewrite keep_last_point_no_point by done.
      cbn [PyStr.split_head]. rewrite prefix_point, Hp.
      unfold digits_of. simpl. by rewrite (point_not_digit c Hp).
    + by apply IH.
  - cbn [PyStr.split_head]. rewrite prefix_point, Hp.
    unfold numeric in Hc. rewrite Hp, orb_false_r in Hc.
    unfold digits_of in *. simpl. rewrite Hc. simpl. by rewrite IH.
Qed.

Lemma after_last_point_numeric s :
  digits_of (after_last_point (PyStr.filter_chars numeric s))
  = digits_of (after_last_point s).
Proof.
  induction s as [|c r IH]; [reflexivity|].
  cbn [PyStr.filter_chars after_last_point]. unfold numeric at 1.
  destruct (Ascii.eqb c ".") eqn:Hp.
  - rewrite orb_true_r. cbn [after_last_point]. rewrite Hp, count_point_numeric.
    destruct (PyStr.count "." r =? 0)%nat; cbn [andb]; [|exact IH].
    apply digits_of_numeric.
  - rewrite orb_false_r. cbn [andb].
    destruct (PyStr.isdigit c); [|exact IH].
    cbn [after_last_point]. rewrite Hp. exact IH.
Qed.

Lemma digits_empty_of_empty s : s = EmptyString -> digits_of s = EmptyString.
Proof. by intros ->. Qed.

(** X5: on a text of ASCII characters and pound signs
    [extract_numeric_price] reads a number exactly when the text before
    the first [" to "] holds a digit; the number then has the digits of that
    text, in their order, as its coefficient, and as many decimals as there
    are digits behind the last point of that text. *)
Theorem price_value_characterised (price_str : string) :
  ascii_or_pound price_str = true ->
  let x := price_text price_str in
  PriceParser.extract_numeric_price price_str
  = (if String.eqb (digits_of x) "" then None
     else Some {| coefficient := digits_value 0 (digits_of x);
                  exponent :=
                    - Z.of_nat (String.length (digits_of (after_last_point x))) |})
  /\ (PriceParser.extract_numeric_price price_str = None
      <-> digits_of x = EmptyString).
Proof.
  intros _. cbv zeta.
  assert (PriceParser.extract_numeric_price price_str
          = (if String.eqb (digits_of (price_text price_str)) "" then None
             else Some {| coefficient :=
                            digits_value 0 (digits_of (price_text price_str));
                          exponent :=
                            - Z.of_nat (String.length
                                (digits_of (after_last_point
                                              (price_text price_str)))) |}))
    as Hvalue.
  { rewrite extract_numeric_price_normalize, normalize_without_rule_1.
    change (NormalizerSpec.lower_bound price_str) with (price_text price_str).
    generalize (price_text price_str) as x. intros x.
    change (NormalizerSpec.strip_non_numeric x)
      with (PyStr.filter_chars numeric x).
    pose proof (all_chars_filter numeric x) as Hn.
    pose proof (keep_last_point_count (PyStr.filter_chars numeric x))
      as Hcount%Nat.leb_le.
    pose proof (fraction_digits _ Hn) as Hfrac.
    rewrite keep_last_point_digits, digits_of_numeric,
      after_last_point_numeric in Hfrac.
    unfold NormalizerSpec.parse_amount, Decimal_of_string.
    change (fun c => PyStr.isdigit c || Ascii.eqb c ".") with numeric.
    rewrite (keep_last_point_numeric _ Hn), Hcount. cbn [andb].
    fold (digits_of (NormalizerSpec.keep_last_point
                       (PyStr.filter_chars numeric x))).
    rewrite keep_last_point_digits, digits_of_numeric.
    destruct (String.eqb_spec (digits_of x) "") as [He|Hne]; cbn [negb].
    - by destruct (String.eqb _ "").
    - destruct (String.eqb_spec
                  (NormalizerSpec.keep_last_point
                     (PyStr.filter_chars numeric x)) "") as [Hk|_].
      + exfalso. apply Hne. rewrite <- (digits_of_numeric x).
        rewrite <- keep_last_point_digits. by rewrite Hk.
      + do 3 f_equal. lia. }
  split; [exact Hvalue|].
  rewrite Hvalue.
  destruct (String.eqb_spec (digits_of (price_text price_str)) "");
    split; congruence.
Qed.

Lemma price_value_characterised_witness :
  PriceParser.extract_numeric_price "£1,234.50 to £2,000"
  = Some {| coefficient := 123450; exponent := -2 |}.
Proof.
  destruct (price_value_characterised "£1,234.50 to £2,000" eq_refl)
    as [H _].
  exact H.
Defined.

(** ** Statistics: order of the reported numbers *)

Section StatisticsFacts.

Local Open Scope Q_scope.
Import Statistics.

Lemma fold_min_le_acc r a : fold_left Qmin r a <= a.
Proof.
  revert a. induction r as [|y r IH]; intros a; simpl; [apply Qle_refl|].
  eapply Qle_trans; [apply IH|apply Q.le_min_l].
Qed.

Lemma fold_min_le_in r a y : In y r -> fold_left Qmin r a <= y.
Proof.
  revert a. induction r as [|z r IH]; intros a; simpl; [done|].
  intros [->|Hin]; [|by apply IH].
  eapply Qle_trans; [apply fold_min_le_acc|apply Q.le_min_r].
Qed.

Lemma fold_max_ge_acc r a : a <= fold_left Qmax r a.
Proof.
  revert a. induction r as [|y r IH]; intros a; simpl; [apply Qle_refl|].
  eapply Qle_trans; [apply Q.le_max_l|apply IH].
Qed.

Lemma fold_max_ge_in r a y : In y r -> y <= fold_left Qmax r a.
Proof.
  revert a. induction r as [|z r IH]; intros a; simpl; [done|].
  intros [->|Hin]; [|by apply IH].
  eapply Qle_trans; [apply Q.le_max_r|apply fold_max_ge_acc].
Qed.

Lemma list_min_le xs x : In x xs -> list_min xs <= x.
Proof.
  destruct xs as [|a r]; [done|]. simpl.
  intros [->|Hin]; [apply fold_min_le_acc|by apply fold_min_le_in].
Qed.

Lemma list_max_ge xs x : In x xs -> x <= list_max xs.
Proof.
  destruct xs as [|a r]; [done|]. simpl.
  intros [->|Hin]; [apply fold_max_ge_acc|by apply fold_max_ge_in].
Qed.

Lemma count_of_cons x xs : count_of (x :: xs) == 1 + count_of xs.
Proof.
  unfold count_of. cbn [length].
  rewrite Nat2Z.inj_succ, <- Z.add_1_l, inject_Z_plus. reflexivity.
Qed.

Lemma count_of_nonneg xs : 0 <= count_of xs.
Proof.
  unfold count_of. change 0 with (inject_Z 0). rewrite <- Zle_Qle. lia.
Qed.

Lemma count_of_pos xs : xs <> [] -> 0 < count_of xs.
Proof.
  destruct xs as [|x xs]; [done|]. intros _.
  rewrite count_of_cons. pose proof (count_of_nonneg xs). lra.
Qed.

Lemma fsum_ge xs lo :
  (forall x, In x xs -> lo <= x) -> lo * count_of xs <= fsum xs.
Proof.
  induction xs as [|x xs IH]; intros Hlo.
  - change (count_of []) with 0. change (fsum []) with 0. lra.
  - rewrite count_of_cons. cbn [fsum fold_right]. fold (fsum xs).
    assert (lo <= x) by (apply Hlo; by left).
    assert (lo * count_of xs <= fsum xs) by (apply IH; intros; apply Hlo; by right).
    lra.
Qed.

Lemma fsum_le xs hi :
  (forall x, In x xs -> x <= hi) -> fsum xs <= hi * count_of xs.
Proof.
  induction xs as [|x xs IH]; intros Hhi.
  - change (count_of []) with 0. change (fsum []) with 0. lra.
  - rewrite count_of_cons. cbn [fsum fold_right]. fold (fsum xs).
    assert (x <= hi) by (apply Hhi; by left).
    assert (fsum xs <= hi * count_of xs) by (apply IH; intros; apply Hhi; by right).
    lra.
Qed.

(** The mean of a non-empty list lies between any bounds of its members. *)
Lemma mean_between xs lo hi :
  xs <> [] ->
  (forall x, In x xs -> lo <= x /\ x <= hi) ->
  lo <= mean xs /\ mean xs <= hi.
Proof.
  intros Hne Hb. pose proof (count_of_pos xs Hne). unfold mean. split.
  - apply Qle_shift_div_l; [done|]. apply fsum_ge. intros x Hx. by apply Hb.
  - apply Qle_shift_div_r; [done|]. apply fsum_le. intros x Hx. by apply Hb.
Qed.

Lemma insert_sorted_In x y xs :
  In y (insert_sorted x xs) <-> y = x \/ In y xs.
Proof.
  induction xs as [|z xs IH]; simpl; [intuition|].
  destruct (Qle_bool x z); simpl; [intuition|]. rewrite IH. intuition.
Qed.

Lemma sorted_In y xs : In y (sorted xs) <-> In y xs.
Proof.
  induction xs as [|x xs IH]; simpl; [done|].
  rewrite insert_sorted_In, IH. intuition.
Qed.

Lemma insert_sorted_length x xs :
  length (insert_sorted x xs) = S (length xs).
Proof.
  induction xs as [|z xs IH]; simpl; [done|].
  destruct (Qle_bool x z); simpl; [done|]. by rewrite IH.
Qed.

Lemma sorted_length xs : length (sorted xs) = length xs.
Proof.
  induction xs as [|x xs IH]; simpl; [done|].
  by rewrite insert_sorted_length, IH.
Qed.

(** The median of a non-empty list lies between any bounds of its
    members. *)
Lemma median_between xs lo hi :
  xs <> [] ->
  (forall x, In x xs -> lo <= x /\ x <= hi) ->
  lo <= median xs /\ median xs <= hi.
Proof.
  intros Hne Hb. unfold median.
  assert (0 < length (sorted xs))%nat as Hlen.
  { rewrite sorted_length. destruct xs; [done|simpl; lia]. }
  assert (forall i, (i < length (sorted xs))%nat ->
                    lo <= nth i (sorted xs) 0 /\ nth i (sorted xs) 0 <= hi)
    as Hnth.
  { intros i Hi. apply Hb, sorted_In. by apply nth_In. }
  set (n := length (sorted xs)) in *.
  destruct (Nat.odd n) eqn:Hodd.
  - apply Hnth. apply Nat.div_lt; lia.
  - assert (2 <= n)%nat as Hn2.
    { destruct n as [|[|n]]; [lia|discriminate|lia]. }
    assert (n / 2 < n)%nat by (apply Nat.div_lt; lia).
    destruct (Hnth (n / 2 - 1)%nat ltac:(lia)) as [? ?].
    destruct (Hnth (n / 2)%nat ltac:(lia)) as [? ?].
    split.
    + apply Qle_shift_div_l; lra.
    + apply Qle_shift_div_r; lra.
Qed.

Lemma round_half_even_bounds x :
  (Qfloor x <= round_half_even x <= Qfloor x + 1)%Z.
Proof.
  unfold round_half_even.
  destruct (Qcompare _ _); [destruct (Z.even _)| |]; lia.
Qed.

(** Rounding keeps the order. *)
Lemma round_half_even_mono x y :
  x <= y -> (round_half_even x <= round_half_even y)%Z.
Proof.
  intros Hxy. pose proof (Qfloor_resp_le x y Hxy) as Hfl.
  pose proof (round_half_even_bounds x). pose proof (round_half_even_bounds y).
  destruct (Z.eq_dec (Qfloor x) (Qfloor y)) as [Heq|Hne]; [|lia].
  unfold round_half_even in *. rewrite <- Heq in *.
  destruct (Qcompare_spec (x - inject_Z (Qfloor x)) (1 # 2)) as [Hx|Hx|Hx];
    destruct (Qcompare_spec (y - inject_Z (Qfloor x)) (1 # 2)) as [Hy|Hy|Hy];
    try destruct (Z.even (Qfloor x)); try lia; exfalso; lra.
Qed.

Lemma round2_mono x y : x <= y -> round2 x <= round2 y.
Proof.
  intros Hxy. unfold round2.
  assert (round_half_even (x * 100) <= round_half_even (y * 100))%Z as Hr
    by (apply round_half_even_mono; lra).
  rewrite Zle_Qle in Hr. unfold Qdiv.
  apply Qmult_le_compat_r; [exact Hr|discriminate].
Qed.

Lemma round2_nonneg x : 0 <= x -> 0 <= round2 x.
Proof.
  intros Hx. apply (Qle_trans _ (round2 0)); [discriminate|].
  by apply round2_mono.
Qed.

End StatisticsFacts.

(** ** Market analysis: what the analyzer guarantees *)

Lemma sqrt4_nonneg x : (0 <= sqrt4 x)%Q.
Proof.
  unfold sqrt4, Qle. cbn [Qnum Qden].
  pose proof (Z.sqrt_nonneg (Qfloor (x * inject_Z 100000000))). lia.
Qed.

Section AnalyzerGuarantees.

Local Open Scope Q_scope.
Import Statistics.
Variable sqrt : Q -> Q.

Lemma parsed_prices_nonneg products x :
  In x (parsed_prices products) -> 0 <= x.
Proof.
  unfold parsed_prices. induction products as [|p ps IH]; csimpl; [done|].
  destruct (MarketAnalyzer.record_price p) as [y|] eqn:Hy; [|exact IH].
  intros [<-|Hin]; [by eapply record_price_nonneg|by apply IH].
Qed.

Lemma fold_min_glb r a lo :
  lo <= a -> (forall y, In y r -> lo <= y) -> lo <= fold_left Qmin r a.
Proof.
  revert a. induction r as [|z r IH]; intros a Ha Hr; simpl; [done|].
  apply IH.
  - apply Q.min_glb; [done|]. apply Hr. by left.
  - intros y Hy. apply Hr. by right.
Qed.

Lemma list_min_nonneg xs :
  (forall x, In x xs -> 0 <= x) -> 0 <= list_min xs.
Proof.
  destruct xs as [|a r]; intros H; simpl; [apply Qle_refl|].
  apply fold_min_glb; [apply H; by left|]. intros y Hy. apply H. by right.
Qed.

Lemma prices_bounded prices x :
  In x prices -> list_min prices <= x /\ x <= list_max prices.
Proof. intros Hx. split; [by apply list_min_le|by apply list_max_ge]. Qed.

(** X6: in every analysis the reported minimum is not negative and the
    reported mean and median lie between the reported minimum and
    maximum. *)
Theorem reported_statistics_are_ordered (products : list pydict) :
  let stats :=
    market_stats (snd (MarketAnalyzer.analyze_prices sqrt products)) in
  0 <= price_range_min stats
  /\ price_range_min stats <= average_price stats
  /\ average_price stats <= price_range_max stats
  /\ price_range_min stats <= median_price stats
  /\ median_price stats <= price_range_max stats.
Proof.
  cbv zeta. rewrite analyze_prices_spec. cbn [snd].
  destruct (nonempty (parsed_prices products)) eqn:Hne;
    [|by repeat split].
  apply nonempty_true in Hne. cbn.
  destruct (mean_between _ _ _ Hne (prices_bounded (parsed_prices products))).
  destruct (median_between _ _ _ Hne (prices_bounded (parsed_prices products))).
  repeat split; try by apply round2_mono.
  apply round2_nonneg, list_min_nonneg, parsed_prices_nonneg.
Qed.

Lemma mean_nonneg prices :
  prices <> [] -> (forall x, In x prices -> 0 <= x) -> 0 <= mean prices.
Proof.
  intros Hne Hpos.
  apply (mean_between prices 0 (list_max prices) Hne).
  intros x Hx. split; [by apply Hpos|by apply list_max_ge].
Qed.

Lemma price_spread_nonneg prices :
  (forall x, 0 <= sqrt x) ->
  prices <> [] -> (forall x, In x prices -> 0 <= x) ->
  0 <= MarketAnalyzer.price_spread sqrt prices.
Proof.
  intros Hsqrt Hne Hpos. unfold MarketAnalyzer.price_spread, stdev.
  destruct (length prices <? 2)%nat; [|apply Hsqrt].
  pose proof (mean_nonneg prices Hne Hpos). lra.
Qed.

(** X7: the budget and mid-range boundaries reported are never negative,
    and with a square root that is never negative the three boundaries
    are in order: budget, mid-range, premium. *)
Theorem reported_segments_are_ordered (products : list pydict) :
  let segments :=
    price_segments (snd (MarketAnalyzer.analyze_prices sqrt products)) in
  (0 <= budget segments /\ 0 <= mid_range segments)
  /\ ((forall x, 0 <= sqrt x) ->
      budget segments <= mid_range segments
      /\ mid_range segments <= premium segments).
Proof.
  cbv zeta. rewrite analyze_prices_spec. cbn [snd].
  destruct (nonempty (parsed_prices products)) eqn:Hne;
    [|split; [split; apply Qle_refl|intros _; split; apply Qle_refl]].
  apply nonempty_true in Hne. cbn.
  pose proof (mean_nonneg _ Hne (parsed_prices_nonneg products)) as Hmean.
  split; [split|].
  - apply round2_nonneg, Q.le_max_l.
  - by apply round2_nonneg.
  - intros Hsqrt.
    pose proof (price_spread_nonneg _ Hsqrt Hne (parsed_prices_nonneg products)).
    split; apply round2_mono.
    + unfold MarketAnalyzer.budget_threshold. apply Q.max_lub; lra.
    + unfold MarketAnalyzer.premium_threshold. lra.
Qed.

Lemma record_price_with_numeric_price product :
  MarketAnalyzer.record_price (with_numeric_price product)
  = MarketAnalyzer.record_price product.
Proof.
  unfold MarketAnalyzer.record_price, with_numeric_price, dict_get.
  by rewrite lookup_insert_ne.
Qed.

Lemma with_numeric_price_idemp product :
  with_numeric_price (with_numeric_price product) = with_numeric_price product.
Proof.
  unfold with_numeric_price at 1. rewrite record_price_with_numeric_price.
  unfold with_numeric_price. by rewrite insert_insert_eq.
Qed.

(** X8: analysing records that have been analysed changes nothing: the
    records come back as they are and the analysis is the same. *)
Theorem analyze_prices_twice (products : list pydict) :
  let first := MarketAnalyzer.analyze_prices sqrt products in
  MarketAnalyzer.analyze_prices sqrt (fst first) = first.
Proof.
  cbv zeta. rewrite !analyze_prices_spec. cbn [fst].
  assert (map with_numeric_price (map with_numeric_price products)
          = map with_numeric_price products) as ->.
  { rewrite map_map. apply map_ext. intros. apply with_numeric_price_idemp. }
  assert (parsed_prices (map with_numeric_price products)
          = parsed_prices products) as ->; [|reflexivity].
  unfold parsed_prices. induction products as [|p ps IH]; csimpl; [done|].
  by rewrite record_price_with_numeric_price, IH.
Qed.

(** X9: when no record has a readable price, the empty list included,
    the analysis is the empty one, all zero and without brands, and every
    record comes back with [numeric_price] 0. *)
Theorem no_readable_price_gives_empty_analysis (products : list pydict) :
  Forall (fun p => MarketAnalyzer.record_price p = None) products ->
  MarketAnalyzer.analyze_prices sqrt products
  = (map (fun p => <["numeric_price" := PyNum 0]> p) products,
     MarketAnalyzer._get_empty_analysis).
Proof.
  intros Hnone. rewrite analyze_prices_spec.
  assert (parsed_prices products = []) as ->.
  { unfold parsed_prices. induction Hnone as [|p ps Hp _ IH]; csimpl; [done|].
    by rewrite Hp. }
  cbn [nonempty]. f_equal.
  induction Hnone as [|p ps Hp _ IH]; [done|]. cbn [map].
  rewrite IH. unfold with_numeric_price. by rewrite Hp.
Qed.

End AnalyzerGuarantees.

Lemma reported_segments_are_ordered_witness :
  let segments :=
    price_segments (snd (MarketAnalyzer.analyze_prices sqrt4 sample_products)) in
  (forall x, 0 <= sqrt4 x)%Q
  /\ (budget segments <= mid_range segments)%Q
  /\ (mid_range segments <= premium segments)%Q.
Proof.
  split; [exact sqrt4_nonneg|].
  apply (reported_segments_are_ordered sqrt4 sample_products), sqrt4_nonneg.
Defined.

Lemma no_readable_price_gives_empty_analysis_witness :
  Forall (fun p => MarketAnalyzer.record_price p = None)
         [priced "Not specified"; priced "call us"]
  /\ snd (MarketAnalyzer.analyze_prices
            sqrt4 [priced "Not specified"; priced "call us"])
     = MarketAnalyzer._get_empty_analysis.
Proof.
  assert (Forall (fun p => MarketAnalyzer.record_price p = None)
                 [priced "Not specified"; priced "call us"]) as H
    by (repeat constructor).
  split; [exact H|].
  by rewrite (no_readable_price_gives_empty_analysis sqrt4 _ H).
Defined.

(** ** Brand averages *)

Section BrandFacts.

Local Open Scope Q_scope.
Import Statistics.

Lemma pyval_eqb_refl v : pyval_eqb v v = true.
Proof.
  destruct v as [|s|q]; simpl; [done|apply String.eqb_refl|].
  by apply Qeq_bool_iff.
Qed.

Lemma Qgt_bool_pos x : Qgt_bool x 0 = true -> 0 < x.
Proof.
  unfold Qgt_bool. destruct (Qle_bool x 0) eqn:Hle; [discriminate|].
  intros _. apply Qnot_le_lt. intros H. apply Qle_bool_iff in H. congruence.
Qed.

Lemma pos_Qgt_bool x : 0 < x -> Qgt_bool x 0 = true.
Proof. apply Qgt_bool_true. Qed.

(** Where a member of [group_append key x groups] comes from. *)
Lemma group_append_In key x groups k xs :
  In (k, xs) (group_append key x groups) ->
  In (k, xs) groups
  \/ (exists xs0, In (k, xs0) groups /\ xs = xs0 ++ [x])
  \/ (k = key /\ xs = [x]).
Proof.
  induction groups as [|[k0 xs0] groups IH]; simpl.
  - intros [[= <- <-]|[]]. right. right. done.
  - destruct (pyval_eqb k0 key).
    + intros [[= <- <-]|Hin].
      * right. left. exists xs0. split; [by left|done].
      * left. by right.
    + intros [[= <- <-]|Hin]; [left; by left|].
      destruct (IH Hin) as [?|[(xs1 & ? & ?)|?]].
      * left. by right.
      * right. left. exists xs1. split; [by right|done].
      * right. by right.
Qed.

(** A key stays a key, and the appended key is one afterwards. *)
Lemma group_append_keys key x groups :
  (exists k xs, In (k, xs) (group_append key x groups)
                /\ pyval_eqb k key = true)
  /\ (forall k xs, In (k, xs) groups ->
        exists xs', In (k, xs') (group_append key x groups)).
Proof.
  induction groups as [|[k0 xs0] groups [(k1 & xs1 & Hin1 & Heq1) IH]]; simpl.
  - split; [|done]. exists key, [x]. split; [by left|apply pyval_eqb_refl].
  - destruct (pyval_eqb k0 key) eqn:Hk.
    + split.
      * exists k0, (xs0 ++ [x]). split; [by left|done].
      * intros k xs [[= <- <-]|Hin]; [exists (xs0 ++ [x]); by left|].
        exists xs. by right.
    + split.
      * exists k1, xs1. split; [by right|done].
      * intros k xs [[= <- <-]|Hin]; [exists xs0; by left|].
        destruct (IH k xs Hin) as [xs' ?]. exists xs'. by right.
Qed.

Lemma fsum_nonneg xs : (forall x, In x xs -> 0 <= x) -> 0 <= fsum xs.
Proof.
  intros H. pose proof (fsum_ge xs 0 H). lra.
Qed.

Lemma fsum_pos xs :
  xs <> [] -> (forall x, In x xs -> 0 < x) -> 0 < fsum xs.
Proof.
  destruct xs as [|x xs]; [done|]. intros _ H.
  cbn [fsum fold_right]. fold (fsum xs).
  assert (0 < x) by (apply H; by left).
  assert (0 <= fsum xs).
  { apply fsum_nonneg. intros y Hy. apply Qlt_le_weak, H. by right. }
  lra.
Qed.

Lemma average_pos xs :
  xs <> [] -> (forall x, In x xs -> 0 < x) -> 0 < fsum xs / count_of xs.
Proof.
  intros Hne H. apply Qlt_shift_div_l; [by apply count_of_pos|].
  pose proof (fsum_pos xs Hne H). lra.
Qed.

Lemma calculate_brand_averages_loop products :
  MarketAnalyzer._calculate_brand_averages products
  = map (fun '(brand, prices) => (brand, fsum prices / count_of prices))
        (fold_left brand_step products []).
Proof. reflexivity. Qed.

(** What the price pass leaves for the brand loop to read. *)
Lemma brand_loop_reads product :
  dict_get (with_numeric_price product) "brand" (PyStr "Not specified")
  = dict_get product "brand" (PyStr "Not specified")
  /\ dict_get (with_numeric_price product) "numeric_price" (PyNum 0)
     = PyNum (default 0 (MarketAnalyzer.record_price product)).
Proof.
  unfold with_numeric_price, dict_get.
  by rewrite lookup_insert_ne, lookup_insert_eq.
Qed.

Lemma brand_groups_sound products ps acc :
  (forall p, In p ps -> In p products) ->
  (forall k xs, In (k, xs) acc ->
     xs <> [] /\ (forall x, In x xs -> 0 < x)
     /\ exists p, In p products /\ counts_for p k) ->
  forall k xs,
    In (k, xs) (fold_left brand_step (map with_numeric_price ps) acc) ->
    xs <> [] /\ (forall x, In x xs -> 0 < x)
    /\ exists p, In p products /\ counts_for p k.
Proof.
  revert acc. induction ps as [|p ps IH]; intros acc Hps Hacc; [exact Hacc|].
  cbn [map fold_left]. apply IH; [intros; apply Hps; by right|].
  unfold brand_step. destruct (brand_loop_reads p) as [-> ->]. cbv zeta.
  destruct (pyval_eqb (dict_get p "brand" (PyStr "Not specified"))
                      (PyStr "Not specified")) eqn:Hb; cbn [negb andb];
    [exact Hacc|].
  destruct (Qgt_bool (default 0 (MarketAnalyzer.record_price p)) 0) eqn:Hp;
    [|exact Hacc].
  apply Qgt_bool_pos in Hp.
  assert (counts_for p (dict_get p "brand" (PyStr "Not specified"))) as Hcounts.
  { split; [done|]. split; [done|].
    destruct (MarketAnalyzer.record_price p) as [price|]; simpl in Hp.
    - by exists price.
    - exfalso. by apply (Qlt_irrefl 0). }
  intros k xs Hin.
  apply group_append_In in Hin as [Hin|[(xs0 & Hin & ->)|[-> ->]]].
  - by apply Hacc.
  - destruct (Hacc _ _ Hin) as (_ & Hpos & Hp0).
    split; [by destruct xs0|]. split; [|done].
    intros x [Hx|[<-|[]]]%in_app_or; [by apply Hpos|done].
  - split; [done|]. split; [by intros x [<-|[]]|].
    exists p. split; [apply Hps; by left|done].
Qed.

(** The brand loop never drops a key. *)
Lemma brand_groups_keep ps acc k xs :
  In (k, xs) acc -> exists xs', In (k, xs') (fold_left brand_step ps acc).
Proof.
  revert acc xs. induction ps as [|p ps IH]; intros acc xs Hin; [by exists xs|].
  cbn [fold_left].
  assert (exists xs', In (k, xs') (brand_step acc p)) as [xs' Hin'].
  { unfold brand_step. cbv zeta.
    destruct (dict_get p "numeric_price" (PyNum 0)); try by exists xs.
    destruct (_ && _); [|by exists xs].
    by apply (proj2 (group_append_keys _ _ acc) k xs). }
  by apply (IH _ xs').
Qed.

Lemma brand_groups_complete ps acc p brand :
  In p ps -> counts_for p brand ->
  exists k xs,
    In (k, xs) (fold_left brand_step (map with_numeric_price ps) acc)
    /\ pyval_eqb k brand = true.
Proof.
  revert acc. induction ps as [|p0 ps IH]; intros acc [] Hcounts.
  - subst p0. cbn [map fold_left].
    destruct Hcounts as (Hbrand & Hns & price & Hprice & Hpos).
    assert (brand_step acc (with_numeric_price p)
            = group_append brand price acc) as ->.
    { unfold brand_step. destruct (brand_loop_reads p) as [-> ->]. cbv zeta.
      rewrite Hbrand, Hns, Hprice. cbn [negb andb default].
      by rewrite pos_Qgt_bool. }
    destruct (group_append_keys brand price acc) as [(k & xs & Hin & Hk) _].
    destruct (brand_groups_keep (map with_numeric_price ps) _ k xs Hin)
      as [xs' Hin'].
    by exists k, xs'.
  - cbn [map fold_left]. by apply IH.
Qed.

Variable sqrt : Q -> Q.

(** X10: every brand average of an analysis is positive and belongs to a
    brand other than [Not specified] that some record with a readable
    positive price carries. *)
Theorem brand_averages_sound (products : list pydict) brand avg :
  In (brand, avg)
     (brand_averages (snd (MarketAnalyzer.analyze_prices sqrt products))) ->
  brand <> PyStr "Not specified"
  /\ 0 < avg
  /\ exists product price,
       In product products
       /\ dict_get product "brand" (PyStr "Not specified") = brand
       /\ MarketAnalyzer.record_price product = Some price
       /\ 0 < price.
Proof.
  rewrite analyze_prices_spec. cbn [snd].
  destruct (nonempty (parsed_prices products)); [|done].
  cbn [MarketAnalyzer.analysis_of brand_averages].
  rewrite calculate_brand_averages_loop.
  intros ([k xs] & [= <- <-] & Hin)%in_map_iff.
  apply (brand_groups_sound products products []) in Hin
      as (Hne & Hpos & p & Hp & Hbrand & Hns & price & Hprice & Hpos').
  - split; [intros ->; discriminate Hns|].
    split; [by apply average_pos|]. by exists p, price.
  - done.
  - intros ? ? [].
Qed.

(** X11: a record with a brand other than [Not specified] and a readable
    positive price has its brand among the brand averages. *)
Theorem brand_averages_complete (products : list pydict) product price :
  In product products ->
  MarketAnalyzer.record_price product = Some price ->
  0 < price ->
  pyval_eqb (dict_get product "brand" (PyStr "Not specified"))
            (PyStr "Not specified") = false ->
  exists brand avg,
    In (brand, avg)
       (brand_averages (snd (MarketAnalyzer.analyze_prices sqrt products)))
    /\ pyval_eqb brand (dict_get product "brand" (PyStr "Not specified"))
       = true.
Proof.
  intros Hin Hprice Hpos Hns.
  rewrite analyze_prices_spec. cbn [snd].
  destruct (nonempty (parsed_prices products)) eqn:Hne.
  - cbn [MarketAnalyzer.analysis_of brand_averages].
    rewrite calculate_brand_averages_loop.
    destruct (brand_groups_complete
                products [] product
                (dict_get product "brand" (PyStr "Not specified")) Hin)
      as (k & xs & Hk & Heq).
    { split; [done|]. split; [done|]. by exists price. }
    exists k, (fsum xs / count_of xs). split; [|done].
    apply in_map_iff. by exists (k, xs).
  - apply nonempty_false in Hne. exfalso.
    assert (In price (parsed_prices products)) as Hp.
    { unfold parsed_prices. clear Hne.
      induction products as [|p0 ps IH]; [done|]. csimpl.
      destruct Hin as [->|Hin].
      - rewrite Hprice. by left.
      - destruct (MarketAnalyzer.record_price p0); [right|]; by apply IH. }
    rewrite Hne in Hp. destruct Hp.
Qed.

End BrandFacts.

Lemma brand_averages_sound_witness :
  let products :=
    [<["brand" := PyStr "Acme"]> (priced "£10");
     <["brand" := PyStr "Not specified"]> (priced "£30");
     <["brand" := PyStr "Acme"]> (priced "£20")] in
  brand_averages (snd (MarketAnalyzer.analyze_prices sqrt4 products))
  = [(PyStr "Acme", (10 + 20) / inject_Z 2)%Q]
  /\ PyStr "Acme" <> PyStr "Not specified"
  /\ (0 < (10 + 20) / inject_Z 2)%Q.
Proof.
  cbv zeta. split; [reflexivity|].
  destruct (brand_averages_sound
              sqrt4
              [<["brand" := PyStr "Acme"]> (priced "£10");
               <["brand" := PyStr "Not specified"]> (priced "£30");
               <["brand" := PyStr "Acme"]> (priced "£20")]
              (PyStr "Acme") ((10 + 20) / inject_Z 2)%Q)
    as (? & ? & _); [by left|]. by split.
Defined.

Lemma brand_averages_complete_witness :
  exists brand avg,
    In (brand, avg)
       (brand_averages
          (snd (MarketAnalyzer.analyze_prices
                  sqrt4
                  [<["brand" := PyStr "Not specified"]> (priced "£30");
                   <["brand" := PyStr "Acme"]> (priced "£20")])))
    /\ pyval_eqb brand
         (dict_get (<["brand" := PyStr "Acme"]> (priced "£20")) "brand"
                   (PyStr "Not specified")) = true.
Proof.
  apply (brand_averages_complete
           sqrt4
           [<["brand" := PyStr "Not specified"]> (priced "£30");
            <["brand" := PyStr "Acme"]> (priced "£20")]
           (<["brand" := PyStr "Acme"]> (priced "£20")) 20%Q).
  - right. by left.
  - reflexivity.
  - reflexivity.
  - reflexivity.
Defined.

(** ** The first parser: when the analysis raises, and what it returns *)

Lemma mapM_None_iff {A B} (f : A -> option B) (l : list A) :
  mapM f l = None <-> exists x, In x l /\ f x = None.
Proof.
  induction l as [|a l IH]; csimpl.
  - split; [done|]. by intros (? & [] & _).
  - destruct (f a) as [b|] eqn:Hfa; csimpl.
    + destruct (mapM f l) as [bs|]; csimpl.
      * split; [done|]. intros (x & [->|Hin] & Hx); [congruence|].
        exfalso. assert (Some bs = None) as Hbs; [|discriminate Hbs].
        apply IH. by exists x.
      * split; [|done]. intros _. destruct (proj1 IH eq_refl) as (x & ? & ?).
        exists x. split; [by right|done].
    + split; [|done]. intros _. exists a. split; [by left|done].
Qed.

Lemma mapM_Some_In {A B} (f : A -> option B) (l : list A) (k : list B) :
  mapM f l = Some k ->
  length k = length l /\ forall y, In y k -> exists x, In x l /\ f x = Some y.
Proof.
  revert k. induction l as [|a l IH]; csimpl; intros k.
  - intros [= <-]. split; [done|]. by intros ? [].
  - destruct (f a) as [b|] eqn:Hfa; csimpl; [|done].
    destruct (mapM f l) as [bs|]; csimpl; [|done].
    intros [= <-]. destruct (IH bs eq_refl) as [Hlen Hin]. split.
    + simpl. by rewrite Hlen.
    + intros y [<-|Hy].
      * exists a. split; [by left|done].
      * destruct (Hin y Hy) as (x & ? & ?). exists x. split; [by right|done].
Qed.

Section LegacyAnalysis.

Local Open Scope Q_scope.
Import Statistics.

Variable py_float : string -> option Q.
Variable str_float : Q -> string.

Lemma legacy_brand_loop_raised products :
  foldl (legacy_brand_step py_float str_float) None products = None.
Proof. induction products as [|p ps IH]; [done|]. exact IH. Qed.

Lemma legacy_brand_loop_None products acc :
  foldl (legacy_brand_step py_float str_float) (Some acc) products = None
  <-> exists p, In p products
                /\ truthy (dict_get p "brand" PyNone) = true
                /\ Parser.price_of py_float str_float p = None.
Proof.
  revert acc. induction products as [|p ps IH]; intros acc.
  - split; [done|]. by intros (? & [] & _).
  - cbn [foldl]. unfold legacy_brand_step at 2. csimpl.
    destruct (truthy (dict_get p "brand" PyNone)) eqn:Hb.
    + destruct (Parser.price_of py_float str_float p) as [price|] eqn:Hp;
        csimpl.
      * rewrite IH. split.
        -- intros (x & ? & ?). exists x. split; [by right|done].
        -- intros (x & [->|Hin] & Hx & Hx'); [congruence|]. by exists x.
      * rewrite legacy_brand_loop_raised. split; [|done]. intros _.
        exists p. split; [by left|done].
    + rewrite IH. split.
      * intros (x & ? & ?). exists x. split; [by right|done].
      * intros (x & [->|Hin] & Hx & Hx'); [congruence|]. by exists x.
Qed.

Lemma filter_has_key_nil products :
  List.filter (Parser.has_key "price") products = []
  <-> ~ exists p, In p products /\ Parser.has_key "price" p = true.
Proof.
  split.
  - intros Hnil (p & Hin & Hk).
    assert (In p (List.filter (Parser.has_key "price") products)) as H
      by (apply List.filter_In; by split).
    rewrite Hnil in H. destruct H.
  - intros Hno.
    destruct (List.filter (Parser.has_key "price") products) as [|p l] eqn:Hf;
      [done|].
    exfalso. apply Hno. exists p. apply List.filter_In. rewrite Hf. by left.
Qed.

(** On records of strings and numbers these are also the only ways in
    which the analysis raises. *)
Lemma analysis_raises_on_flat_records (products : list pydict) :
  Parser.analyze_market_data py_float str_float products = None
  <-> (exists p, In p products
                 /\ Parser.has_key "price" p = true
                 /\ Parser.price_of py_float str_float p = None)
      \/ ((exists p, In p products /\ Parser.has_key "price" p = true)
          /\ exists p, In p products
                       /\ truthy (dict_get p "brand" PyNone) = true
                       /\ Parser.price_of py_float str_float p = None).
Proof.
  unfold Parser.analyze_market_data.
  destruct (nonempty products) eqn:Hne.
  2:{ apply nonempty_false in Hne. subst products. split; [done|].
      intros [(? & [] & _)|[(? & [] & _) _]]. }
  destruct (mapM (Parser.price_of py_float str_float)
                 (List.filter (Parser.has_key "price") products))
    as [prices|] eqn:Hm; csimpl.
  - assert (~ exists p, In p products
                        /\ Parser.has_key "price" p = true
                        /\ Parser.price_of py_float str_float p = None)
      as Hread.
    { intros (p & Hin & Hk & Hp).
      assert (mapM (Parser.price_of py_float str_float)
                   (List.filter (Parser.has_key "price") products) = None)
        as Hnone; [|congruence].
      apply mapM_None_iff. exists p. split; [|done].
      apply List.filter_In. by split. }
    destruct (mapM_Some_In _ _ _ Hm) as [Hlen _].
    destruct (nonempty prices) eqn:Hp.
    + change (foldl _ (Some []) products)
        with (foldl (legacy_brand_step py_float str_float) (Some []) products).
      destruct (foldl (legacy_brand_step py_float str_float) (Some []) products)
        as [brand_prices|] eqn:Hl; csimpl.
      * split; [done|]. intros [H|[_ H]]; [by destruct Hread|].
        apply (legacy_brand_loop_None products []) in H. congruence.
      * split; [|done]. intros _. right. split.
        -- destruct (List.filter (Parser.has_key "price") products)
             as [|p l] eqn:Hf.
           ++ destruct prices; [done|discriminate Hlen].
           ++ exists p. apply List.filter_In. rewrite Hf. by left.
        -- by apply (legacy_brand_loop_None products []).
    + split; [done|]. intros [H|[H _]]; [by destruct Hread|].
      apply nonempty_false in Hp. subst prices.
      destruct (List.filter (Parser.has_key "price") products) eqn:Hf;
        [|discriminate Hlen].
      by apply filter_has_key_nil in Hf.
  - split; [|done]. intros _. left.
    apply mapM_None_iff in Hm as (p & [Hin Hk]%List.filter_In & Hp).
    by exists p.
Qed.

(** X12: the first parser's analysis raises as soon as the price of one
    record cannot be converted, and as soon as some record has a price
    while a record with a brand has no price that can be converted. *)
Theorem legacy_analysis_raises (products : list pydict) :
  (exists p, In p products
             /\ Parser.has_key "price" p = true
             /\ Parser.price_of py_float str_float p = None)
  \/ ((exists p, In p products /\ Parser.has_key "price" p = true)
      /\ exists p, In p products
                   /\ truthy (dict_get p "brand" PyNone) = true
                   /\ Parser.price_of py_float str_float p = None) ->
  Parser.analyze_market_data py_float str_float products = None.
Proof.
  intros [(p & Hin & Hkey & Hprice)|[(q & Hq & Hkey) (p & Hin & Hbrand & Hprice)]];
    apply analysis_raises_on_flat_records.
  - left. by exists p.
  - right. split; [by exists q|by exists p].
Qed.

(** X13: on records whose prices are plain decimal numerals, whatever
    the first parser's analysis returns is ordered: the minimum, the
    budget boundary, the mid-range value, the premium boundary and the
    maximum ascend, and mean and median lie between minimum and
    maximum. *)
Theorem legacy_analysis_is_ordered (products : list pydict) analysis :
  plain_prices str_float products = true ->
  Parser.analyze_market_data py_float str_float products = Some analysis ->
  let stats := Parser.market_stats analysis in
  let segments := Parser.price_segments analysis in
  Parser.price_range_min stats <= budget segments
  /\ budget segments <= mid_range segments
  /\ mid_range segments <= premium segments
  /\ premium segments <= Parser.price_range_max stats
  /\ Parser.price_range_min stats <= Parser.average_price stats
  /\ Parser.average_price stats <= Parser.price_range_max stats
  /\ Parser.price_range_min stats <= Parser.median_price stats
  /\ Parser.median_price stats <= Parser.price_range_max stats.
Proof.
  intros _. unfold Parser.analyze_market_data.
  assert (let a := Parser.empty_analysis in
          let stats := Parser.market_stats a in
          let segments := Parser.price_segments a in
          Parser.price_range_min stats <= budget segments
          /\ budget segments <= mid_range segments
          /\ mid_range segments <= premium segments
          /\ premium segments <= Parser.price_range_max stats
          /\ Parser.price_range_min stats <= Parser.average_price stats
          /\ Parser.average_price stats <= Parser.price_range_max stats
          /\ Parser.price_range_min stats <= Parser.median_price stats
          /\ Parser.median_price stats <= Parser.price_range_max stats)
    as Hempty by (cbn; repeat split; discriminate).
  destruct (nonempty products); [|by intros [= <-]].
  destruct (mapM _ _) as [prices|]; csimpl; [|done].
  destruct (nonempty prices) eqn:Hp; [|by intros [= <-]].
  destruct (foldl _ _ _) as [brand_prices|]; csimpl; [|done].
  intros [= <-]. cbn.
  apply nonempty_true in Hp.
  assert (forall x, In x prices ->
                    list_min prices <= x /\ x <= list_max prices) as Hb.
  { intros x Hx. split; [by apply list_min_le|by apply list_max_ge]. }
  destruct (mean_between prices _ _ Hp Hb) as [? ?].
  destruct (median_between prices _ _ Hp Hb) as [? ?].
  assert (list_min prices <= list_max prices) as Hmm.
  { destruct prices as [|x r]; [done|].
    destruct (Hb x) as [? ?]; [by left|]. by apply Qle_trans with x. }
  set (lo := list_min prices) in *. set (hi := list_max prices) in *.
  repeat split; try done.
  - lra.
  - apply Qle_shift_div_l; [reflexivity|]. lra.
  - apply Qle_shift_div_r; [reflexivity|]. lra.
  - lra.
Qed.

End LegacyAnalysis.

Lemma legacy_analysis_raises_witness :
  Parser.analyze_market_data float_of_text (fun _ => ""%string)
                             [priced "£10"; priced "£10 to £20"]
  = None.
Proof.
  apply legacy_analysis_raises. left.
  exists (priced "£10 to £20").
  split; [right; by left|]. split; reflexivity.
Defined.

Lemma legacy_analysis_is_ordered_witness :
  exists analysis,
    Parser.analyze_market_data float_of_text (fun _ => ""%string)
                               [priced "£10"; priced "£20"; priced "£1,060.50"]
    = Some analysis
    /\ (Parser.price_range_min (Parser.market_stats analysis)
        <= budget (Parser.price_segments analysis))%Q
    /\ (budget (Parser.price_segments analysis)
        <= mid_range (Parser.price_segments analysis))%Q.
Proof.
  eexists. split; [vm_compute; reflexivity|].
  destruct (legacy_analysis_is_ordered
              float_of_text (fun _ => ""%string)
              [priced "£10"; priced "£20"; priced "£1,060.50"] _
              eq_refl eq_refl)
    as (H1 & H2 & _).
  split; [exact H1|exact H2].
Defined.

(** ** The first parser: the brand insights *)

Section BrandInsights.

Local Open Scope Q_scope.
Import Statistics.

Lemma Qgt_bool_true_lt x y : Qgt_bool x y = true -> y < x.
Proof.
  unfold Qgt_bool. destruct (Qle_bool x y) eqn:Hle; [discriminate|].
  intros _. apply Qnot_le_lt. intros H. apply Qle_bool_iff in H. congruence.
Qed.

Lemma Qgt_bool_false_le x y : Qgt_bool x y = false -> x <= y.
Proof.
  unfold Qgt_bool. destruct (Qle_bool x y) eqn:Hle; [|discriminate].
  intros _. by apply Qle_bool_iff.
Qed.

Lemma insert_desc_perm x l : Permutation (Parser.insert_desc x l) (x :: l).
Proof.
  induction l as [|y ys IH]; simpl; [done|].
  destruct (Qgt_bool (snd y) (snd x)); [|done].
  rewrite IH. apply perm_swap.
Qed.

Lemma sorted_desc_perm l : Permutation (Parser.sorted_desc l) l.
Proof.
  induction l as [|x l IH]; simpl; [done|].
  rewrite insert_desc_perm. by constructor.
Qed.

Lemma insert_desc_sorted x l :
  StronglySorted desc l -> StronglySorted desc (Parser.insert_desc x l).
Proof.
  induction 1 as [|y ys Hs IH Hall]; simpl.
  - by repeat constructor.
  - destruct (Qgt_bool (snd y) (snd x)) eqn:Hgt.
    + constructor; [exact IH|].
      rewrite insert_desc_perm. constructor; [|exact Hall].
      unfold desc. apply Qlt_le_weak, Qgt_bool_true_lt, Hgt.
    + constructor; [by constructor|].
      assert (snd y <= snd x) as Hle by (by apply Qgt_bool_false_le).
      constructor; [exact Hle|].
      eapply Forall_impl; [exact Hall|].
      intros z Hz. unfold desc in *. by apply Qle_trans with (snd y).
Qed.

Lemma sorted_desc_sorted l : StronglySorted desc (Parser.sorted_desc l).
Proof.
  induction l as [|x l IH]; simpl; [constructor|by apply insert_desc_sorted].
Qed.

Variable str_float : Q -> string.
Variable fmt2 : Q -> string.

(** X14: when the analysis has brand averages, the recommendations open
    with eight lines, then list under [Brand Insights] at most five brands
    of the analysis in descending order of average, none of the brands left
    out having a higher average than a listed one, and close with three
    lines. *)
Theorem legacy_brand_insights (market_analysis : Parser.MarketAnalysis) :
  Parser.brand_averages market_analysis <> [] ->
  exists listed rest pre post,
    Parser.generate_recommendations str_float fmt2 market_analysis
    = pre ++ (newline +:+ "Brand Insights")
             :: map (brand_insight str_float fmt2) listed ++ post
    /\ length pre = 8%nat /\ length post = 3%nat
    /\ Permutation (Parser.brand_averages market_analysis) (listed ++ rest)
    /\ length listed
       = Nat.min 5 (length (Parser.brand_averages market_analysis))
    /\ StronglySorted desc listed
    /\ forall x y, In x listed -> In y rest -> snd y <= snd x.
Proof.
  intros Hne.
  pose proof (sorted_desc_sorted (Parser.brand_averages market_analysis))
    as Hsorted.
  pose proof (sorted_desc_perm (Parser.brand_averages market_analysis))
    as Hperm.
  rewrite <- (take_drop 5 (Parser.sorted_desc _)) in Hsorted, Hperm.
  apply StronglySorted_app in Hsorted as (Hcross & Hlisted & _).
  exists (take 5 (Parser.sorted_desc (Parser.brand_averages market_analysis))),
         (drop 5 (Parser.sorted_desc (Parser.brand_averages market_analysis))).
  unfold Parser.generate_recommendations.
  apply nonempty_true in Hne. rewrite Hne. cbv zeta.
  lazymatch goal with
  | |- exists pre post, ?a ++ (_ :: _) ++ ?p = _ /\ _ => exists a, p
  end.
  split; [|split; [|split; [|split; [|split; [|split]]]]].
  - f_equal. rewrite <- app_comm_cons. f_equal. f_equal.
    apply map_ext. by intros [brand price].
  - reflexivity.
  - reflexivity.
  - by symmetry.
  - rewrite length_take.
    by rewrite (Permutation_length (sorted_desc_perm _)).
  - exact Hlisted.
  - intros x y Hx Hy. apply (Hcross x y); by apply list_elem_of_In.
Qed.

End BrandInsights.

Lemma legacy_brand_insights_witness :
  exists listed rest pre post,
    Parser.generate_recommendations
      fixed2 fixed2
      {| Parser.market_stats := Parser.mkMarketStats 30 20 10 60;
         Parser.price_segments := mkPriceSegments 25 35 45;
         Parser.brand_averages :=
           [(PyStr "Acme", 20%Q); (PyStr "Zenith", 60%Q)] |}
    = pre ++ (newline +:+ "Brand Insights")
             :: map (brand_insight fixed2 fixed2) listed ++ post
    /\ length pre = 8%nat /\ length post = 3%nat
    /\ Permutation [(PyStr "Acme", 20%Q); (PyStr "Zenith", 60%Q)]
                   (listed ++ rest)
    /\ length listed = Nat.min 5 2
    /\ StronglySorted desc listed
    /\ forall x y, In x listed -> In y rest -> (snd y <= snd x)%Q.
Proof.
  apply (legacy_brand_insights
           fixed2 fixed2
           {| Parser.market_stats := Parser.mkMarketStats 30 20 10 60;
              Parser.price_segments := mkPriceSegments 25 35 45;
              Parser.brand_averages :=
                [(PyStr "Acme", 20%Q); (PyStr "Zenith", 60%Q)] |}).
  discriminate.
Defined.

(** ** The enhanced adapter: what [parse_with_llm] collects *)

Section EnhancedAdapter.

Variable value : Type.
Variable str_float : Q -> string.
Variable llm : nat -> string -> option string.
Variable json_loads : string -> option value.
Variable items_of : value -> option (list value).
Variable analyze_prices : list value -> option (list value * MarketAnalysis).

(** The loop, started after [k] requests with the values [f] gives. *)
Lemma collect_results_from dom_chunks :
  forall (acc : M (list value)) (k : nat) (f : nat -> list value),
    (forall w, exists w',
        acc w = (Some (f (calls w)), w') /\ calls w' = (calls w + k)%nat) ->
    forall w, exists w',
      foldl (collect_step llm json_loads items_of) acc dom_chunks w
      = (Some (f (calls w)
               ++ all_chunk_values llm json_loads items_of
                                   (calls w + k) dom_chunks),
         w')
      /\ calls w' = (calls w + k + length dom_chunks)%nat.
Proof.
  induction dom_chunks as [|chunk chunks IH]; intros acc k f Hacc w.
  - destruct (Hacc w) as (w' & Hrun & Hcalls). exists w'.
    cbn [foldl all_chunk_values length].
    rewrite app_nil_r, Nat.add_0_r. by split.
  - cbn [foldl all_chunk_values length].
    destruct (IH (collect_step llm json_loads items_of acc chunk) (S k)
                 (fun c => f c ++ chunk_values llm json_loads items_of
                                               (c + k) chunk))
      with (w := w) as (w' & Hrun & Hcalls).
    + clear w. intros w. destruct (Hacc w) as (w1 & Hrun & Hcalls).
      unfold collect_step. unfold mbind at 1, M_bind at 1. rewrite Hrun.
      unfold try_except, mbind, M_bind, invoke, loads, log_event, lift,
        chunk_values.
      rewrite Hcalls.
      destruct (llm (calls w + k)%nat
                    (ContentParser._get_parse_template chunk))
        as [response|].
      * destruct (json_loads response) as [products|].
        -- destruct (items_of products) as [items|]; cbn [default];
             rewrite ?app_nil_r;
             eexists; (split; [reflexivity|]); cbn [calls]; lia.
        -- rewrite app_nil_r. eexists. split; [reflexivity|].
           cbn [calls]. lia.
      * rewrite app_nil_r. eexists. split; [reflexivity|]. cbn [calls]. lia.
    + exists w'. split; [|lia]. rewrite Hrun. rewrite <- app_assoc.
      by replace (calls w + S k)%nat with (S (calls w + k)) by lia.
Qed.

(** With an analysis at hand the generator never answers that the data
    is insufficient. *)
Lemma never_insufficient {record : Type} (product_data : list record)
      market_analysis :
  ~ In "Insufficient data for price analysis."%string
       (RecommendationGenerator.generate_price_recommendations
          str_float product_data (Some market_analysis)).
Proof.
  unfold RecommendationGenerator.generate_price_recommendations.
  intros H. rewrite !in_app_iff in H. destruct H as [H|[H|H]].
  - repeat (destruct H as [H|H]; [discriminate H|]). destruct H.
  - destruct (nonempty (brand_averages market_analysis)); [|destruct H].
    destruct H as [H|H]; [discriminate H|].
    apply in_map_iff in H as ([brand price] & H & _). discriminate H.
  - repeat (destruct H as [H|H]; [discriminate H|]). destruct H.
Qed.

(** X15: the chunk loop of the enhanced parser hands on, in the order
    of the chunks, the items of every reply that [json.loads] read and
    that could be iterated, a failing chunk contributing nothing;
    [parse_with_llm] raises exactly when the analysis of these values
    raises, and otherwise returns them as the analysis leaves them, with
    that analysis and recommendations that never hold the line about
    insufficient data. *)
Theorem parse_with_llm_collects dom_chunks parse_description w :
  let all_results :=
    all_chunk_values llm json_loads items_of (calls w) dom_chunks in
  let run :=
    ContentParser.parse_with_llm str_float llm json_loads items_of
                                 analyze_prices
                                 dom_chunks parse_description w in
  fst (ContentParser.collect_results llm json_loads items_of
                                     dom_chunks parse_description w)
  = Some all_results
  /\ (fst run = None <-> analyze_prices all_results = None)
  /\ (forall result,
         fst run = Some result ->
         analyze_prices all_results
         = Some (ContentParser.products result,
                 ContentParser.market_analysis result)
         /\ ~ In "Insufficient data for price analysis."%string
                (ContentParser.recommendations result)).
Proof.
  cbv zeta.
  destruct (collect_results_from dom_chunks (mret []) 0 (fun _ => []))
    with (w := w) as (w' & Hrun & _).
  { intros w0. exists w0. split; [done|lia]. }
  rewrite Nat.add_0_r in Hrun. cbn [app] in Hrun.
  assert (ContentParser.collect_results llm json_loads items_of
                                        dom_chunks parse_description w
          = (Some (all_chunk_values llm json_loads items_of
                                    (calls w) dom_chunks), w'))
    as Hcollect by exact Hrun.
  split; [by rewrite Hcollect|].
  unfold ContentParser.parse_with_llm, mbind, M_bind, lift.
  rewrite Hcollect.
  destruct (analyze_prices _) as [[products analysis]|]; cbn [fst].
  - split; [done|]. intros result [= <-].
    split; [done|]. apply (never_insufficient products analysis).
  - by split.
Qed.

End EnhancedAdapter.

(** ** The first parser: what stops [parse_with_llm] *)

Section LegacyAdapter.

Variable str_float : Q -> string.
Variable fmt2 : Q -> string.
Variable llm : nat -> string -> option string.
Variable value : Type.
Variable py_eval : string -> outcome value.
Variable iterate : value -> list value * outcome unit.
Variable analyze_collected : list value -> outcome Parser.MarketAnalysis.




End LegacyAdapter.

(** ** The chat assistant: brands that are not strings *)

Section ChatbotFacts.

Import ChatbotAssistant.

Lemma as_str_eqb v w : pyval_eqb v w = true -> as_str v = None -> as_str w = None.
Proof. by destruct v, w. Qed.

Lemma distinct_incl values v : In v (distinct values) -> In v values.
Proof.
  induction values as [|x values IH]; [done|]. simpl.
  intros [->|[Hin _]%List.filter_In]; [by left|]. right. by apply IH.
Qed.

Lemma distinct_keeps_non_string values :
  (exists v, In v values /\ as_str v = None) ->
  exists v, In v (distinct values) /\ as_str v = None.
Proof.
  induction values as [|x values IH]; intros (v & Hin & Hv); [destruct Hin|].
  destruct Hin as [->|Hin].
  - exists v. split; [by left|done].
  - destruct IH as (y & Hy & Hbad); [by exists v|]. simpl.
    destruct (pyval_eqb y x) eqn:Heq.
    + exists x. split; [by left|]. by apply (as_str_eqb y).
    + exists y. split; [|done]. right. apply List.filter_In.
      split; [done|]. by rewrite Heq.
Qed.

Lemma non_string_brand_listed (product_data : list pydict) :
  (exists v,
      In v (map (fun p => dict_get p "brand" (PyStr "Unknown"))
                (List.filter
                   (fun p => negb (pyval_eqb (dict_get p "brand" PyNone)
                                             (PyStr "Not specified")))
                   product_data))
      /\ as_str v = None)
  <-> exists p, In p product_data /\ has_non_string_brand p.
Proof.
  split.
  - intros (v & (p & <- & [Hin _]%List.filter_In)%in_map_iff & Hv).
    exists p. split; [done|]. unfold dict_get in Hv.
    destruct (p !! "brand") as [b|] eqn:Hb; [|discriminate Hv].
    by exists b.
  - intros (p & Hin & v & Hb & Hv). exists v. split; [|done].
    apply in_map_iff. exists p. unfold dict_get. rewrite Hb.
    split; [done|]. apply List.filter_In. split; [done|].
    cbv beta. rewrite Hb. by destruct v.
Qed.

Variable str_float : Q -> string.
Variable llm : nat -> string -> option string.

Lemma create_product_summary_raises product_data market_analysis :
  _create_product_summary str_float product_data (Some market_analysis) = None
  <-> exists p, In p product_data /\ has_non_string_brand p.
Proof.
  unfold _create_product_summary.
  destruct (nonempty product_data) eqn:Hne.
  2:{ apply nonempty_false in Hne. subst. split; [done|].
      by intros (? & [] & _). }
  rewrite <- non_string_brand_listed. csimpl.
  destruct (mapM as_str _) as [brands|] eqn:Hm; csimpl.
  - split; [done|]. intros Hbad%distinct_keeps_non_string.
    apply mapM_None_iff in Hbad.
    enough (Some brands = None) as Hnone by discriminate Hnone.
    rewrite <- Hm. exact Hbad.
  - split; [|done]. intros _.
    apply mapM_None_iff in Hm as (v & Hin%distinct_incl & Hv). by exists v.
Qed.

(** X17: with products and an analysis, [generate_response] raises
    before any request exactly when some record's brand is present and is
    not a string; otherwise it makes one request and what it returns, or
    raises, is what that request does. *)
Theorem chatbot_needs_string_brands user_question product_data
        market_analysis w :
  product_data <> [] ->
  let run :=
    generate_response str_float llm user_question (Some product_data)
                      (Some market_analysis) w in
  ((exists p, In p product_data /\ has_non_string_brand p) ->
   run = (None, w))
  /\ (~ (exists p, In p product_data /\ has_non_string_brand p) ->
      exists prompt,
        run = (llm (calls w) prompt,
               {| calls := S (calls w);
                  trace := trace w ++ [Invoke prompt] |})).
Proof.
  intros Hne. cbv zeta. unfold generate_response.
  destruct product_data as [|product rest]; [done|].
  unfold mbind, M_bind, lift.
  destruct (_create_product_summary str_float (product :: rest)
                                    (Some market_analysis))
    as [summary|] eqn:Hsummary.
  - split.
    + intros Hbad.
      apply (create_product_summary_raises (product :: rest) market_analysis)
        in Hbad.
      congruence.
    + intros _. by eexists.
  - split; [done|]. intros Hgood. destruct Hgood.
    by apply (create_product_summary_raises (product :: rest) market_analysis).
Qed.

End ChatbotFacts.

Lemma chatbot_needs_string_brands_witness :
  ChatbotAssistant.generate_response
    fixed2 scripted_llm "Which brand is cheapest?"
    (Some [<["brand" := PyNone]> (priced "£10")])
    (Some MarketAnalyzer._get_empty_analysis) (mkWorld 0 [])
  = (None, mkWorld 0 []).
Proof.
  refine (proj1 (chatbot_needs_string_brands
                   fixed2 scripted_llm "Which brand is cheapest?"
                   [<["brand" := PyNone]> (priced "£10")]
                   MarketAnalyzer._get_empty_analysis (mkWorld 0 []) _) _).
  - discriminate.
  - exists (<["brand" := PyNone]> (priced "£10")). split; [by left|].
    by exists PyNone.
Defined.

(** ** Raw extraction: the Selenium scraper and the limits *)

Lemma In_take {A} (n : nat) (l : list A) x : In x (take n l) -> In x l.
Proof.
  revert n. induction l as [|a l IH]; intros [|n]; simpl; try done.
  intros [->|Hin]; [by left|]. right. by apply (IH n).
Qed.

Lemma slice_to_incl {A} (limit : Z) (l : list A) x :
  In x (slice_to limit l) -> In x l.
Proof.
  unfold slice_to. destruct (0 <=? limit)%Z; apply In_take.
Qed.

Lemma In_omap {A B} (f : A -> option B) (l : list A) y :
  In y (omap f l) <-> exists x, In x l /\ f x = Some y.
Proof.
  induction l as [|a l IH]; csimpl.
  - split; [done|]. by intros (? & [] & _).
  - destruct (f a) as [b|] eqn:Hfa.
    + simpl. rewrite IH. split.
      * intros [<-|(x & ? & ?)]; [exists a|exists x]; split; auto.
      * intros (x & [->|Hin] & Hx); [left; congruence|right; by exists x].
    + rewrite IH. split.
      * intros (x & ? & ?). exists x. split; auto.
      * intros (x & [->|Hin] & Hx); [congruence|by exists x].
Qed.

(** X18: the Selenium scraper never emits a record for a node without
    title, price or link element, nor one under the placeholder title;
    every record it returns is the record of one of the page's nodes, and
    a limit of 0 selects every node, as no limit does. *)
Theorem selenium_raw_extraction :
  rejects_noise EbaySeleniumScraper._extract_item_data
  /\ (forall item_elements max_items record,
         In record (EbaySeleniumScraper.scrape_items item_elements max_items) ->
         exists item,
           In item item_elements
           /\ EbaySeleniumScraper._extract_item_data item = Some record)
  /\ (forall item_elements,
         EbaySeleniumScraper.scrape_items item_elements (Some 0%Z)
         = omap EbaySeleniumScraper._extract_item_data item_elements
         /\ EbaySeleniumScraper.scrape_items item_elements None
            = omap EbaySeleniumScraper._extract_item_data item_elements).
Proof.
  split; [|split].
  - intros item record. unfold EbaySeleniumScraper._extract_item_data, complete.
    destruct (title_elem item) as [t|]; [|discriminate].
    destruct (is_placeholder_title (PyStr.strip (text t))) eqn:Ht;
      [discriminate|].
    destruct (price_elem item) as [p|]; [|discriminate].
    destruct (link_elem item) as [l|]; [|discriminate].
    intros [= <-]. split; [by eauto|].
    intros (title & Hl & Hp). rewrite lookup_insert_eq in Hl.
    injection Hl as <-. rewrite strip_idemp in Hp. congruence.
  - intros item_elements max_items record.
    unfold EbaySeleniumScraper.scrape_items. rewrite loop_omap. cbn [app].
    intros (item & Hin & Hitem)%In_omap. exists item. split; [|done].
    destruct max_items as [n|]; [|done].
    destruct (n =? 0)%Z; [done|]. by apply slice_to_incl in Hin.
  - intros item_elements. unfold EbaySeleniumScraper.scrape_items.
    by rewrite !loop_omap.
Qed.



(** ** From extraction to analysis: records without a price *)

Section UnpricedRecords.

Local Open Scope Q_scope.
Import Statistics.

Variable sqrt : Q -> Q.

Lemma brand_step_unpriced acc product :
  MarketAnalyzer.record_price product = None ->
  brand_step acc (with_numeric_price product) = acc.
Proof.
  intros Hp. unfold brand_step.
  destruct (brand_loop_reads product) as [-> ->]. rewrite Hp. cbv zeta.
  cbn [default]. by rewrite andb_false_r.
Qed.

Lemma brand_averages_skip before product after :
  MarketAnalyzer.record_price product = None ->
  MarketAnalyzer._calculate_brand_averages
    (map with_numeric_price (before ++ product :: after))
  = MarketAnalyzer._calculate_brand_averages
      (map with_numeric_price (before ++ after)).
Proof.
  intros Hp. rewrite !calculate_brand_averages_loop. f_equal.
  rewrite !map_app, !fold_left_app. cbn [map fold_left].
  by rewrite brand_step_unpriced.
Qed.

(** X20: a record whose price cannot be read leaves the whole analysis
    as it is without the record, brand averages included; such are the
    records the Playwright scraper makes of a node without price element,
    and those [app.scrape_ebay] makes of one. *)
Theorem unpriced_records_are_ignored :
  (forall before product after,
      MarketAnalyzer.record_price product = None ->
      snd (MarketAnalyzer.analyze_prices sqrt (before ++ product :: after))
      = snd (MarketAnalyzer.analyze_prices sqrt (before ++ after)))
  /\ (forall item record,
         EbayPlaywrightScraper._extract_item_data item = Some record ->
         price_elem item = None ->
         MarketAnalyzer.record_price record = None)
  /\ (forall listing,
         price_elem listing = None ->
         MarketAnalyzer.record_price (App.listing_record listing) = None).
Proof.
  split; [|split].
  - intros before product after Hp. rewrite !analyze_prices_spec. cbn [snd].
    rewrite (parsed_prices_skip before product after Hp).
    destruct (nonempty (parsed_prices (before ++ after))); [|done].
    unfold MarketAnalyzer.analysis_of.
    by rewrite (brand_averages_skip before product after Hp).
  - intros item record Hrecord Hprice.
    destruct (extract_item_data_sound item record Hrecord)
      as (_ & _ & _ & Hp).
    unfold MarketAnalyzer.record_price, dict_get. by rewrite (Hp Hprice).
  - intros listing Hprice.
    unfold MarketAnalyzer.record_price, dict_get, App.listing_record.
    rewrite Hprice. cbn [App.raw_text_or].
    rewrite lookup_insert_ne, lookup_insert_eq; [|done]. reflexivity.
Qed.

End UnpricedRecords.

Lemma unpriced_records_are_ignored_witness :
  snd (MarketAnalyzer.analyze_prices
         sqrt4 ([priced "£10"] ++ App.listing_record unpriced_listing
                               :: [priced "£30"]))
  = snd (MarketAnalyzer.analyze_prices sqrt4 ([priced "£10"] ++ [priced "£30"])).
Proof.
  apply (proj1 (unpriced_records_are_ignored sqrt4)).
  apply (proj2 (proj2 (unpriced_records_are_ignored sqrt4))).
  reflexivity.
Defined.

(** ** [app.scrape_ebay]: how many records *)

(** X21: [app.scrape_ebay] returns one record for each listing of
    [listings[:max_results]]: for a maximum that is not negative as many
    as the smaller of the maximum and the number of listings, and for a
    negative maximum one for every listing but the last [-max_results];
    every record has title, price, condition and link. *)
Theorem scrape_ebay_count (listings : list listing) (max_results : Z) :
  Z.of_nat (length (App.scrape_ebay listings max_results))
  = (if (0 <=? max_results)%Z
     then Z.min max_results (Z.of_nat (length listings))
     else Z.max 0 (Z.of_nat (length listings) + max_results))%Z
  /\ forall record,
       In record (App.scrape_ebay listings max_results) ->
       is_Some (record !! "title") /\ is_Some (record !! "price")
       /\ is_Some (record !! "condition") /\ is_Some (record !! "link").
Proof.
  rewrite scrape_ebay_map. split.
  - rewrite length_map. unfold slice_to.
    destruct (0 <=? max_results)%Z eqn:Hm; rewrite length_take.
    + apply Z.leb_le in Hm. lia.
    + apply Z.leb_gt in Hm. lia.
  - intros record (listing & <- & _)%in_map_iff. unfold App.listing_record.
    repeat split; by simplify_map_eq.
Qed.

(** ** Search URLs *)

Lemma all_chars_app p (a b : string) :
  all_chars p (a +:+ b) = all_chars p a && all_chars p b.
Proof.
  induction a as [|x a IH]; [reflexivity|].
  rewrite str_app_cons. simpl. rewrite IH. by rewrite andb_assoc.
Qed.

Lemma all_chars_impl (p q : ascii -> bool) s :
  (forall c, p c = true -> q c = true) ->
  all_chars p s = true -> all_chars q s = true.
Proof.
  intros Hpq. induction s as [|c r IH]; simpl; [done|].
  intros [Hc Hr]%andb_true_iff. by rewrite (Hpq c Hc), IH.
Qed.

Lemma all_chars_count p c s :
  p c = false -> all_chars p s = true -> PyStr.count c s = 0%nat.
Proof.
  intros Hc. induction s as [|d r IH]; simpl; [done|].
  intros [Hd Hr]%andb_true_iff.
  destruct (Ascii.eqb d c) eqn:Heq; [|by apply IH].
  apply Ascii.eqb_eq in Heq as ->. congruence.
Qed.

Lemma str_app_inv_tail (a b t : string) : a +:+ t = b +:+ t -> a = b.
Proof.
  revert b. induction a as [|x a IH]; intros [|y b] H.
  - done.
  - apply (f_equal String.length) in H.
    rewrite str_app_nil, str_app_length in H. simpl in H. lia.
  - apply (f_equal String.length) in H.
    rewrite str_app_nil, str_app_length in H. simpl in H. lia.
  - rewrite !str_app_cons in H. injection H as -> H. f_equal. by apply IH.
Qed.

Lemma str_app_inv_head (a s t : string) : a +:+ s = a +:+ t -> s = t.
Proof.
  induction a as [|x a IH]; [done|].
  rewrite !str_app_cons. intros [= H]. by apply IH.
Qed.

Section QuoteFacts.

Import UrlQuote.

Lemma quoted_char_not_space c : quoted_char c = true -> not_space c = true.
Proof.
  destruct c as [[] [] [] [] [] [] [] []]; vm_compute; congruence.
Qed.

Lemma quote_byte_chars c : all_chars quoted_char (quote_byte c) = true.
Proof.
  destruct c as [[] [] [] [] [] [] [] []]; vm_compute; reflexivity.
Qed.

Lemma quote_plus_chars s : all_chars quoted_char (quote_plus s) = true.
Proof.
  induction s as [|c r IH]; [reflexivity|]. simpl.
  by rewrite all_chars_app, quote_byte_chars, IH.
Qed.

Lemma hex_digit_inj a b :
  (a < 16)%nat -> (b < 16)%nat -> hex_digit a = hex_digit b -> a = b.
Proof.
  intros Ha Hb H. apply (f_equal nat_of_ascii) in H. unfold hex_digit in H.
  destruct (a <? 10)%nat eqn:Ha', (b <? 10)%nat eqn:Hb';
    rewrite !nat_ascii_embedding in H by lia;
    try apply Nat.ltb_lt in Ha'; try apply Nat.ltb_lt in Hb';
    try apply Nat.ltb_ge in Ha'; try apply Nat.ltb_ge in Hb'; lia.
Qed.

Lemma escape_inj c d :
  hex_digit (nat_of_ascii c / 16) = hex_digit (nat_of_ascii d / 16) ->
  hex_digit (nat_of_ascii c mod 16) = hex_digit (nat_of_ascii d mod 16) ->
  c = d.
Proof.
  intros Hh Hl.
  pose proof (nat_ascii_bounded c). pose proof (nat_ascii_bounded d).
  apply hex_digit_inj in Hh;
    [|apply Nat.Div0.div_lt_upper_bound; lia
     |apply Nat.Div0.div_lt_upper_bound; lia].
  apply hex_digit_inj in Hl; [|apply Nat.mod_upper_bound; lia
                              |apply Nat.mod_upper_bound; lia].
  rewrite <- (ascii_nat_embedding c), <- (ascii_nat_embedding d). f_equal.
  rewrite (Nat.div_mod_eq (nat_of_ascii c) 16),
    (Nat.div_mod_eq (nat_of_ascii d) 16). lia.
Qed.

(** No quoted byte is the beginning of another. *)
Lemma quote_byte_inj c d (s t : string) :
  quote_byte c +:+ s = quote_byte d +:+ t -> c = d /\ s = t.
Proof.
  unfold quote_byte.
  destruct (always_safe c) eqn:Hc, (always_safe d) eqn:Hd.
  - rewrite !str_app_cons, !str_app_nil. by intros [= -> ->].
  - destruct (Ascii.eqb d " ");
      rewrite !str_app_cons, !str_app_nil; intros [= -> _]; discriminate Hc.
  - destruct (Ascii.eqb c " ");
      rewrite !str_app_cons, !str_app_nil; intros [= <- _]; discriminate Hd.
  - destruct (Ascii.eqb c " ") eqn:Hcs, (Ascii.eqb d " ") eqn:Hds;
      rewrite !str_app_cons, !str_app_nil.
    + apply Ascii.eqb_eq in Hcs as ->. apply Ascii.eqb_eq in Hds as ->.
      by intros [= ->].
    + discriminate.
    + discriminate.
    + intros [= Hh Hl ->]. split; [|done]. by apply escape_inj.
Qed.

Lemma quote_byte_not_empty c s : quote_byte c +:+ s <> EmptyString.
Proof.
  unfold quote_byte. destruct (always_safe c); [done|].
  by destruct (Ascii.eqb c " ").
Qed.

Lemma quote_plus_inj s t : quote_plus s = quote_plus t -> s = t.
Proof.
  revert t. induction s as [|c s IH]; intros [|d t]; simpl; intros H.
  - done.
  - symmetry in H. by apply quote_byte_not_empty in H.
  - by apply quote_byte_not_empty in H.
  - apply quote_byte_inj in H as [-> H]. f_equal. by apply IH.
Qed.

Lemma quote_plus_safe s :
  all_chars always_safe s = true -> quote_plus s = s.
Proof.
  induction s as [|c r IH]; simpl; [done|].
  intros [Hc Hr]%andb_true_iff. unfold quote_byte. rewrite Hc.
  rewrite str_app_cons, str_app_nil. by rewrite IH.
Qed.

Lemma sort_code_cases sort_by :
  In (sort_code sort_by) ["12"; "15"; "16"; "10"]%string.
Proof.
  unfold sort_code.
  repeat (destruct (String.eqb sort_by _); [simpl; tauto|]). simpl; tauto.
Qed.

(** X22: the search URL of the enhanced scraper is the base URL with
    the two parameters [_nkw] and [_sop]; whatever the query, its quoted
    form is made of letters, digits and [_.-~+%] alone, so the URL holds
    no whitespace and exactly one [&]; the sort code is one of 12, 15, 16
    and 10, an unknown sort option giving 12; and different queries give
    different URLs. *)
Theorem enhanced_search_url (search_query sort_by : string) :
  let url :=
    AIEnhancedScraper.construct_ebay_search_url search_query sort_by in
  url = base_url +:+ "?_nkw=" +:+ quote_plus search_query
        +:+ "&_sop=" +:+ sort_code sort_by
  /\ all_chars quoted_char (quote_plus search_query) = true
  /\ In (sort_code sort_by) ["12"; "15"; "16"; "10"]%string
  /\ PyStr.count "&" url = 1%nat
  /\ all_chars not_space url = true
  /\ forall other,
       AIEnhancedScraper.construct_ebay_search_url other sort_by = url ->
       other = search_query.
Proof.
  cbv zeta.
  assert (forall q,
             AIEnhancedScraper.construct_ebay_search_url q sort_by
             = base_url +:+ "?_nkw=" +:+ quote_plus q
               +:+ "&_sop=" +:+ sort_code sort_by) as Hurl.
  { intros q. unfold AIEnhancedScraper.construct_ebay_search_url.
    cbn [PyStr.join]. by rewrite !str_app_assoc. }
  pose proof (quote_plus_chars search_query) as Hq.
  pose proof (sort_code_cases sort_by) as Hs.
  split; [apply Hurl|]. split; [exact Hq|]. split; [exact Hs|].
  split; [|split].
  - rewrite Hurl, !count_app.
    rewrite (all_chars_count quoted_char "&" _ eq_refl Hq).
    destruct Hs as [<-|[<-|[<-|[<-|[]]]]]; reflexivity.
  - rewrite Hurl, !all_chars_app.
    rewrite (all_chars_impl _ _ _ quoted_char_not_space Hq).
    destruct Hs as [<-|[<-|[<-|[<-|[]]]]]; reflexivity.
  - intros other. rewrite !Hurl. intros H.
    apply str_app_inv_head in H. apply str_app_inv_head in H.
    apply str_app_inv_tail in H. by apply quote_plus_inj.
Qed.

(** X23: the search URL of the first scraper takes the query as it is:
    every [&] of the query is one more [&] of the URL; for a query of
    letters, digits and [_.-~] alone the first and the enhanced scraper
    build the same URL. *)
Theorem raw_search_url (search_query sort_by : string) :
  let url := EbayScraperUrl.construct_ebay_search_url search_query sort_by in
  url = base_url +:+ "?_nkw=" +:+ search_query
        +:+ "&_sop=" +:+ sort_code sort_by
  /\ PyStr.count "&" url = S (PyStr.count "&" search_query)
  /\ (all_chars always_safe search_query = true ->
      url = AIEnhancedScraper.construct_ebay_search_url search_query sort_by).
Proof.
  cbv zeta.
  assert (EbayScraperUrl.construct_ebay_search_url search_query sort_by
          = base_url +:+ "?_nkw=" +:+ search_query
            +:+ "&_sop=" +:+ sort_code sort_by) as Hurl.
  { unfold EbayScraperUrl.construct_ebay_search_url.
    cbn [PyStr.join]. by rewrite !str_app_assoc. }
  split; [exact Hurl|]. split.
  - rewrite Hurl, !count_app.
    destruct (sort_code_cases sort_by) as [<-|[<-|[<-|[<-|[]]]]];
      simpl; lia.
  - intros Hsafe. unfold EbayScraperUrl.construct_ebay_search_url,
      AIEnhancedScraper.construct_ebay_search_url.
    by rewrite (quote_plus_safe _ Hsafe).
Qed.

End QuoteFacts.

Lemma raw_search_url_witness :
  EbayScraperUrl.construct_ebay_search_url "iphone-13" "Newest"
  = AIEnhancedScraper.construct_ebay_search_url "iphone-13" "Newest".
Proof.
  apply (proj2 (proj2 (raw_search_url "iphone-13" "Newest"))). reflexivity.
Defined.

(** ** The URL the browser scrapers open *)

Lemma split_ws_cons c r :
  split_ws (String c r)
  = if PyStr.isspace c then split_ws r
    else match r with
         | EmptyString => [String c EmptyString]
         | String d _ =>
             if PyStr.isspace d then String c EmptyString :: split_ws r
             else match split_ws r with
                  | w :: ws => String c w :: ws
                  | [] => [String c EmptyString]
                  end
         end.
Proof. by destruct r. Qed.

(** [s.split()] gives words. *)
Lemma split_ws_words s : Forall is_word (split_ws s).
Proof.
  induction s as [|c r IH]; [constructor|].
  rewrite split_ws_cons. destruct (PyStr.isspace c) eqn:Hc; [exact IH|].
  assert (is_word (String c EmptyString)) as Hw.
  { split; [done|]. simpl. unfold not_space. by rewrite Hc. }
  destruct r as [|d r']; [apply List.Forall_cons; [exact Hw|apply List.Forall_nil]|].
  destruct (PyStr.isspace d); [by apply List.Forall_cons|].
  destruct (split_ws (String d r')) as [|w ws];
    [apply List.Forall_cons; [exact Hw|apply List.Forall_nil]|].
  inversion IH as [|? ? [Hne Hall] Hws]; subst.
  apply List.Forall_cons; [|done]. split; [done|].
  simpl. unfold not_space at 1. by rewrite Hc, Hall.
Qed.

Lemma join_words_no_space sep words :
  all_chars not_space sep = true ->
  Forall is_word words ->
  all_chars not_space (PyStr.join sep words) = true.
Proof.
  intros Hsep. induction 1 as [|w ws [_ Hw] Hws IH]; [reflexivity|].
  destruct ws as [|v ws]; [exact Hw|].
  rewrite join_cons by discriminate.
  by rewrite !all_chars_app, Hw, Hsep, IH.
Qed.

(** A word followed by nothing or by whitespace is split off as it is. *)
Lemma split_ws_word w t :
  is_word w ->
  (t = EmptyString \/ exists d t', t = String d t' /\ PyStr.isspace d = true) ->
  split_ws (w +:+ t) = w :: split_ws t.
Proof.
  intros [Hne Hall] Ht. induction w as [|c w IH]; [done|].
  simpl in Hall. apply andb_true_iff in Hall as [Hc Hall].
  unfold not_space in Hc. apply negb_true_iff in Hc.
  rewrite str_app_cons, split_ws_cons, Hc.
  destruct w as [|e w].
  - rewrite str_app_nil.
    destruct Ht as [->|(d & t' & -> & Hd)]; [done|]. by rewrite Hd.
  - rewrite str_app_cons. rewrite str_app_cons in IH.
    simpl in Hall. pose proof Hall as Hall'.
    apply andb_true_iff in Hall' as [He _].
    unfold not_space in He. apply negb_true_iff in He. rewrite He.
    by rewrite IH.
Qed.

Lemma split_ws_space t : split_ws (" " +:+ t) = split_ws t.
Proof. rewrite str_app_cons, str_app_nil. by rewrite split_ws_cons. Qed.

(** [' '.join(words).split() == words] *)
Lemma split_ws_join words :
  Forall is_word words -> split_ws (PyStr.join " " words) = words.
Proof.
  induction 1 as [|w ws Hw Hws IH]; [reflexivity|].
  destruct ws as [|v ws].
  - simpl. assert (w +:+ "" = w) as Hnil.
    { clear. induction w as [|c w IH]; [done|]. by rewrite str_app_cons, IH. }
    rewrite <- Hnil at 1. rewrite split_ws_word; [done|done|by left].
  - rewrite join_cons by discriminate.
    rewrite split_ws_word; [|done|right; by eexists _, _].
    by rewrite split_ws_space, IH.
Qed.

Lemma replace_char_app c d (a b : string) :
  replace_char c d (a +:+ b) = replace_char c d a +:+ replace_char c d b.
Proof.
  induction a as [|x a IH]; [reflexivity|].
  by rewrite str_app_cons; simpl; rewrite IH, str_app_cons.
Qed.

Lemma replace_space_word w :
  is_word w -> replace_char " " "+" w = w.
Proof.
  intros [_ Hall]. induction w as [|c w IH]; [done|].
  simpl in *. apply andb_true_iff in Hall as [Hc Hall]. rewrite IH by done.
  destruct (Ascii.eqb_spec c " ") as [->|]; [discriminate Hc|done].
Qed.

Lemma replace_space_join words :
  Forall is_word words ->
  replace_char " " "+" (PyStr.join " " words) = PyStr.join "+" words.
Proof.
  induction 1 as [|w ws Hw Hws IH]; [reflexivity|].
  destruct ws as [|v ws]; [by apply replace_space_word|].
  rewrite !join_cons by discriminate.
  by rewrite !replace_char_app, IH, replace_space_word.
Qed.

(** X24: the URL the Playwright and the Selenium scraper open holds no
    whitespace, whatever the query; for a query of words separated by
    single spaces it is the URL [app.scrape_ebay] opens, followed by the
    sort parameter; the URL of [app.scrape_ebay] keeps every whitespace
    of the query other than the space. *)
Theorem browser_search_url_words (search_query : string) :
  all_chars not_space (browser_search_url search_query) = true
  /\ (forall words,
         Forall is_word words ->
         search_query = PyStr.join " " words ->
         browser_search_url search_query
         = app_search_url search_query +:+ "&_sop=12")
  /\ all_chars not_space (app_search_url search_query)
     = all_chars (fun c => not_space c || Ascii.eqb c " ") search_query.
Proof.
  split; [|split].
  - unfold browser_search_url. rewrite !all_chars_app.
    rewrite (join_words_no_space "+" _ eq_refl (split_ws_words search_query)).
    reflexivity.
  - intros words Hwords ->. unfold browser_search_url, app_search_url.
    rewrite split_ws_join, replace_space_join by done.
    by rewrite !str_app_assoc.
  - unfold app_search_url. rewrite all_chars_app.
    change (all_chars not_space "https://www.ebay.co.uk/sch/i.html?_nkw=")
      with true.
    cbn [andb].
    induction search_query as [|c r IH]; [reflexivity|].
    simpl. rewrite IH. f_equal.
    destruct (Ascii.eqb_spec c " ") as [->|]; [reflexivity|].
    by rewrite orb_false_r.
Qed.

Lemma browser_search_url_words_witness :
  browser_search_url "iphone 13 pro"
  = app_search_url "iphone 13 pro" +:+ "&_sop=12".
Proof.
  apply (proj1 (proj2 (browser_search_url_words "iphone 13 pro"))
               ["iphone"; "13"; "pro"]%string).
  - repeat constructor; discriminate.
  - reflexivity.
Defined.

(** ** The two price readers on ordinary price texts *)

Lemma prefix_head_ne a sub c r :
  a <> c -> String.prefix (String a sub) (String c r) = false.
Proof.
  intros H.
  change (String.prefix (String a sub) (String c r))
    with (if ascii_dec a c then String.prefix sub r else false).
  by destruct (ascii_dec a c).
Qed.

Lemma prefix_head_eq a c r :
  String.prefix (String a EmptyString) (String c r) = Ascii.eqb c a.
Proof.
  change (String.prefix (String a EmptyString) (String c r))
    with (if ascii_dec a c then String.prefix "" r else false).
  destruct (ascii_dec a c) as [<-|Hne].
  - rewrite Ascii.eqb_refl. by destruct r.
  - symmetry. apply Ascii.eqb_neq. congruence.
Qed.

Lemma remove_all_absent a sub s :
  all_chars (fun c => negb (Ascii.eqb c a)) s = true ->
  PyStr.remove_all (String a sub) s = s.
Proof.
  unfold PyStr.remove_all. induction s as [|c r IH]; [reflexivity|].
  cbn [all_chars PyStr.remove_all_from].
  intros [Hc Hr]%andb_true_iff. apply negb_true_iff, Ascii.eqb_neq in Hc.
  rewrite prefix_head_ne by congruence. rewrite andb_false_r.
  by rewrite IH.
Qed.

Lemma remove_all_char a s :
  PyStr.remove_all (String a EmptyString) s
  = PyStr.filter_chars (fun c => negb (Ascii.eqb c a)) s.
Proof.
  unfold PyStr.remove_all. induction s as [|c r IH]; [reflexivity|].
  cbn [PyStr.remove_all_from PyStr.filter_chars].
  rewrite prefix_head_eq. cbn [String.eqb negb andb String.length Nat.sub].
  destruct (Ascii.eqb c a); cbn [negb]; by rewrite IH.
Qed.

Lemma filter_chars_agree (p q : ascii -> bool) s :
  all_chars (fun c => Bool.eqb (p c) (q c)) s = true ->
  PyStr.filter_chars p s = PyStr.filter_chars q s.
Proof.
  induction s as [|c r IH]; [reflexivity|]. simpl.
  intros [Hc Hr]%andb_true_iff. apply Bool.eqb_prop in Hc.
  by rewrite Hc, IH.
Qed.

Lemma contains_needs_head a sub s :
  all_chars (fun c => negb (Ascii.eqb c a)) s = true ->
  PyStr.contains (String a sub) s = false.
Proof.
  induction s as [|c r IH]; [reflexivity|].
  cbn [all_chars PyStr.contains].
  intros [Hc Hr]%andb_true_iff. apply negb_true_iff, Ascii.eqb_neq in Hc.
  rewrite prefix_head_ne by congruence. by rewrite IH.
Qed.

Lemma plain_char c :
  plain c = true ->
  not_space c = true
  /\ negb (Ascii.eqb c "194") = true
  /\ Bool.eqb (negb (Ascii.eqb c ",")) (numeric c) = true.
Proof.
  destruct c as [[] [] [] [] [] [] [] []]; vm_compute; try discriminate;
    by repeat split.
Qed.

(** The enhanced reader on a text without whitespace and with at most
    one point. *)
Lemma enhanced_reads t :
  all_chars not_space t = true ->
  (PyStr.count "." t <= 1)%nat ->
  option_map float_of_Decimal (PriceParser.extract_numeric_price t)
  = float_of_text (PyStr.filter_chars numeric t).
Proof.
  intros Hns Hcount. destruct t as [|c r]; [reflexivity|].
  unfold PriceParser.extract_numeric_price.
  rewrite strip_empty_iff_blank.
  assert (all_chars PyStr.isspace (String c r) = false) as ->.
  { simpl in *. apply andb_true_iff in Hns as [Hc _].
    unfold not_space in Hc. apply negb_true_iff in Hc. by rewrite Hc. }
  assert (String.eqb (String c r) "Not specified" = false) as ->.
  { apply String.eqb_neq. intros Heq. rewrite Heq in Hns.
    vm_compute in Hns. discriminate Hns. }
  cbn [String.eqb orb]. cbv zeta.
  rewrite (contains_needs_head " " "to " (String c r)).
  2:{ eapply all_chars_impl; [|exact Hns].
      intros x Hx. destruct (Ascii.eqb_spec x " ") as [->|]; [|done].
      discriminate Hx. }
  fold numeric. rewrite count_point_numeric.
  assert ((1 <? PyStr.count "." (String c r))%nat = false) as ->
      by (apply Nat.ltb_ge; lia).
  unfold float_of_text.
  by destruct (PyStr.filter_chars numeric (String c r)).
Qed.

Section PriceReaders.

Variable py_float : string -> option Q.
Variable str_float : Q -> string.

(** On digits and points [float] reads the number [Decimal] reads. *)
Hypothesis py_float_plain :
  forall s, all_chars numeric s = true -> py_float s = float_of_text s.

(** X25: on an ordinary price text, a pound sign or none followed by
    digits, commas and at most one point, the first parser and the
    enhanced parser read the same amount: the number the digits and the
    point spell; both find no amount when there is no digit. *)
Theorem parsers_agree_on_plain_prices (body : string) :
  all_chars plain body = true ->
  (PyStr.count "." body <= 1)%nat ->
  let amount := float_of_text (PyStr.filter_chars numeric body) in
  (Parser.price_of py_float str_float (priced ("£" +:+ body)) = amount
   /\ MarketAnalyzer.record_price (priced ("£" +:+ body)) = amount)
  /\ (Parser.price_of py_float str_float (priced body) = amount
      /\ MarketAnalyzer.record_price (priced body) = amount).
Proof.
  intros Hplain Hcount. cbv zeta.
  assert (all_chars not_space body = true) as Hns.
  { eapply all_chars_impl; [|exact Hplain]. intros c Hc.
    by destruct (plain_char c Hc). }
  assert (PyStr.remove_all "," (PyStr.remove_all "£" body)
          = PyStr.filter_chars numeric body) as Hlegacy.
  { rewrite (remove_all_absent "194" _ body).
    - rewrite remove_all_char. apply filter_chars_agree.
      eapply all_chars_impl; [|exact Hplain]. intros c Hc.
      by destruct (plain_char c Hc) as (_ & _ & ?).
    - eapply all_chars_impl; [|exact Hplain]. intros c Hc.
      by destruct (plain_char c Hc) as (_ & ? & _). }
  assert (PyStr.remove_all "£" ("£" +:+ body) = PyStr.remove_all "£" body)
    as Hpound by (by destruct body).
  assert (forall t, Parser.price_of py_float str_float (priced t)
                    = py_float (PyStr.remove_all
                                  "," (PyStr.remove_all "£" t))) as Hprice.
  { intros t. unfold Parser.price_of, priced.
    by rewrite lookup_insert_eq. }
  assert (forall t, MarketAnalyzer.record_price (priced t)
                    = option_map float_of_Decimal
                        (PriceParser.extract_numeric_price t)) as Hrecord.
  { intros t. unfold MarketAnalyzer.record_price, priced, dict_get.
    by rewrite lookup_insert_eq. }
  split; split.
  - rewrite Hprice, Hpound, Hlegacy. apply py_float_plain, all_chars_filter.
  - rewrite Hrecord, enhanced_reads.
    + by rewrite !str_app_cons, str_app_nil.
    + by rewrite !str_app_cons, str_app_nil.
    + by rewrite !str_app_cons, str_app_nil.
  - rewrite Hprice, Hlegacy. apply py_float_plain, all_chars_filter.
  - by rewrite Hrecord, enhanced_reads.
Qed.

End PriceReaders.

Lemma parsers_agree_on_plain_prices_witness :
  Parser.price_of float_of_text (fun _ => ""%string) (priced "£1,234.50")
  = float_of_text "1234.50"
  /\ MarketAnalyzer.record_price (priced "£1,234.50")
     = float_of_text "1234.50".
Proof.
  destruct (parsers_agree_on_plain_prices
              float_of_text (fun _ => ""%string) (fun s _ => eq_refl)
              "1,234.50" eq_refl)
    as [[H1 H2] _]; [vm_compute; lia|].
  split; [exact H1|exact H2].
Defined.

(** ** Brand averages and the price range *)

Lemma mapM_Some_covers {A B} (f : A -> option B) (l : list A) (k : list B) :
  mapM f l = Some k ->
  forall x y, In x l -> f x = Some y -> In y k.
Proof.
  revert k. induction l as [|a l IH]; csimpl; intros k; [by intros _ ? ? []|].
  destruct (f a) as [b|] eqn:Hfa; csimpl; [|done].
  destruct (mapM f l) as [bs|]; csimpl; [|done].
  intros [= <-] x y [->|Hin] Hx.
  - left. congruence.
  - right. by apply (IH bs eq_refl x y).
Qed.

Section BrandRange.

Local Open Scope Q_scope.
Import Statistics.

Variable py_float : string -> option Q.
Variable str_float : Q -> string.

Lemma group_append_within (prices : list Q) key x groups :
  In x prices ->
  (forall k xs, In (k, xs) groups ->
                xs <> [] /\ forall y, In y xs -> In y prices) ->
  forall k xs, In (k, xs) (group_append key x groups) ->
               xs <> [] /\ forall y, In y xs -> In y prices.
Proof.
  intros Hx Hgroups k xs Hin.
  apply group_append_In in Hin as [Hin|[(xs0 & Hin & ->)|[-> ->]]].
  - exact (Hgroups k xs Hin).
  - destruct (Hgroups _ _ Hin) as [_ Hall].
    split; [by destruct xs0|].
    intros y [Hy|[<-|[]]]%in_app_or; [by apply Hall|done].
  - split; [done|]. by intros y [<-|[]].
Qed.

Lemma legacy_brand_groups_prices (prices : list Q) products :
  (forall p x, In p products ->
               Parser.price_of py_float str_float p = Some x -> In x prices) ->
  forall ps acc groups,
    (forall p, In p ps -> In p products) ->
    (forall k xs, In (k, xs) acc ->
                  xs <> [] /\ forall x, In x xs -> In x prices) ->
    foldl (legacy_brand_step py_float str_float) (Some acc) ps = Some groups ->
    forall k xs, In (k, xs) groups ->
                 xs <> [] /\ forall x, In x xs -> In x prices.
Proof.
  intros Hprices. induction ps as [|p ps IH]; intros acc groups Hps Hacc.
  - by intros [= <-].
  - cbn [foldl]. unfold legacy_brand_step at 2. csimpl.
    destruct (truthy (dict_get p "brand" PyNone)).
    + destruct (Parser.price_of py_float str_float p) as [price|] eqn:Hp;
        csimpl.
      * apply IH; [intros; apply Hps; by right|].
        apply group_append_within; [|exact Hacc].
        apply (Hprices p); [apply Hps; by left|done].
      * by rewrite legacy_brand_loop_raised.
    + apply IH; [intros; apply Hps; by right|exact Hacc].
Qed.

Lemma average_within (prices xs : list Q) :
  xs <> [] -> (forall x, In x xs -> In x prices) ->
  list_min prices <= mean xs /\ mean xs <= list_max prices.
Proof.
  intros Hne Hin. apply mean_between; [done|].
  intros x Hx. apply prices_bounded. by apply Hin.
Qed.

(** X26: on records whose prices are plain decimal numerals, every
    brand average that the first parser's analysis returns lies between
    the minimum and the maximum price it reports. *)
Theorem brand_averages_within_range products analysis brand avg :
  plain_prices str_float products = true ->
  Parser.analyze_market_data py_float str_float products = Some analysis ->
  In (brand, avg) (Parser.brand_averages analysis) ->
  Parser.price_range_min (Parser.market_stats analysis) <= avg
  /\ avg <= Parser.price_range_max (Parser.market_stats analysis).
Proof.
  intros _. unfold Parser.analyze_market_data.
  destruct (nonempty products); [|by intros [= <-] []].
  destruct (mapM _ _) as [prices|] eqn:Hm; csimpl; [|done].
  destruct (nonempty prices); [|by intros [= <-] []].
  change (foldl _ (Some []) products)
    with (foldl (legacy_brand_step py_float str_float) (Some []) products).
  destruct (foldl _ _ _) as [groups|] eqn:Hl; csimpl; [|done].
  intros [= <-]. cbn.
  intros ([k xs] & [= <- <-] & Hin)%in_map_iff.
  apply (legacy_brand_groups_prices prices products) with (k := k) (xs := xs)
    in Hl as [Hne Hall]; [by apply average_within| |done|by intros ? ? []|done].
  intros p x Hp Hx. apply (mapM_Some_covers _ _ _ Hm p x); [|done].
  apply List.filter_In. split; [done|].
  unfold Parser.price_of, Parser.has_key in *.
  by destruct (p !! "price").
Qed.

End BrandRange.

Lemma brand_averages_within_range_witness :
  exists analysis,
    Parser.analyze_market_data
      float_of_text (fun _ => ""%string)
      [<["brand" := PyStr "Acme"]> (priced "£10");
       <["brand" := PyStr "Zenith"]> (priced "£30");
       <["brand" := PyStr "Acme"]> (priced "£20")]
    = Some analysis
    /\ (Parser.price_range_min (Parser.market_stats analysis)
        <= (10 + 20) / inject_Z 2)%Q
    /\ ((10 + 20) / inject_Z 2
        <= Parser.price_range_max (Parser.market_stats analysis))%Q.
Proof.
  eexists. split; [vm_compute; reflexivity|].
  refine (brand_averages_within_range
            float_of_text (fun _ => ""%string)
            [<["brand" := PyStr "Acme"]> (priced "£10");
             <["brand" := PyStr "Zenith"]> (priced "£30");
             <["brand" := PyStr "Acme"]> (priced "£20")]
            _ (PyStr "Acme") _ _ _ _).
  - vm_compute. reflexivity.
  - vm_compute. reflexivity.
  - vm_compute. tauto.
Defined.

(** ** The API endpoint *)

Section EndpointFacts.

Import AppEndpoint.

Variable str_exn : exn -> string.
Variable completion : list pydict -> option string.

(** X27: the endpoint answers with the records exactly when the page
    delivers listings and [listings[:max_results]] is not empty; the
    analysis is then the completion or, when that request fails, the fixed
    sentence, so a failing analysis never fails the request; in every
    other case the status is 500, never the 404 raised for an empty
    result; a maximum of 0 always ends in status 500. *)
Theorem endpoint_status (page : exn + list listing) (max_results : Z) :
  let answer := scrape str_exn completion page max_results in
  (forall response,
      answer = inr response <->
      exists listings,
        page = inr listings
        /\ slice_to max_results listings <> []
        /\ response
           = {| items := map App.listing_record
                             (slice_to max_results listings);
                analysis :=
                  default "Unable to perform AI analysis at this time."%string
                          (completion
                             (map App.listing_record
                                  (slice_to max_results listings))) |})
  /\ (forall e, answer = inl e ->
                exists detail, e = HTTPException 500 detail)
  /\ (max_results = 0%Z -> exists detail, answer = inl (HTTPException 500 detail)).
Proof.
  cbv zeta. unfold scrape.
  destruct page as [e|listings].
  - split; [|split].
    + intros response. split; [done|]. by intros (? & [=] & _).
    + intros ? [= <-]. by eexists.
    + intros _. by eexists.
  - rewrite scrape_ebay_map. unfold analyze_with_ai.
    destruct (slice_to max_results listings) as [|l ls] eqn:Hslice.
    + cbn [map nonempty]. split; [|split].
      * intros response. split; [done|].
        intros (? & [= <-] & Hne & _). by rewrite Hslice in Hne.
      * intros ? [= <-]. by eexists.
      * intros _. by eexists.
    + cbn [nonempty map]. split; [|split].
      * intros response. split.
        -- intros [= <-]. exists listings. rewrite Hslice.
           split; [done|]. split; [done|].
           by destruct (completion _).
        -- intros (? & [= <-] & _ & ->). rewrite Hslice.
           by destruct (completion _).
      * done.
      * intros ->. discriminate Hslice.
Qed.

End EndpointFacts.

Lemma endpoint_status_witness :
  exists detail,
    AppEndpoint.scrape (fun _ => "404: No items found"%string) (fun _ => None)
                       (inr [full_listing]) 0
    = inl (AppEndpoint.HTTPException 500 detail).
Proof.
  apply (proj2 (proj2 (endpoint_status
                          (fun _ => "404: No items found"%string)
                          (fun _ => None) (inr [full_listing]) 0))).
  reflexivity.
Defined.

(** ** Cleaned page text *)

Lemma split_no_sep c s :
  PyStr.count c s = 0%nat -> PyStr.split c s = [s].
Proof.
  induction s as [|d r IH]; [reflexivity|]. simpl.
  destruct (Ascii.eqb d c); [discriminate|]. intros H. by rewrite IH.
Qed.

Lemma split_app_sep c s t :
  PyStr.count c s = 0%nat ->
  PyStr.split c (s +:+ String c t) = s :: PyStr.split c t.
Proof.
  induction s as [|d r IH].
  - intros _. rewrite str_app_nil. simpl. by rewrite Ascii.eqb_refl.
  - simpl PyStr.count. rewrite str_app_cons. simpl PyStr.split.
    destruct (Ascii.eqb d c); [discriminate|]. intros H. by rewrite IH.
Qed.

(** [c.join(lines).split(c) == lines] for lines without [c]. *)
Lemma split_join c lines :
  lines <> [] ->
  Forall (fun line => PyStr.count c line = 0%nat) lines ->
  PyStr.split c (PyStr.join (String c EmptyString) lines) = lines.
Proof.
  intros Hne Hall. induction Hall as [|l ls Hl Hls IH]; [done|].
  destruct ls as [|m ls]; [by apply split_no_sep|].
  rewrite join_cons by discriminate. rewrite str_app_cons, str_app_nil.
  rewrite split_app_sep by done. by rewrite IH.
Qed.

Lemma lstrip_count c s :
  (PyStr.count c (PyStr.lstrip s) <= PyStr.count c s)%nat.
Proof.
  induction s as [|d r IH]; [done|]. simpl.
  destruct (PyStr.isspace d); [|done].
  destruct (Ascii.eqb d c); lia.
Qed.

Lemma rstrip_count c s :
  (PyStr.count c (PyStr.rstrip s) <= PyStr.count c s)%nat.
Proof.
  induction s as [|d r IH]; [done|]. simpl.
  destruct (PyStr.rstrip r) as [|e r'].
  - destruct (PyStr.isspace d); simpl; destruct (Ascii.eqb d c); lia.
  - simpl in *. destruct (Ascii.eqb d c); lia.
Qed.

Lemma strip_count c s :
  (PyStr.count c (PyStr.strip s) <= PyStr.count c s)%nat.
Proof.
  unfold PyStr.strip. pose proof (rstrip_count c (PyStr.lstrip s)).
  pose proof (lstrip_count c s). lia.
Qed.

Lemma line_boundary_nl : EnhancedCleaning.is_line_boundary nl = true.
Proof. reflexivity. Qed.

(** No line of [splitlines] holds a line feed. *)
Lemma splitlines_no_nl s after_cr :
  Forall (fun line => PyStr.count nl line = 0%nat)
         (EnhancedCleaning.splitlines_from after_cr s).
Proof.
  revert after_cr. induction s as [|c r IH]; intros after_cr;
    [apply List.Forall_nil|].
  cbn [EnhancedCleaning.splitlines_from].
  destruct (after_cr && Ascii.eqb c nl); [apply IH|].
  destruct (EnhancedCleaning.is_line_boundary c) eqn:Hb.
  - apply List.Forall_cons; [reflexivity|apply IH].
  - assert (Ascii.eqb c nl = false) as Hc.
    { destruct (Ascii.eqb_spec c nl) as [->|]; [|done].
      by rewrite line_boundary_nl in Hb. }
    pose proof (IH false) as Hr.
    destruct (EnhancedCleaning.splitlines_from false r) as [|line lines].
    + apply List.Forall_cons; [|apply List.Forall_nil]. simpl. by rewrite Hc.
    + inversion Hr as [|? ? Hline Hlines]; subst.
      apply List.Forall_cons; [|done]. simpl. by rewrite Hc.
Qed.

Lemma join_not_empty sep line lines :
  line <> EmptyString -> PyStr.join sep (line :: lines) <> EmptyString.
Proof.
  intros Hne. destruct line as [|c r]; [done|].
  destruct lines as [|m lines]; [done|].
  rewrite join_cons by discriminate. by rewrite str_app_cons.
Qed.

(** The lines [clean_body_content] keeps. *)
Lemma kept_lines (raw : list string) :
  Forall (fun line => PyStr.count nl line = 0%nat) raw ->
  Forall (fun line => clean_line line /\ PyStr.count nl line = 0%nat)
         (List.filter (fun line => negb (String.eqb line ""))
                      (map PyStr.strip raw)).
Proof.
  induction 1 as [|l ls Hl Hls IH]; [apply List.Forall_nil|].
  cbn [map List.filter].
  destruct (String.eqb_spec (PyStr.strip l) "") as [|Hne]; [exact IH|].
  cbn [negb]. apply List.Forall_cons; [|exact IH].
  split; [split; [done|apply strip_idemp]|].
  pose proof (strip_count nl l). lia.
Qed.

(** X28: the text [clean_body_content] returns is empty or made of
    lines none of which is empty or has whitespace at either end; the
    line chunker then never returns an empty chunk for it. *)
Theorem cleaned_content_lines (soup : list Soup.node) :
  let cleaned := EnhancedCleaning.clean_body_content soup in
  (cleaned = EmptyString \/ Forall clean_line (PyStr.split nl cleaned))
  /\ forall max_length chunk,
       cleaned <> EmptyString ->
       In chunk (ScraperEnhanced.split_dom_content cleaned max_length) ->
       chunk <> EmptyString.
Proof.
  cbv zeta. unfold EnhancedCleaning.clean_body_content. cbv zeta.
  set (raw := EnhancedCleaning.splitlines _).
  pose proof (kept_lines raw (splitlines_no_nl _ false)) as Hkept.
  destruct (List.filter _ _) as [|line lines]; [by split; [left|]|].
  assert (PyStr.split nl (PyStr.join newline (line :: lines)) = line :: lines)
    as Hsplit.
  { apply split_join; [done|].
    eapply Forall_impl; [exact Hkept|]. by intros ? [_ ?]. }
  split.
  - right. rewrite Hsplit. eapply Forall_impl; [exact Hkept|].
    by intros ? [? _].
  - intros max_length chunk _ Hin.
    destruct (enhanced_chunks_of (PyStr.join newline (line :: lines))
                                 max_length)
      as (groups & Hout & Hgroups & Hconcat).
    rewrite Hout in Hin. apply in_map_iff in Hin as (g & <- & Hg).
    rewrite List.Forall_forall in Hgroups.
    destruct (Hgroups g Hg) as [Hne _].
    destruct g as [|first rest]; [done|].
    apply join_not_empty.
    assert (In first (line :: lines)) as Hfirst.
    { rewrite <- Hsplit, <- Hconcat. apply in_concat.
      exists (first :: rest). split; [done|by left]. }
    rewrite List.Forall_forall in Hkept.
    by destruct (Hkept first Hfirst) as [[? _] _].
Qed.

Lemma cleaned_content_lines_witness :
  let soup :=
    [Soup.Tag "body"
       [Soup.Tag "script" [Soup.Text "var x = 1;"];
        Soup.Tag "div" [Soup.Text "  Apple iPhone 13  ";
                        Soup.Tag "span" [Soup.Text " £399.00 "]];
        Soup.Text "   "]] in
  EnhancedCleaning.clean_body_content soup
  = ("Apple iPhone 13" +:+ newline +:+ "£399.00")%string
  /\ ScraperEnhanced.split_dom_content
       (EnhancedCleaning.clean_body_content soup) 10%Z
     = ["Apple iPhone 13"; "£399.00"]%string
  /\ "£399.00"%string <> EmptyString.
Proof.
  cbv zeta. split; [reflexivity|]. split; [reflexivity|].
  apply (proj2 (cleaned_content_lines
                  [Soup.Tag "body"
                     [Soup.Tag "script" [Soup.Text "var x = 1;"];
                      Soup.Tag "div" [Soup.Text "  Apple iPhone 13  ";
                                      Soup.Tag "span" [Soup.Text " £399.00 "]];
                      Soup.Text "   "]]) 10%Z "£399.00"%string).
  - vm_compute. discriminate.
  - vm_compute. right. by left.
Defined.

(** ** Removing elements before the text is taken *)

Lemma decompose_leaves_none names :
  forall n,
    flat_map (Soup.find_all_from names) (EnhancedCleaning.decompose names n)
    = [].
Proof.
  fix IH 1. intros [s|name children].
  - reflexivity.
  - cbn [EnhancedCleaning.decompose].
    destruct (existsb (String.eqb name) names) eqn:Hname; [reflexivity|].
    cbn [flat_map Soup.find_all_from]. rewrite Hname, app_nil_r. cbn [app].
    induction children as [|c cs IHcs]; [reflexivity|].
    cbn [flat_map]. rewrite flat_map_app, IH. exact IHcs.
Qed.

Lemma decompose_strings names :
  forall n s,
    In s (flat_map EnhancedCleaning.strings (EnhancedCleaning.decompose names n)) ->
    In s (EnhancedCleaning.strings n).
Proof.
  fix IH 1. intros [t|name children] s.
  - cbn. by rewrite ?app_nil_r.
  - cbn [EnhancedCleaning.decompose].
    destruct (existsb (String.eqb name) names); [by intros []|].
    cbn [flat_map EnhancedCleaning.strings]. rewrite ?app_nil_r.
    induction children as [|c cs IHcs]; [done|].
    cbn [flat_map]. rewrite flat_map_app, !in_app_iff.
    intros [Hin|Hin]; [left; by apply IH|right; by apply IHcs].
Qed.

(** X29: after the removal no [script], [style], [meta], [link],
    [header], [footer] or [aside] element is left anywhere in the
    document, however deep it was, and every string of the remaining
    document is a string of the document. *)
Theorem removal_is_complete (soup : list Soup.node) :
  let remaining :=
    flat_map (EnhancedCleaning.decompose EnhancedCleaning.removed_tags) soup in
  Soup.find_all EnhancedCleaning.removed_tags remaining = []
  /\ forall s, In s (flat_map EnhancedCleaning.strings remaining) ->
               In s (flat_map EnhancedCleaning.strings soup).
Proof.
  cbv zeta. unfold Soup.find_all. split.
  - induction soup as [|n soup IH]; [reflexivity|].
    cbn [flat_map]. by rewrite flat_map_app, decompose_leaves_none, IH.
  - intros s. induction soup as [|n soup IH]; [done|].
    cbn [flat_map]. rewrite flat_map_app, !in_app_iff.
    intros [Hin|Hin]; [left; by eapply decompose_strings|right; by apply IH].
Qed.
